(** * toorpia MCP server: workflow gate, token verifier and audit recorder

    A shallow embedding of [src/middleware/guard.ts], [src/middleware/auth.ts],
    [src/utils/audit.ts], [src/types.ts], the zod schemas and the tool
    dispatcher of [src/server.ts], followed by the properties of the
    session store, the READY gate, the scope parser and the audit trail.

    Conventions of the embedding.
    - A JavaScript string is a Rocq [string] (its UTF-8 bytes).  Every
      separator the code tests for is ASCII, so splitting, prefix tests and
      equality agree with the UTF-16 view of the runtime.
    - A JavaScript number that the code itself produces and treats as an
      integer (a clock in milliseconds) is a [Z]; the values are far below
      2^53, where the runtime's doubles are exact.  A number that arrives in
      a JSON payload is a numeral read through the double nearest to it.
    - The two module-level [Map]s of guard.ts are one explicit [Store] that is
      threaded through every operation; the audit file is a list of records.
    - A thrown [Error] is the [Throw] case of [Result], carrying its message.
    - What the process cannot decide by itself (environment variables, the
      JWT library, the analysis backend, the disk) is a field of [World]. *)

From Stdlib Require Import ZArith Ascii String Decimal DecimalString DecimalPos DecimalZ.
From stdpp Require Import gmap strings list fin_maps.

Set Warnings "-register-all".

Local Open Scope string_scope.
Local Open Scope Z_scope.

(** ** JavaScript built-ins used by the sources *)

Module Js.

(** [s.split(sep)] for a one-character separator: the fragments between the
    separators, so that a string of [n] separators has [n + 1] fragments. *)
Fixpoint split (sep : ascii) (s : string) : list string :=
  match s with
  | EmptyString => [EmptyString]
  | String c rest =>
      if Ascii.eqb c sep then EmptyString :: split sep rest
      else match split sep rest with
           | [] => [String c EmptyString]
           | frag :: frags => String c frag :: frags
           end
  end.

(** [s.startsWith(p)]. *)
Definition startsWith (p s : string) : bool := String.prefix p s.

(** [s.slice(n)] for [0 <= n]. *)
Definition slice_from (n : nat) (s : string) : string :=
  String.substring n (String.length s - n)%nat s.

(** [s.slice(0, n)]. *)
Definition slice_to (n : nat) (s : string) : string :=
  String.substring 0 n s.

(** [String(n)] for an integer number: its decimal digits, with a leading
    minus sign when negative. *)
Definition numberToString (n : Z) : string :=
  NilEmpty.string_of_int (Z.to_int n).

(** White space that [parseInt] skips (the ASCII part of StrWhiteSpaceChar). *)
Definition isWhiteSpace (c : ascii) : bool :=
  let n := nat_of_ascii c in
  ((9 <=? n) && (n <=? 13))%nat || (n =? 32)%nat.

Fixpoint skipWhiteSpace (s : string) : string :=
  match s with
  | String c rest => if isWhiteSpace c then skipWhiteSpace rest else s
  | EmptyString => s
  end.

(** The value of [c] as a digit of the given radix (10 or 16). *)
Definition digitValue (radix : Z) (c : ascii) : option Z :=
  let n := Z.of_nat (nat_of_ascii c) in
  if (48 <=? n) && (n <=? 57) then Some (n - 48)
  else if (radix =? 16) && (97 <=? n) && (n <=? 102) then Some (n - 87)
  else if (radix =? 16) && (65 <=? n) && (n <=? 70) then Some (n - 55)
  else None.

(** The longest prefix of digits read as a number; [acc] is [None] until the
    first digit has been seen. *)
Fixpoint readDigits (radix : Z) (s : string) (acc : option Z) : option Z :=
  match s with
  | String c rest =>
      match digitValue radix c with
      | Some d => readDigits radix rest (Some (radix * default 0 acc + d))
      | None => acc
      end
  | EmptyString => acc
  end.

(** The part of [parseInt] after the sign: a [0x] prefix selects radix 16,
    and the digits that follow are read; [None] is NaN. *)
Definition readMagnitude (sign : Z) (s : string) : option Z :=
  let '(radix, digits) :=
    match s with
    | String "0" (String "x" rest) => (16, rest)
    | String "0" (String "X" rest) => (16, rest)
    | _ => (10, s)
    end in
  Z.mul sign <$> readDigits radix digits None.

(** [parseInt(s)] without a radix argument. *)
Definition parseInt (s : string) : option Z :=
  match skipWhiteSpace s with
  | String "-" rest => readMagnitude (-1) rest
  | String "+" rest => readMagnitude 1 rest
  | s1 => readMagnitude 1 s1
  end.

(** Every character of [s] satisfies [p]. *)
Fixpoint allChars (p : ascii -> bool) (s : string) : bool :=
  match s with
  | EmptyString => true
  | String c rest => p c && allChars p rest
  end.

Definition notSep (sep c : ascii) : bool := negb (Ascii.eqb c sep).

(** [xs.includes(x)] on an array of strings. *)
Definition includes (x : string) (xs : list string) : bool :=
  bool_decide (x ∈ xs).

(** Truthiness of an optional string: [undefined] and the empty string are
    falsy. *)
Definition truthy (o : option string) : bool :=
  match o with
  | Some s => negb (String.eqb s EmptyString)
  | None => false
  end.

(** [a || b] on a possibly undefined string with a string fallback. *)
Definition orElse (o : option string) (d : string) : string :=
  if truthy o then default d o else d.

(** [xs.join(sep)]. *)
Fixpoint join (sep : string) (xs : list string) : string :=
  match xs with
  | [] => EmptyString
  | [x] => x
  | x :: rest => x ++ sep ++ join sep rest
  end.

End Js.

(** ** Numbers of the runtime: doubles, [Number::toString] *)

Module Number.

(** A number of a JSON payload, held by a decimal numeral that denotes it:
    [mantissa * 10 ^ exponent], as every number of a JSON text is written.
    The runtime holds the double nearest to it, [toDouble], and reads
    nothing else of it. *)
Record t : Type := mk { mantissa : Z; exponent : Z }.

Definition ofZ (n : Z) : t := mk n 0.

(** A double other than NaN: zero, [m * 2 ^ e] with [0 < m < 2 ^ 53] and
    [-1074 <= e <= 971], or an infinity.  The sign of a zero is not kept: the
    runtime prints both zeros as 0 and the sources read nothing else of
    one. *)
Inductive Double : Type :=
| DZero
| DFinite (negative : bool) (m e : Z)
| DInfinity (negative : bool).

(** [b ^ n] by repeated squaring; 1 for a negative [n]. *)
Fixpoint powPos (b : Z) (n : positive) : Z :=
  match n with
  | xH => b
  | xO h => let r := powPos b h in r * r
  | xI h => let r := powPos b h in b * (r * r)
  end.

Definition pow (b n : Z) : Z :=
  match n with
  | Zpos p => powPos b p
  | _ => 1
  end.

(** [n / d] rounded to the nearest integer, a tie to the even one. *)
Definition roundHalfEven (n d : Z) : Z :=
  let q := n / d in
  let r := n mod d in
  if 2 * r <? d then q
  else if d <? 2 * r then q + 1
  else if Z.even q then q else q + 1.

(** The double nearest to the numeral, a tie to the even significand. *)
Definition toDouble (x : t) : Double :=
  let negative := mantissa x <? 0 in
  let a := Z.abs (mantissa x) * pow 10 (exponent x) in
  let b := pow 10 (- exponent x) in
  if a =? 0 then DZero
  else
    let scaled e := (a * pow 2 (- e), b * pow 2 e) in
    let e0 := Z.log2 a - Z.log2 b - 53 in
    let e1 := if 2 ^ 53 <=? fst (scaled e0) / snd (scaled e0) then e0 + 1 else e0 in
    let e2 := Z.max e1 (-1074) in
    let m := roundHalfEven (fst (scaled e2)) (snd (scaled e2)) in
    let '(m, e) := if m =? 2 ^ 53 then (2 ^ 52, e2 + 1) else (m, e2) in
    if m =? 0 then DZero
    else if 971 <? e then DInfinity negative
    else DFinite negative m e.

(** Whether some [s * 10 ^ p] with [1 <= s] lies in the rounding interval
    [lo * 2 ^ e .. hi * 2 ^ e], and the [s] nearest to [v * 2 ^ e] if so. *)
Definition nearestMultiple (inclusive : bool) (lo v hi e p : Z) : option Z :=
  let a := pow 2 e * pow 10 (- p) in
  let b := pow 10 p * pow 2 (- e) in
  let smin := if inclusive then (lo * a + b - 1) / b else lo * a / b + 1 in
  let smax := if inclusive then hi * a / b else (hi * a + b - 1) / b - 1 in
  if smax <? smin then None
  else
    let down := v * a / b in
    let r := (v * a) mod b in
    let up := down + 1 in
    let nearest :=
      if r =? 0 then down
      else if 2 * r <? b then down
      else if b <? 2 * r then up
      else if Z.even down then down else up in
    Some (Z.max smin (Z.min smax nearest)).

Fixpoint shortestFrom (inclusive : bool) (lo v hi e : Z) (steps : nat) (p : Z) : Z * Z :=
  match nearestMultiple inclusive lo v hi e p with
  | Some s => (s, p)
  | None =>
      match steps with
      | O => (0, p)
      | S k => shortestFrom inclusive lo v hi e k (p - 1)
      end
  end.

(** The shortest decimal [s * 10 ^ p] that rounds to [m * 2 ^ e]. *)
Definition shortest (m e : Z) : Z * Z :=
  let lowerIsCloser := (m =? 2 ^ 52) && (-1074 <? e) in
  let v := 4 * m in
  let lo := v - (if lowerIsCloser then 1 else 2) in
  let hi := v + 2 in
  let bits := Z.log2 hi + (e - 2) + 1 in
  let start := (if 0 <=? bits then bits * 31 / 100 else bits * 30 / 100) + 1 in
  let last := Z.min e 0 in
  shortestFrom (Z.even m) lo v hi (e - 2) (Z.to_nat (start - last)) start.

Definition zeros (n : Z) : string :=
  string_of_list_ascii (repeat "0"%char (Z.to_nat n)).

(** The layout of [Number::toString] for the digits of [s] and the position
    [n] of the decimal point. *)
Definition layout (s p : Z) : string :=
  let digits := Js.numberToString s in
  let k := Z.of_nat (String.length digits) in
  let n := k + p in
  if (k <=? n) && (n <=? 21) then digits ++ zeros (n - k)
  else if (0 <? n) && (n <=? 21) then
    String.substring 0 (Z.to_nat n) digits ++ "."
      ++ String.substring (Z.to_nat n) (Z.to_nat (k - n)) digits
  else if (-6 <? n) && (n <=? 0) then "0." ++ zeros (- n) ++ digits
  else
    let shown :=
      if k =? 1 then digits
      else String.substring 0 1 digits ++ "."
             ++ String.substring 1 (Z.to_nat (k - 1)) digits in
    shown ++ "e" ++ (if 0 <=? n - 1 then "+" else "-") ++ Js.numberToString (Z.abs (n - 1)).

(** [String(x)] for a double. *)
Definition toString (x : Double) : string :=
  match x with
  | DZero => "0"
  | DFinite negative m e =>
      (if negative then "-" else "") ++ layout (fst (shortest m e)) (snd (shortest m e))
  | DInfinity negative => if negative then "-Infinity" else "Infinity"
  end.

(** The value of a double that is an integer ([Number.isInteger]). *)
Definition integerValue (x : Double) : option Z :=
  match x with
  | DZero => Some 0
  | DFinite negative m e =>
      let sign := if negative then -1 else 1 in
      if 0 <=? e then Some (sign * m * pow 2 e)
      else if m mod pow 2 (- e) =? 0 then Some (sign * (m / pow 2 (- e)))
      else None
  | DInfinity _ => None
  end.

(** [JSON.stringify] of a number: its string, or null when it is not finite. *)
Definition serialize (x : t) : string :=
  match toDouble x with
  | DInfinity _ => "null"
  | d => toString d
  end.

End Number.

(** ** JSON values and [JSON.stringify] *)

Module Json.

(** A JSON value as the runtime holds it after parsing.  A number is given
    by a numeral and stands for the double nearest to it; an object lists
    its own properties in enumeration order. *)
Inductive json : Type :=
| JNull
| JBool (b : bool)
| JNum (x : Number.t)
| JStr (s : string)
| JArr (items : list json)
| JObj (fields : list (string * json)).

(** Property access [obj.key]: [None] is [undefined] (a missing property, or
    a property read off something that is not an object). *)
Fixpoint lookupField (key : string) (fields : list (string * json)) : option json :=
  match fields with
  | [] => None
  | (k, v) :: rest => if String.eqb k key then Some v else lookupField key rest
  end.

Definition get (key : string) (j : json) : option json :=
  match j with
  | JObj fields => lookupField key fields
  | _ => None
  end.

Definition quoteChar : ascii := ascii_of_nat 34.
Definition backslash : ascii := ascii_of_nat 92.

Definition hexDigit (n : N) : ascii :=
  if (n <? 10)%N then ascii_of_N (48 + n) else ascii_of_N (87 + n).

(** The escape of one character inside a JSON string literal. *)
Definition escapeChar (c : ascii) : string :=
  let n := N_of_ascii c in
  if (n =? 34)%N then String backslash (String quoteChar EmptyString)
  else if (n =? 92)%N then String backslash (String backslash EmptyString)
  else if (n =? 8)%N then String backslash "b"
  else if (n =? 12)%N then String backslash "f"
  else if (n =? 10)%N then String backslash "n"
  else if (n =? 13)%N then String backslash "r"
  else if (n =? 9)%N then String backslash "t"
  else if (n <? 32)%N then
    String backslash
      ("u00" ++ String (hexDigit (n / 16)) (String (hexDigit (n mod 16)) EmptyString))
  else String c EmptyString.

Fixpoint escape (s : string) : string :=
  match s with
  | EmptyString => EmptyString
  | String c rest => escapeChar c ++ escape rest
  end.

Definition quote (s : string) : string :=
  String quoteChar (escape s ++ String quoteChar EmptyString).

(** [JSON.stringify(j)] without indentation. *)
Fixpoint stringify (j : json) : string :=
  match j with
  | JNull => "null"
  | JBool true => "true"
  | JBool false => "false"
  | JNum x => Number.serialize x
  | JStr s => quote s
  | JArr items => "[" ++ Js.join "," (List.map stringify items) ++ "]"
  | JObj fields =>
      "{" ++ Js.join ","
               (List.map (fun kv => quote (fst kv) ++ ":" ++ stringify (snd kv)) fields)
          ++ "}"
  end.

Definition lineFeed : string := String (ascii_of_nat 10) EmptyString.

(** [JSON.stringify(j, null, gap)] at the indentation [indent]: every
    element of a non-empty array and every property of a non-empty object
    on a line of its own, one [gap] deeper. *)
Fixpoint stringifyIndented (gap indent : string) (j : json) : string :=
  match j with
  | JArr [] => "[]"
  | JArr items =>
      "[" ++ lineFeed ++ (indent ++ gap)
          ++ Js.join ("," ++ lineFeed ++ (indent ++ gap))
               (List.map (stringifyIndented gap (indent ++ gap)) items)
          ++ lineFeed ++ indent ++ "]"
  | JObj [] => "{}"
  | JObj fields =>
      "{" ++ lineFeed ++ (indent ++ gap)
          ++ Js.join ("," ++ lineFeed ++ (indent ++ gap))
               (List.map (fun kv => quote (fst kv) ++ ": "
                                      ++ stringifyIndented gap (indent ++ gap) (snd kv))
                         fields)
          ++ lineFeed ++ indent ++ "}"
  | _ => stringify j
  end.

(** [JSON.stringify] of a value that may be [undefined]: the result is then
    [undefined] as well. *)
Definition stringifyAny (input : option json) : option string :=
  stringify <$> input.

Definition strings (xs : list string) : json := JArr (JStr <$> xs).

End Json.

Export Json(json, JNull, JBool, JNum, JStr, JArr, JObj).

(** ** SHA-256 (FIPS 180-4), the digest behind [createHash('sha256')] *)

Module Sha256.

Local Open Scope N_scope.

Definition wordMod : N := 0x100000000.

Definition add32 (a b : N) : N := (a + b) mod wordMod.

Definition rotr (n x : N) : N :=
  N.lor (N.shiftr x n) (N.shiftl x (32 - n) mod wordMod).

Definition shr (n x : N) : N := N.shiftr x n.

Definition not32 (x : N) : N := N.lxor x 0xffffffff.

Definition Ch (x y z : N) : N := N.lxor (N.land x y) (N.land (not32 x) z).

Definition Maj (x y z : N) : N :=
  N.lxor (N.lxor (N.land x y) (N.land x z)) (N.land y z).

Definition bigSigma0 (x : N) : N := N.lxor (N.lxor (rotr 2 x) (rotr 13 x)) (rotr 22 x).
Definition bigSigma1 (x : N) : N := N.lxor (N.lxor (rotr 6 x) (rotr 11 x)) (rotr 25 x).
Definition smallSigma0 (x : N) : N := N.lxor (N.lxor (rotr 7 x) (rotr 18 x)) (shr 3 x).
Definition smallSigma1 (x : N) : N := N.lxor (N.lxor (rotr 17 x) (rotr 19 x)) (shr 10 x).

(** The primes up to 311: the first 64 primes. *)
Definition isPrime (n : N) : bool :=
  forallb (fun d => negb (n mod N.of_nat d =? 0)) (seq 2 (N.to_nat n - 2)).

Definition firstPrimes : list N :=
  List.filter isPrime (N.of_nat <$> seq 2 310).

(** The integer cube root, found bit by bit from bit 35 down. *)
Definition cubeRoot (n : N) : N :=
  fold_left (fun r b => let r' := r + N.shiftl 1 (N.of_nat b) in
                        if r' * r' * r' <=? n then r' else r)
            (rev (seq 0 36)) 0.

(** The round constants: the first 32 bits of the fractional parts of the
    cube roots of the first 64 primes. *)
Definition K : list N :=
  (fun p => cubeRoot (N.shiftl p 96) mod wordMod) <$> firstPrimes.

(** The eight working words of the hash. *)
Record HashState : Type := mkHash {
  ha : N; hb : N; hc : N; hd : N; he : N; hf : N; hg : N; hh : N
}.

(** The initial hash value: the first 32 bits of the fractional parts of
    the square roots of the first 8 primes. *)
Definition rootWord (i : nat) : N :=
  N.sqrt (N.shiftl (nth i firstPrimes 0) 64) mod wordMod.

Definition initialHash : HashState :=
  mkHash (rootWord 0) (rootWord 1) (rootWord 2) (rootWord 3)
         (rootWord 4) (rootWord 5) (rootWord 6) (rootWord 7).

(** The message with its padding: a one bit, zeros up to 56 modulo 64 bytes,
    and the bit length as a 64-bit big-endian integer. *)
Definition bigEndian (width : nat) (n : N) : list N :=
  (fun i => (N.shiftr n (8 * N.of_nat (width - 1 - i))) mod 256) <$> seq 0 width.

Definition pad (msg : list N) : list N :=
  let len := N.of_nat (List.length msg) in
  let zeros := N.to_nat ((119 - len mod 64) mod 64) in
  (msg ++ [0x80] ++ replicate zeros 0 ++ bigEndian 8 (8 * len))%list.

(** Big-endian 32-bit words of a byte sequence. *)
Fixpoint toWords (bytes : list N) : list N :=
  match bytes with
  | b0 :: b1 :: b2 :: b3 :: rest =>
      (b0 * 0x1000000 + b1 * 0x10000 + b2 * 0x100 + b3) :: toWords rest
  | _ => []
  end.

(** The message schedule, newest word first: [prev] holds W(t-1) .. W(0). *)
Definition nextW (prev : list N) : N :=
  add32 (add32 (smallSigma1 (nth 1 prev 0)) (nth 6 prev 0))
        (add32 (smallSigma0 (nth 14 prev 0)) (nth 15 prev 0)).

Fixpoint extendSchedule (steps : nat) (prev : list N) : list N :=
  match steps with
  | O => prev
  | S n => extendSchedule n (nextW prev :: prev)
  end.

Definition schedule (block : list N) : list N :=
  rev (extendSchedule 48 (rev block)).

Definition round (s : HashState) (kw : N * N) : HashState :=
  let t1 := add32 (add32 (add32 (hh s) (bigSigma1 (he s)))
                         (add32 (Ch (he s) (hf s) (hg s)) (fst kw))) (snd kw) in
  let t2 := add32 (bigSigma0 (ha s)) (Maj (ha s) (hb s) (hc s)) in
  mkHash (add32 t1 t2) (ha s) (hb s) (hc s) (add32 (hd s) t1) (he s) (hf s) (hg s).

Definition compress (h : HashState) (block : list N) : HashState :=
  let s := fold_left round (combine K (schedule block)) h in
  mkHash (add32 (ha h) (ha s)) (add32 (hb h) (hb s)) (add32 (hc h) (hc s))
         (add32 (hd h) (hd s)) (add32 (he h) (he s)) (add32 (hf h) (hf s))
         (add32 (hg h) (hg s)) (add32 (hh h) (hh s)).

(** The 16-word blocks of a word sequence; [fuel] bounds the number of blocks. *)
Fixpoint blocks (fuel : nat) (ws : list N) : list (list N) :=
  match fuel, ws with
  | S n, _ :: _ => take 16 ws :: blocks n (drop 16 ws)
  | _, _ => []
  end.

Definition digest (msg : list N) : HashState :=
  let ws := toWords (pad msg) in
  fold_left compress (blocks (List.length ws) ws) initialHash.

Definition hexNibble (n : N) : ascii :=
  if n <? 10 then ascii_of_N (48 + n) else ascii_of_N (87 + n).

(** Eight lowercase hexadecimal digits of a 32-bit word. *)
Definition hexWord (w : N) : string :=
  String (hexNibble (N.shiftr w 28 mod 16))
  (String (hexNibble (N.shiftr w 24 mod 16))
  (String (hexNibble (N.shiftr w 20 mod 16))
  (String (hexNibble (N.shiftr w 16 mod 16))
  (String (hexNibble (N.shiftr w 12 mod 16))
  (String (hexNibble (N.shiftr w 8 mod 16))
  (String (hexNibble (N.shiftr w 4 mod 16))
  (String (hexNibble (w mod 16)) EmptyString))))))).

Definition hexOfHash (h : HashState) : string :=
  (hexWord (ha h) ++ hexWord (hb h) ++ hexWord (hc h) ++ hexWord (hd h) ++
   hexWord (he h) ++ hexWord (hf h) ++ hexWord (hg h) ++ hexWord (hh h))%string.

Definition bytesOfString (s : string) : list N :=
  N_of_ascii <$> list_ascii_of_string s.

(** [createHash('sha256').update(s).digest('hex')]. *)
Definition hex (s : string) : string := hexOfHash (digest (bytesOfString s)).

End Sha256.

(** ** Shared types (types.ts) *)

Module Types.

Inductive State : Type := REGISTERED | PROFILED | SUGGESTED | READY | ANALYZED.

#[global] Instance State_eq_dec : EqDecision State.
Proof. solve_decision. Defined.

Module Schema.
Record t : Type := mk { time_col : string; value_cols : list string }.
End Schema.

Module Processed.
Record t : Type := mk {
  uri : string;
  checksum : string;
  presetId : string;
  profileId : string;
  recipeVersion : string;
  rowCount : option Z;
  schema : option Schema.t
}.
End Processed.

Module Owner.
Record t : Type := mk { user : string; tenant : string }.
End Owner.

Record Session : Type := mkSession {
  datasetId : string;
  state : State;
  suggestedPresetIds : list string;
  processed : option Processed.t;
  owner : Owner.t
}.

Module AuthContext.
Record t : Type := mk {
  user : string;
  tenant : string;
  scopes : list string;
  token : string
}.
End AuthContext.

Module NextAction.
Record t : Type := mk { tool : string; args : json }.
End NextAction.

Module ErrorResponse.
Record t : Type := mk {
  error : string;
  message : string;
  next : list NextAction.t;
  audit_id : option string
}.
End ErrorResponse.

Module PreprocessCandidate.
Record t : Type := mk {
  preset_id : string;
  label : string;
  why : list string;
  steps_brief : list string;
  docs_uri : string
}.
End PreprocessCandidate.

Module AuditLog.
Record t : Type := mk {
  timestamp : string;
  user : string;
  tenant : string;
  scopes : list string;
  tool : string;
  input_hash : string;
  preset_id : option string;
  session_id : option string;
  output_uri : option string;
  audit_id : string;
  success : bool;
  error : option string
}.
End AuditLog.

Definition errorNext (code message : string) (next : list NextAction.t)
    (auditId : option string) : ErrorResponse.t :=
  {| ErrorResponse.error := code;
     ErrorResponse.message := message;
     ErrorResponse.next := next;
     ErrorResponse.audit_id := auditId |}.

(** A computation that returns or throws an [Error] with a message. *)
Inductive Result (A : Type) : Type :=
| Ok (value : A)
| Throw (message : string).
Arguments Ok {A} value.
Arguments Throw {A} message.

End Types.

Export Types.

(** ** The session store and the READY gate (middleware/guard.ts) *)

Module Guard.

(** The two maps of the module: [sessions] by session id, and
    [sessionsByDataset] from a dataset id to a session id. *)
Record Store : Type := mkStore {
  sessions : gmap string Session;
  sessionsByDataset : gmap string string
}.

Definition emptyStore : Store := mkStore ∅ ∅.

(** The identifier built from [Date.now()] and the random suffix
    [Math.random().toString(36).substr(2, 9)]. *)
Definition newSessionId (now : Z) (rnd : string) : string :=
  "sess_" ++ Js.numberToString now ++ "_" ++ rnd.

Definition createSession (datasetId : string) (suggestedPresetIds : list string)
    (owner : Owner.t) (now : Z) (rnd : string) (st : Store) : string * Store :=
  let sessionId := newSessionId now rnd in
  let session :=
    {| datasetId := datasetId;
       state := SUGGESTED;
       suggestedPresetIds := suggestedPresetIds;
       processed := None;
       owner := owner |} in
  (sessionId,
   {| sessions := <[sessionId := session]> (sessions st);
      sessionsByDataset := <[datasetId := sessionId]> (sessionsByDataset st) |}).

Definition getSession (sessionId : string) (st : Store) : option Session :=
  sessions st !! sessionId.

Definition getSessionByDataset (datasetId : string) (st : Store) : option Session :=
  match sessionsByDataset st !! datasetId with
  | Some sessionId =>
      if Js.truthy (Some sessionId) then sessions st !! sessionId else None
  | None => None
  end.

(** The session after [session.state = state] and, when a record is given,
    [session.processed = processed]. *)
Definition applyUpdate (newState : State) (newProcessed : option Processed.t)
    (session : Session) : Session :=
  {| datasetId := datasetId session;
     state := newState;
     suggestedPresetIds := suggestedPresetIds session;
     processed := match newProcessed with
                  | Some p => Some p
                  | None => processed session
                  end;
     owner := owner session |}.

Definition updateSession (sessionId : string) (newState : State)
    (newProcessed : option Processed.t) (st : Store) : bool * Store :=
  match sessions st !! sessionId with
  | None => (false, st)
  | Some session =>
      (true,
       {| sessions := <[sessionId := applyUpdate newState newProcessed session]> (sessions st);
          sessionsByDataset := sessionsByDataset st |})
  end.

(** The object returned by the gate: [{ passed: true, session }] or
    [{ passed: false, error }]. *)
Inductive GateCheck : Type :=
| GatePassed (session : Session)
| GateFailed (error : ErrorResponse.t).

Definition passed (g : GateCheck) : bool :=
  match g with GatePassed _ => true | GateFailed _ => false end.

Definition gateError (g : GateCheck) : option ErrorResponse.t :=
  match g with GatePassed _ => None | GateFailed e => Some e end.

(** The manifest template offered to a caller whose session is SUGGESTED. *)
Definition confirmTemplate (s : Session) : json :=
  JObj [ ("dataset_id", JStr (datasetId s));
         ("processed_uri", JStr "your_processed_file_uri");
         ("manifest",
          JObj [ ("preset_id", JStr (Js.orElse (suggestedPresetIds s !! 0%nat) "preset_id"));
                 ("profile_id", JStr "profile_id");
                 ("recipe_version", JStr "v1.0");
                 ("checksum", JStr "sha256:your_checksum");
                 ("row_count", JNum (Number.ofZ 1000));
                 ("schema",
                  JObj [ ("time_col", JStr "timestamp");
                         ("value_cols", Json.strings ["value1"; "value2"]) ]) ]) ].

Definition nextActionsFor (s : Session) : list NextAction.t :=
  if decide (state s = REGISTERED) then
    [ NextAction.mk "toorpia_suggest_preprocess" (JObj [("dataset_id", JStr (datasetId s))]) ]
  else if decide (state s = SUGGESTED) then
    [ NextAction.mk "toorpia_confirm_preprocessed" (confirmTemplate s) ]
  else [].

Definition checkReadyGate (sessionId : string) (auth : AuthContext.t)
    (auditId : string) (st : Store) : GateCheck :=
  match sessions st !! sessionId with
  | None =>
      GateFailed (errorNext "SESSION_NOT_FOUND"
                    "指定されたセッションが見つかりません。"
                    [ NextAction.mk "toorpia_upload_data"
                        (JObj [("csv_data", JStr "your_csv_data")]) ]
                    (Some auditId))
  | Some s =>
      if negb (String.eqb (Owner.user (owner s)) (AuthContext.user auth))
         || negb (String.eqb (Owner.tenant (owner s)) (AuthContext.tenant auth))
      then
        GateFailed (errorNext "ACCESS_DENIED"
                      "このセッションにアクセスする権限がありません。"
                      [] (Some auditId))
      else if negb (bool_decide (state s = READY)) then
        GateFailed (errorNext "PREPROCESS_REQUIRED"
                      "前処理の提案と処理済み確認を完了してください。"
                      (nextActionsFor s) (Some auditId))
      else GatePassed s
  end.

Definition checkScope (auth : AuthContext.t) (requiredScope : string) : bool :=
  Js.includes requiredScope (AuthContext.scopes auth)
  || Js.includes "*" (AuthContext.scopes auth).

(** [iso.replace(/[-:T]/g, '')]. *)
Fixpoint stripDateMarks (iso : string) : string :=
  match iso with
  | EmptyString => EmptyString
  | String c rest =>
      if Ascii.eqb c "-" || Ascii.eqb c ":" || Ascii.eqb c "T"
      then stripDateMarks rest
      else String c (stripDateMarks rest)
  end.

(** The audit identifier from [new Date().toISOString()] and the random
    suffix. *)
Definition generateAuditId (iso rnd : string) : string :=
  "audit_" ++ Js.slice_to 15 (stripDateMarks iso) ++ "_" ++ rnd.

Definition DEFAULT_MAX_AGE_MS : Z := 24 * 60 * 60 * 1000.

(** The test of the sweep's first loop: the identifier has a second
    underscore-separated part, and it parses to a time older than [maxAgeMs]. *)
Definition isExpired (maxAgeMs now : Z) (sessionId : string) : bool :=
  let parts := Js.split "_" sessionId in
  if (2 <=? List.length parts)%nat then
    match Js.parseInt (nth 1 parts EmptyString) with
    | Some timestamp => now - timestamp >? maxAgeMs
    | None => false
    end
  else false.

(** The body of the sweep's second loop. *)
Definition removeExpired (st : Store) (sessionId : string) : Store :=
  match sessions st !! sessionId with
  | Some s =>
      {| sessions := delete sessionId (sessions st);
         sessionsByDataset := delete (datasetId s) (sessionsByDataset st) |}
  | None => st
  end.

(** The identifiers collected by the first loop.  [sessions.forEach] visits
    the keys in insertion order; the store after the second loop is the same
    for every order of the collected identifiers. *)
Definition expiredIds (maxAgeMs now : Z) (st : Store) : list string :=
  List.filter (isExpired maxAgeMs now) (fst <$> map_to_list (sessions st)).

Definition cleanupSessions (maxAgeMs now : Z) (st : Store) : Store :=
  fold_left removeExpired (expiredIds maxAgeMs now st) st.

End Guard.

(** ** What the process reads from its surroundings *)

Module Env.

(** One key of a fetched key set: [key?.x5c?.[0]] and whether both RSA
    components [n] and [e] are present. *)
Record JwksKey : Type := mkJwksKey {
  x5c0 : option string;
  has_n_and_e : bool
}.

(** Claims of a verified token (the interface [JWTPayload]).  A scope claim
    is absent, a string, an array (of strings, as the interface declares), or
    some other JSON value. *)
Inductive Claim : Type :=
| ClaimAbsent
| ClaimString (s : string)
| ClaimStrings (l : list string)
| ClaimOther.

Record JWTPayload : Type := mkPayload {
  sub : option string;
  tenant : option string;
  scope : Claim;
  scopes : Claim;
  iat : option Z;
  exp : option Z
}.

(** The data profile of a dataset as the suggestion rules read it:
    [profile.missingRate > 0.2] (a comparison of doubles, taken as its
    outcome) and [profile.dataType]. *)
Record Profile : Type := mkProfile {
  missingRateAbove20Percent : bool;
  dataType : option string
}.

Record ProfileResult : Type := mkProfileResult {
  profile_success : bool;
  profile : option Profile;
  profile_error : option string
}.

Record Validation : Type := mkValidation {
  valid : bool;
  validation_error : option string
}.

Record AnalysisResult : Type := mkAnalysisResult {
  analysis_success : bool;
  analysisId : option string;
  analysis_status : option string;
  analysis_error : option string
}.

(** Environment variables and the answers of the collaborators during one
    call: the key endpoint, [jwt.verify] with the options of [verifyJWT]
    (algorithms, audience, clock tolerance, maximal age), the text of a zod
    validation error, the backend client and the two files written. *)
Record World : Type := mkWorld {
  NODE_ENV : option string;
  SKIP_AUTH : option string;
  AUTH_PUBLIC_KEY : option string;
  AUTH_JWKS_URL : option string;
  jwksFetch : string -> option JwksKey;
  jwtVerify : string -> string -> Result JWTPayload;
  zodMessage : string -> option json -> string;
  uploadData : string -> option string -> bool;
  getDataProfile : string -> ProfileResult;
  validateProcessedData : string -> string -> Validation;
  runAnalysisWithSession : string -> string -> string -> json -> AnalysisResult;
  getAnalysisStatus : string -> bool;
  auditFileWritable : bool;
  feedbackDirWritable : bool
}.

End Env.

Export Env(World, JWTPayload, Claim, ClaimAbsent, ClaimString, ClaimStrings, ClaimOther).

(** ** The token verifier (middleware/auth.ts) *)

Module Auth.

Definition newline : string := String (ascii_of_nat 10) EmptyString.

Definition getPublicKey (w : World) : Result string :=
  if Js.truthy (Env.AUTH_PUBLIC_KEY w) then Ok (default EmptyString (Env.AUTH_PUBLIC_KEY w))
  else
    let noMethod :=
      Throw "No JWT verification method configured. Set AUTH_JWKS_URL or AUTH_PUBLIC_KEY" in
    if Js.truthy (Env.AUTH_JWKS_URL w) then
      match Env.jwksFetch w (default EmptyString (Env.AUTH_JWKS_URL w)) with
      | None => Throw "Failed to fetch JWT public key from JWKS URL"
      | Some key =>
          if Js.truthy (Env.x5c0 key) then
            Ok ("-----BEGIN CERTIFICATE-----" ++ newline
                  ++ default EmptyString (Env.x5c0 key) ++ newline
                  ++ "-----END CERTIFICATE-----")
          else if Env.has_n_and_e key then
            Throw "Failed to fetch JWT public key from JWKS URL"
          else noMethod
      end
    else noMethod.

Definition nonEmpty (s : string) : bool := (0 <? String.length s)%nat.

Definition parseScopes (payload : JWTPayload) : list string :=
  match Env.scopes payload with
  | ClaimStrings l => l
  | _ =>
      match Env.scope payload with
      | ClaimString s =>
          if Js.truthy (Some s) then List.filter nonEmpty (Js.split " " s) else []
      | _ => []
      end
  end.

Definition verifyJWT (w : World) (token : string) : Result AuthContext.t :=
  let failed m := Throw ("JWT verification failed: " ++ m) in
  match getPublicKey w with
  | Throw m => failed m
  | Ok publicKey =>
      match Env.jwtVerify w token publicKey with
      | Throw m => failed m
      | Ok decoded =>
          if negb (Js.truthy (Env.sub decoded)) || negb (Js.truthy (Env.tenant decoded))
          then failed "JWT missing required fields: sub or tenant"
          else
            Ok {| AuthContext.user := default EmptyString (Env.sub decoded);
                  AuthContext.tenant := default EmptyString (Env.tenant decoded);
                  AuthContext.scopes := parseScopes decoded;
                  AuthContext.token := token |}
      end
  end.

Definition extractBearerToken (authHeader : option string) : option string :=
  match authHeader with
  | Some h =>
      if negb (Js.truthy authHeader) || negb (Js.startsWith "Bearer " h) then None
      else Some (Js.slice_from 7 h)
  | None => None
  end.

(** The identity returned when authentication is skipped. *)
Definition devContext : AuthContext.t :=
  {| AuthContext.user := "dev-user";
     AuthContext.tenant := "dev-tenant";
     AuthContext.scopes := ["*"];
     AuthContext.token := "dev-token" |}.

Definition envIs (value : option string) (expected : string) : bool :=
  bool_decide (value = Some expected).

Definition authenticateRequest (w : World) (authHeader : option string)
    (skipAuth : bool) : Result AuthContext.t :=
  if skipAuth || (envIs (Env.NODE_ENV w) "development" && envIs (Env.SKIP_AUTH w) "true")
  then Ok devContext
  else
    let token := extractBearerToken authHeader in
    if negb (Js.truthy token) then
      Throw "Missing or invalid Authorization header. Expected: Bearer <token>"
    else
      match verifyJWT w (default EmptyString token) with
      | Ok auth => Ok auth
      | Throw m => Throw ("Authentication failed: " ++ m)
      end.

Definition createMockAuth (user tenant : string) (scopes : list string) : AuthContext.t :=
  {| AuthContext.user := user;
     AuthContext.tenant := tenant;
     AuthContext.scopes := scopes;
     AuthContext.token := "mock-token" |}.

End Auth.

(** ** The audit recorder (utils/audit.ts) *)

Module Audit.

(** [hashInput]: sixteen characters of the hexadecimal digest of the
    serialized input.  [JSON.stringify(undefined)] is [undefined], which
    [update] refuses with a [TypeError]: that case is [None]. *)
Definition hashInput (input : option json) : option string :=
  (fun text => Js.slice_to 16 (Sha256.hex text)) <$> Json.stringifyAny input.

Definition updateTypeError : string :=
  "The " ++ Json.quote "data" ++
  " argument must be of type string or an instance of Buffer, TypedArray, or DataView. Received undefined".

(** [writeAuditLog]: the log after the call, or the [TypeError] of
    [hashInput].  A failed append is caught and leaves the file as it was. *)
Definition writeAuditLog (w : World) (now : string) (auth : AuthContext.t)
    (tool : string) (input : option json) (success : bool) (auditId : string)
    (presetId sessionId outputUri error : option string)
    (log : list AuditLog.t) : Result (list AuditLog.t) :=
  match hashInput input with
  | None => Throw updateTypeError
  | Some h =>
      let auditEntry :=
        {| AuditLog.timestamp := now;
           AuditLog.user := AuthContext.user auth;
           AuditLog.tenant := AuthContext.tenant auth;
           AuditLog.scopes := AuthContext.scopes auth;
           AuditLog.tool := tool;
           AuditLog.input_hash := h;
           AuditLog.preset_id := presetId;
           AuditLog.session_id := sessionId;
           AuditLog.output_uri := outputUri;
           AuditLog.audit_id := auditId;
           AuditLog.success := success;
           AuditLog.error := error |} in
      if Env.auditFileWritable w then Ok (log ++ [auditEntry])%list else Ok log
  end.

(** The two closures of [createAuditContext]. *)
Definition logSuccess (w : World) (now : string) (auth : AuthContext.t)
    (tool : string) (input : option json) (auditId : string)
    (presetId sessionId outputUri : option string)
    (log : list AuditLog.t) : Result (list AuditLog.t) :=
  writeAuditLog w now auth tool input true auditId presetId sessionId outputUri None log.

Definition logError (w : World) (now : string) (auth : AuthContext.t)
    (tool : string) (input : option json) (auditId : string)
    (error : string) (presetId sessionId : option string)
    (log : list AuditLog.t) : Result (list AuditLog.t) :=
  writeAuditLog w now auth tool input false auditId presetId sessionId None (Some error) log.

End Audit.

(** ** The zod input schemas (schemas/*.ts) *)

Module Schemas.

(** [z.string().min(1)] on a property that may be missing. *)
Definition zString1 (v : option json) : option string :=
  match v with
  | Some (JStr s) => if Auth.nonEmpty s then Some s else None
  | _ => None
  end.

(** [z.string()]. *)
Definition zString (v : option json) : option string :=
  match v with
  | Some (JStr s) => Some s
  | _ => None
  end.

(** [z.number().int().min(lo).max(hi)]; without [max] when [hi] is [None]. *)
Definition zInt (lo : Z) (hi : option Z) (v : option json) : option Z :=
  match v with
  | Some (JNum x) =>
      match Number.integerValue (Number.toDouble x) with
      | Some n =>
          if (lo <=? n) && match hi with Some h => n <=? h | None => true end
          then Some n else None
      | None => None
      end
  | _ => None
  end.

(** [schema.optional()]: [undefined] is accepted as it is. *)
Definition zOptional {A} (inner : option json -> option A) (v : option json)
    : option (option A) :=
  match v with
  | None => Some None
  | Some _ => Some <$> inner v
  end.

(** [z.record(z.any())]: any plain object. *)
Definition zRecord (v : option json) : option json :=
  match v with
  | Some (JObj fields) => Some (JObj fields)
  | _ => None
  end.

(** [z.enum(values)]. *)
Definition zEnum (values : list string) (v : option json) : option string :=
  match v with
  | Some (JStr s) => if Js.includes s values then Some s else None
  | _ => None
  end.

(** [schema.default(d)]: [undefined] becomes [d]. *)
Definition zDefault {A} (d : A) (inner : option json -> option A) (v : option json)
    : option A :=
  match v with
  | None => Some d
  | Some _ => inner v
  end.

(** [z.object({...})] accepts objects only. *)
Definition zObject {A} (shape : json -> option A) (input : option json) : option A :=
  match input with
  | Some (JObj fields) => shape (JObj fields)
  | _ => None
  end.

Definition isLineTerminatorAt (s : string) : bool :=
  match s with
  | String c rest =>
      let n := nat_of_ascii c in
      (n =? 10)%nat || (n =? 13)%nat
      || match rest with
         | String c1 (String c2 _) =>
             (n =? 226)%nat && (nat_of_ascii c1 =? 128)%nat
             && ((nat_of_ascii c2 =? 168)%nat || (nat_of_ascii c2 =? 169)%nat)
         | _ => false
         end
  | EmptyString => false
  end.

(** The pattern [^(file|s3|gs):\/\/.+]: one of the three schemes and at
    least one further character that is no line terminator. *)
Definition matchesUri (s : string) : bool :=
  existsb (fun scheme =>
             Js.startsWith scheme s
             && let rest := Js.slice_from (String.length scheme) s in
                Auth.nonEmpty rest && negb (isLineTerminatorAt rest))
          ["file://"; "s3://"; "gs://"].

Definition isLowerHex (c : ascii) : bool :=
  let n := nat_of_ascii c in
  ((48 <=? n) && (n <=? 57) || (97 <=? n) && (n <=? 102))%nat.

(** The pattern [^sha(256|512):[a-f0-9]{64,128}$]. *)
Definition matchesChecksum (s : string) : bool :=
  existsb (fun algo =>
             Js.startsWith algo s
             && let digits := Js.slice_from (String.length algo) s in
                forallb isLowerHex (list_ascii_of_string digits)
                && (64 <=? String.length digits)%nat
                && (String.length digits <=? 128)%nat)
          ["sha256:"; "sha512:"].

(** [z.string().regex(p)]. *)
Definition zRegex (p : string -> bool) (v : option json) : option string :=
  match v with
  | Some (JStr s) => if p s then Some s else None
  | _ => None
  end.

Module UploadDataInput.
Record t : Type := mk { csv_data : string; filename : option string }.
Definition parse : option json -> option t :=
  zObject (fun j =>
    csv ← zString1 (Json.get "csv_data" j);
    file ← zOptional (zDefault "data.csv" zString) (Json.get "filename" j);
    Some (mk csv file)).
End UploadDataInput.

Module SuggestPreprocessInput.
Record t : Type := mk { dataset_id : string; topk : option Z }.
Definition parse : option json -> option t :=
  zObject (fun j =>
    d ← zString1 (Json.get "dataset_id" j);
    k ← zOptional (zDefault 5 (zInt 1 (Some 10))) (Json.get "topk" j);
    Some (mk d k)).
End SuggestPreprocessInput.

Module Manifest.
Record t : Type := mk {
  preset_id : string;
  profile_id : string;
  recipe_version : string;
  checksum : string;
  row_count : Z;
  schema : Schema.t
}.
Definition parseSchema : option json -> option Schema.t :=
  zObject (fun j =>
    t ← zString1 (Json.get "time_col" j);
    cols ← match Json.get "value_cols" j with
           | Some (JArr items) =>
               cs ← mapM (fun item => zString1 (Some item)) items;
               if (1 <=? List.length cs)%nat then Some cs else None
           | _ => None
           end;
    Some (Schema.mk t cols)).
Definition parse : option json -> option t :=
  zObject (fun j =>
    preset ← zString1 (Json.get "preset_id" j);
    prof ← zString1 (Json.get "profile_id" j);
    recipe ← zString1 (Json.get "recipe_version" j);
    sum ← zRegex matchesChecksum (Json.get "checksum" j);
    rows ← zInt 1 None (Json.get "row_count" j);
    sch ← parseSchema (Json.get "schema" j);
    Some (mk preset prof recipe sum rows sch)).
End Manifest.

Module ConfirmPreprocessedInput.
Record t : Type := mk {
  dataset_id : string;
  processed_uri : string;
  manifest : Manifest.t
}.
Definition parse : option json -> option t :=
  zObject (fun j =>
    d ← zString1 (Json.get "dataset_id" j);
    u ← zRegex matchesUri (Json.get "processed_uri" j);
    m ← Manifest.parse (Json.get "manifest" j);
    Some (mk d u m)).
End ConfirmPreprocessedInput.

Module RunAnalysisInput.
Record t : Type := mk {
  session_id : string;
  analysis_type : string;
  parameters : option json
}.
Definition parse : option json -> option t :=
  zObject (fun j =>
    sid ← zString1 (Json.get "session_id" j);
    ty ← zDefault "clustering" (zEnum ["clustering"; "anomaly_detection"])
           (Json.get "analysis_type" j);
    ps ← zOptional (zDefault (JObj []) zRecord) (Json.get "parameters" j);
    Some (mk sid ty ps)).
End RunAnalysisInput.

Module GetStatusInput.
Record t : Type := mk { analysis_id : string }.
Definition parse : option json -> option t :=
  zObject (fun j => mk <$> zString1 (Json.get "analysis_id" j)).
End GetStatusInput.

Module CollectFeedbackInput.
Record t : Type := mk {
  feedback_type : string;
  title : string;
  description : string;
  context : option json;
  rating : option Z
}.
Definition parse : option json -> option t :=
  zObject (fun j =>
    ty ← zEnum ["bug_report"; "feature_request"; "usage_experience"; "performance_issue"]
           (Json.get "feedback_type" j);
    ti ← zString1 (Json.get "title" j);
    de ← zString1 (Json.get "description" j);
    cx ← zOptional (zDefault (JObj []) zRecord) (Json.get "context" j);
    ra ← zOptional (zInt 1 (Some 5)) (Json.get "rating" j);
    Some (mk ty ti de cx ra)).
End CollectFeedbackInput.

End Schemas.

(** ** The tool dispatcher (server.ts) *)

Module Server.

Import Schemas.

(** What a tool hands back to the dispatcher; the fields are the ones the
    dispatcher and the caller's correlation need. *)
Inductive ToolResult : Type :=
| SuggestResult (candidates : list PreprocessCandidate.t) (audit_id session_id : string)
| ConfirmResult (ready : bool) (session_id audit_id : string)
| ErrorResult (e : ErrorResponse.t)
| AnalysisResult (success : bool) (analysis_id status error : option string)
    (session_id audit_id : string)
| BackendResult (tool : string) (success : bool) (audit_id : string).

(** [result.session_id || undefined]. *)
Definition resultSessionId (r : ToolResult) : option string :=
  let field :=
    match r with
    | SuggestResult _ _ sid => Some sid
    | ConfirmResult _ sid _ => Some sid
    | AnalysisResult _ _ _ _ sid _ => Some sid
    | ErrorResult _ | BackendResult _ _ _ => None
    end in
  if Js.truthy field then field else None.

(** [result.preset_id || undefined]: no result has such a property. *)
Definition resultPresetId (r : ToolResult) : option string := None.

(** The values read from the clock and from [Math.random] during one call. *)
Record Entropy : Type := mkEntropy {
  auditIso : string;
  auditRnd : string;
  sessionNow : Z;
  sessionRnd : string;
  feedbackNow : Z;
  feedbackIso : string;
  logIso : string
}.

Record CallToolRequest : Type := mkRequest {
  name : string;
  arguments : option json;
  authorization : option string
}.

Definition uploadData (w : World) (args : UploadDataInput.t) (auth : AuthContext.t)
    (auditId : string) : ToolResult :=
  BackendResult "toorpia_upload_data"
    (Env.uploadData w (UploadDataInput.csv_data args) (UploadDataInput.filename args))
    auditId.

Definition generatePreprocessSuggestions (profile : Env.Profile)
    : list PreprocessCandidate.t :=
  let byMissing :=
    if Env.missingRateAbove20Percent profile then
      [ PreprocessCandidate.mk "resample_1m_ffill5_iqr3_z_by_gtag"
          "1分集計 + 欠損ffill(5) + IQR=3.0 + gtag正規化"
          ["欠損率>20%"; "1分間隔の時系列推定"]
          ["TZ付与→1分集計→ffill(5)→IQR3.0→Zスコア"]
          "toorpia://help#resample_1m_ffill5_iqr3_z_by_gtag" ]
    else [] in
  let bySensor :=
    if bool_decide (Env.dataType profile = Some "sensor_data") then
      [ PreprocessCandidate.mk "sensor_clean_outlier_norm"
          "センサーデータクリーニング + 外れ値除去 + 正規化"
          ["センサーデータ検出"; "外れ値が想定される"]
          ["センサー校正→外れ値除去→正規化"]
          "toorpia://help#sensor_clean_outlier_norm" ]
    else [] in
  let candidates := (byMissing ++ bySensor)%list in
  if (List.length candidates =? 0)%nat then
    [ PreprocessCandidate.mk "basic_clean_norm"
        "基本クリーニング + 正規化"
        ["標準的な前処理"]
        ["欠損値処理→正規化"]
        "toorpia://help#basic_clean_norm" ]
  else candidates.

Definition undefinedProfileError : string :=
  "Cannot read properties of undefined (reading 'missingRate')".

Definition suggestPreprocess (w : World) (args : SuggestPreprocessInput.t)
    (auth : AuthContext.t) (auditId : string) (e : Entropy) (st : Guard.Store)
    : Result ToolResult * Guard.Store :=
  let failed m := (Throw ("Preprocessing suggestion failed: " ++ m), st) in
  let profileResult := Env.getDataProfile w (SuggestPreprocessInput.dataset_id args) in
  if negb (Env.profile_success profileResult) then
    failed (Js.orElse (Env.profile_error profileResult) "Failed to get data profile")
  else
    match Env.profile profileResult with
    | None => failed undefinedProfileError
    | Some profile =>
        let candidates := generatePreprocessSuggestions profile in
        let '(sessionId, st') :=
          Guard.createSession (SuggestPreprocessInput.dataset_id args)
            (PreprocessCandidate.preset_id <$> candidates)
            (Owner.mk (AuthContext.user auth) (AuthContext.tenant auth))
            (sessionNow e) (sessionRnd e) st in
        (Ok (SuggestResult candidates auditId sessionId), st')
    end.

Definition confirmPreprocessed (w : World) (args : ConfirmPreprocessedInput.t)
    (auth : AuthContext.t) (auditId : string) (e : Entropy) (st : Guard.Store)
    : Result ToolResult * Guard.Store :=
  let failed m := (Throw ("Preprocessing confirmation failed: " ++ m), st) in
  let manifest := ConfirmPreprocessedInput.manifest args in
  match Guard.getSessionByDataset (ConfirmPreprocessedInput.dataset_id args) st with
  | None =>
      (Ok (ErrorResult
             (errorNext "SESSION_NOT_FOUND"
                "データセットのセッションが見つかりません。先に suggest_preprocess を実行してください。"
                [ NextAction.mk "toorpia_suggest_preprocess"
                    (JObj [("dataset_id", JStr (ConfirmPreprocessedInput.dataset_id args))]) ]
                (Some auditId))), st)
  | Some session =>
      if negb (Js.includes (Manifest.preset_id manifest) (suggestedPresetIds session)) then
        failed ("Invalid preset_id. Must be one of: "
                  ++ Js.join ", " (suggestedPresetIds session))
      else
        let validation :=
          Env.validateProcessedData w (ConfirmPreprocessedInput.processed_uri args)
            (Manifest.checksum manifest) in
        if negb (Env.valid validation) then
          failed (Js.orElse (Env.validation_error validation)
                    "Processed data validation failed")
        else
          let sessionId := Guard.newSessionId (sessionNow e) (sessionRnd e) in
          let '(updated, st') :=
            Guard.updateSession sessionId READY
              (Some {| Processed.uri := ConfirmPreprocessedInput.processed_uri args;
                       Processed.checksum := Manifest.checksum manifest;
                       Processed.presetId := Manifest.preset_id manifest;
                       Processed.profileId := Manifest.profile_id manifest;
                       Processed.recipeVersion := Manifest.recipe_version manifest;
                       Processed.rowCount := Some (Manifest.row_count manifest);
                       Processed.schema := Some (Manifest.schema manifest) |})
              st in
          if negb updated then
            (Throw "Preprocessing confirmation failed: Failed to update session state", st')
          else (Ok (ConfirmResult true sessionId auditId), st')
  end.

Definition undefinedProcessedError : string :=
  "Cannot read properties of undefined (reading 'uri')".

Definition runAnalysis (w : World) (args : RunAnalysisInput.t)
    (auth : AuthContext.t) (auditId : string) (st : Guard.Store)
    : ToolResult * Guard.Store :=
  let sessionId := RunAnalysisInput.session_id args in
  match Guard.checkReadyGate sessionId auth auditId st with
  | Guard.GateFailed err => (ErrorResult err, st)
  | Guard.GatePassed session =>
      match processed session with
      | None =>
          (AnalysisResult false None None (Some undefinedProcessedError) sessionId auditId, st)
      | Some p =>
          let result :=
            Env.runAnalysisWithSession w sessionId (Processed.uri p)
              (Js.orElse (Some (RunAnalysisInput.analysis_type args)) "clustering")
              (default (JObj []) (RunAnalysisInput.parameters args)) in
          let '(_, st') := Guard.updateSession sessionId ANALYZED None st in
          (AnalysisResult (Env.analysis_success result) (Env.analysisId result)
             (Env.analysis_status result) (Env.analysis_error result) sessionId auditId,
           st')
      end
  end.

Definition getAnalysisStatus (w : World) (args : GetStatusInput.t)
    (auth : AuthContext.t) (auditId : string) : ToolResult :=
  BackendResult "toorpia_get_status"
    (Env.getAnalysisStatus w (GetStatusInput.analysis_id args)) auditId.

(** A file written into the feedback directory: its name inside the
    directory and its text. *)
Record FeedbackFile : Type := mkFeedbackFile {
  fileName : string;
  fileText : string
}.

Definition feedbackId (e : Entropy) : string :=
  "feedback_" ++ Js.numberToString (feedbackNow e).

(** The object [feedback] of [collectFeedback]: five properties of the call
    and then the properties of the parsed arguments. *)
Definition feedbackObject (args : CollectFeedbackInput.t) (auth : AuthContext.t)
    (auditId : string) (e : Entropy) : json :=
  JObj ([ ("id", JStr (feedbackId e));
          ("timestamp", JStr (feedbackIso e));
          ("user", JStr (AuthContext.user auth));
          ("tenant", JStr (AuthContext.tenant auth));
          ("audit_id", JStr auditId);
          ("feedback_type", JStr (CollectFeedbackInput.feedback_type args));
          ("title", JStr (CollectFeedbackInput.title args));
          ("description", JStr (CollectFeedbackInput.description args)) ]
        ++ match CollectFeedbackInput.context args with
           | Some c => [("context", c)]
           | None => []
           end
        ++ match CollectFeedbackInput.rating args with
           | Some r => [("rating", JNum (Number.ofZ r))]
           | None => []
           end)%list.

(** [collectFeedback]: what it returns, and the file it writes when the
    feedback directory can be written. *)
Definition collectFeedback (w : World) (args : CollectFeedbackInput.t)
    (auth : AuthContext.t) (auditId : string) (e : Entropy)
    : ToolResult * option FeedbackFile :=
  let written := Env.feedbackDirWritable w in
  (BackendResult "toorpia_collect_feedback" written auditId,
   if written then
     Some {| fileName := feedbackId e ++ ".json";
             fileText := Json.stringifyIndented "  " EmptyString
                           (feedbackObject args auth auditId e) |}
   else None).

(** [Schema.parse(args)] inside [executeTool]: a value or a thrown ZodError. *)
Definition parsed {A} (w : World) (schema : string) (parse : option json -> option A)
    (args : option json) : Result A :=
  match parse args with
  | Some a => Ok a
  | None => Throw (Env.zodMessage w schema args)
  end.

(** [executeTool]: the value the tool returns or the error it throws, and
    the session store afterwards.  The feedback directory is written by
    collect_feedback and read by nothing; its file is the second component
    of [collectFeedback]. *)
Definition executeTool (w : World) (toolName : string) (args : option json)
    (auth : AuthContext.t) (auditId : string) (e : Entropy) (st : Guard.Store)
    : Result ToolResult * Guard.Store :=
  if String.eqb toolName "toorpia_upload_data" then
    match parsed w "UploadDataInput" UploadDataInput.parse args with
    | Throw m => (Throw m, st)
    | Ok a => (Ok (uploadData w a auth auditId), st)
    end
  else if String.eqb toolName "toorpia_suggest_preprocess" then
    if negb (Guard.checkScope auth "mcp:profile") then
      (Throw "Insufficient permissions: mcp:profile scope required", st)
    else
      match parsed w "SuggestPreprocessInput" SuggestPreprocessInput.parse args with
      | Throw m => (Throw m, st)
      | Ok a => suggestPreprocess w a auth auditId e st
      end
  else if String.eqb toolName "toorpia_confirm_preprocessed" then
    if negb (Guard.checkScope auth "mcp:profile") then
      (Throw "Insufficient permissions: mcp:profile scope required", st)
    else
      match parsed w "ConfirmPreprocessedInput" ConfirmPreprocessedInput.parse args with
      | Throw m => (Throw m, st)
      | Ok a => confirmPreprocessed w a auth auditId e st
      end
  else if String.eqb toolName "toorpia_run_analysis" then
    if negb (Guard.checkScope auth "mcp:analyze") then
      (Throw "Insufficient permissions: mcp:analyze scope required", st)
    else
      match parsed w "RunAnalysisInput" RunAnalysisInput.parse args with
      | Throw m => (Throw m, st)
      | Ok a => let '(r, st') := runAnalysis w a auth auditId st in (Ok r, st')
      end
  else if String.eqb toolName "toorpia_get_status" then
    match parsed w "GetStatusInput" GetStatusInput.parse args with
    | Throw m => (Throw m, st)
    | Ok a => (Ok (getAnalysisStatus w a auth auditId), st)
    end
  else if String.eqb toolName "toorpia_collect_feedback" then
    match parsed w "CollectFeedbackInput" CollectFeedbackInput.parse args with
    | Throw m => (Throw m, st)
    | Ok a => (Ok (collectFeedback w a auth auditId e).1, st)
    end
  else (Throw ("Unknown tool: " ++ toolName), st).

(** The state of the process: the session store and the audit file. *)
Record ServerState : Type := mkState {
  store : Guard.Store;
  auditLog : list AuditLog.t
}.

(** The [catch] block of the call handler: authenticate again with
    [skipAuth = true], write the failure record, swallow whatever that
    throws, and throw the [McpError]. *)
Definition onToolError (w : World) (req : CallToolRequest) (e : Entropy)
    (auditId message : string) (st : Guard.Store) (log : list AuditLog.t)
    : Result ToolResult * ServerState :=
  let log' :=
    match Auth.authenticateRequest w (authorization req) true with
    | Ok auth =>
        match Audit.logError w (logIso e) auth (name req) (arguments req) auditId
                message None None log with
        | Ok written => written
        | Throw _ => log
        end
    | Throw _ => log
    end in
  (Throw ("Error executing tool " ++ name req ++ ": " ++ message), mkState st log').

(** The handler of [CallToolRequestSchema]. *)
Definition handleCallTool (w : World) (req : CallToolRequest) (e : Entropy)
    (s : ServerState) : Result ToolResult * ServerState :=
  let auditId := Guard.generateAuditId (auditIso e) (auditRnd e) in
  match Auth.authenticateRequest w (authorization req)
          (Auth.envIs (Env.NODE_ENV w) "development") with
  | Throw m => onToolError w req e auditId m (store s) (auditLog s)
  | Ok auth =>
      match executeTool w (name req) (arguments req) auth auditId e (store s) with
      | (Throw m, st') => onToolError w req e auditId m st' (auditLog s)
      | (Ok result, st') =>
          match Audit.logSuccess w (logIso e) auth (name req) (arguments req) auditId
                  (resultPresetId result) (resultSessionId result) None (auditLog s) with
          | Ok log' => (Ok result, mkState st' log')
          | Throw m => onToolError w req e auditId m st' (auditLog s)
          end
      end
  end.

(** The sweep that runs at startup and then every hour. *)
Definition periodicSweep (now : Z) (s : ServerState) : ServerState :=
  mkState (Guard.cleanupSessions Guard.DEFAULT_MAX_AGE_MS now (store s)) (auditLog s).

End Server.

(** ** Notions the properties are stated with *)

Module Props.

(** The invariant of one session: a processed record exactly in the states
    READY and ANALYZED. *)
Definition sessionInvariant (s : Session) : Prop :=
  is_Some (processed s) <-> (state s = READY \/ state s = ANALYZED).

Definition storeInvariant (st : Guard.Store) : Prop :=
  forall sid s, Guard.getSession sid st = Some s -> sessionInvariant s.

(** The store with the record under [sid] replaced. *)
Definition withSession (sid : string) (s : Session) (st : Guard.Store) : Guard.Store :=
  Guard.mkStore (<[sid := s]> (Guard.sessions st)) (Guard.sessionsByDataset st).

(** The caller is the owner of the session. *)
Definition ownedBy (auth : AuthContext.t) (s : Session) : Prop :=
  Owner.user (owner s) = AuthContext.user auth
  /\ Owner.tenant (owner s) = AuthContext.tenant auth.

(** The operations on the store, as a trace. *)
Inductive StoreOp : Type :=
| OpCreate (datasetId : string) (suggestedPresetIds : list string) (owner : Owner.t)
    (now : Z) (rnd : string)
| OpUpdate (sessionId : string) (newState : State) (newProcessed : option Processed.t)
| OpSweep (now : Z).

Definition applyOp (st : Guard.Store) (op : StoreOp) : Guard.Store :=
  match op with
  | OpCreate d presets o now rnd => (Guard.createSession d presets o now rnd st).2
  | OpUpdate sid newState newProcessed => (Guard.updateSession sid newState newProcessed st).2
  | OpSweep now => Guard.cleanupSessions Guard.DEFAULT_MAX_AGE_MS now st
  end.

Definition runOps (ops : list StoreOp) (st : Guard.Store) : Guard.Store :=
  fold_left applyOp ops st.

(** No sweep of the trace runs later than the retention window after
    [created]. *)
Definition sweepsWithin (created : Z) (ops : list StoreOp) : Prop :=
  Forall (fun op => match op with
                    | OpSweep now => now - created <= Guard.DEFAULT_MAX_AGE_MS
                    | _ => True
                    end) ops.

(** Follows the spec's words: the scope claim as space-separated tokens,
    that is the maximal runs of characters other than a space; [current] is
    the run being read. *)
Fixpoint scopeWords (s current : string) : list string :=
  match s with
  | EmptyString => if Auth.nonEmpty current then [current] else []
  | String c rest =>
      if Ascii.eqb c " " then
        if Auth.nonEmpty current then current :: scopeWords rest EmptyString
        else scopeWords rest EmptyString
      else scopeWords rest (current ++ String c EmptyString)
  end.

(** Follows the spec's words: the explicit list claim when one is present,
    else the tokens of the string claim when present, else no scope. *)
Definition specScopes (payload : JWTPayload) : list string :=
  match Env.scopes payload, Env.scope payload with
  | ClaimStrings l, _ => l
  | _, ClaimString s => scopeWords s EmptyString
  | _, _ => []
  end.

Definition isLowerHexString (s : string) : Prop :=
  Js.allChars Schemas.isLowerHex s = true.

(** The first 64 bits of the SHA-256 digest of a text, read as a number: its
    first eight bytes, the most significant first. *)
Definition digestPrefix64 (text : string) : Z :=
  let h := Sha256.digest (Sha256.bytesOfString text) in
  Z.of_N (Sha256.ha h) * 2 ^ 32 + Z.of_N (Sha256.hb h).

(** The first two words of a hash value are 32-bit words. *)
Definition wordsBounded (h : Sha256.HashState) : Prop :=
  (Sha256.ha h < Sha256.wordMod)%N /\ (Sha256.hb h < Sha256.wordMod)%N.

(** [hay.includes(needle)]. *)
Fixpoint occursIn (needle hay : string) : bool :=
  String.prefix needle hay
  || match hay with
     | EmptyString => false
     | String _ rest => occursIn needle rest
     end.

(** The scope the dispatcher requires for a tool, if any. *)
Definition requiredScope (toolName : string) : option string :=
  if String.eqb toolName "toorpia_suggest_preprocess" then Some "mcp:profile"
  else if String.eqb toolName "toorpia_confirm_preprocessed" then Some "mcp:profile"
  else if String.eqb toolName "toorpia_run_analysis" then Some "mcp:analyze"
  else None.

(** The audit identifier the handler generates for a call. *)
Definition callAuditId (e : Server.Entropy) : string :=
  Guard.generateAuditId (Server.auditIso e) (Server.auditRnd e).

(** The record the [catch] block of the handler writes for a call with the
    payload [input] that failed with [message]. *)
Definition failureRecord (req : Server.CallToolRequest) (e : Server.Entropy)
    (input : json) (message : string) : AuditLog.t :=
  AuditLog.mk (Server.logIso e) "dev-user" "dev-tenant" ["*"] (Server.name req)
    (Js.slice_to 16 (Sha256.hex (Json.stringify input)))
    None None None (callAuditId e) false (Some message).

(** The record the handler writes for a call that returned. *)
Definition successRecord (req : Server.CallToolRequest) (e : Server.Entropy)
    (input : json) (auth : AuthContext.t) (sessionId : option string) : AuditLog.t :=
  AuditLog.mk (Server.logIso e) (AuthContext.user auth) (AuthContext.tenant auth)
    (AuthContext.scopes auth) (Server.name req)
    (Js.slice_to 16 (Sha256.hex (Json.stringify input)))
    None sessionId None (callAuditId e) true None.

End Props.

(** ** A deployment used to run the model on concrete calls *)

Module Scenario.

Definition alicePayload : JWTPayload :=
  {| Env.sub := Some "alice";
     Env.tenant := Some "acme";
     Env.scope := ClaimString "mcp:profile mcp:analyze";
     Env.scopes := ClaimAbsent;
     Env.iat := Some 1700000000;
     Env.exp := Some 1700000600 |}.

(** A token without any scope claim. *)
Definition carolPayload : JWTPayload :=
  {| Env.sub := Some "carol";
     Env.tenant := Some "acme";
     Env.scope := ClaimAbsent;
     Env.scopes := ClaimAbsent;
     Env.iat := Some 1700000000;
     Env.exp := Some 1700000600 |}.

(** A production runtime: a verification key is configured, the library
    accepts two tokens, the backend answers and both files are writable. *)
Definition production : World :=
  {| Env.NODE_ENV := Some "production";
     Env.SKIP_AUTH := None;
     Env.AUTH_PUBLIC_KEY := Some "-----BEGIN PUBLIC KEY-----";
     Env.AUTH_JWKS_URL := None;
     Env.jwksFetch := fun _ => None;
     Env.jwtVerify := fun token _ =>
       if String.eqb token "alice-token" then Ok alicePayload
       else if String.eqb token "carol-token" then Ok carolPayload
       else Throw "invalid signature";
     Env.zodMessage := fun schema _ => "invalid input for " ++ schema;
     Env.uploadData := fun _ _ => true;
     Env.getDataProfile := fun _ =>
       Env.mkProfileResult true (Some (Env.mkProfile false (Some "timeseries"))) None;
     Env.validateProcessedData := fun _ _ => Env.mkValidation true None;
     Env.runAnalysisWithSession := fun _ _ _ _ =>
       Env.mkAnalysisResult true (Some "an_1") (Some "queued") None;
     Env.getAnalysisStatus := fun _ => true;
     Env.auditFileWritable := true;
     Env.feedbackDirWritable := true |}.

Definition alice : AuthContext.t :=
  {| AuthContext.user := "alice";
     AuthContext.tenant := "acme";
     AuthContext.scopes := ["mcp:profile"; "mcp:analyze"];
     AuthContext.token := "alice-token" |}.

Definition bob : AuthContext.t :=
  {| AuthContext.user := "bob";
     AuthContext.tenant := "globex";
     AuthContext.scopes := ["mcp:profile"; "mcp:analyze"];
     AuthContext.token := "bob-token" |}.

Definition aliceOwner : Owner.t := Owner.mk "alice" "acme".

(** The store after alice asked for suggestions on dataset ds1 at clock
    1000. *)
Definition suggestedStore : Guard.Store :=
  (Guard.createSession "ds1" ["basic_clean_norm"] aliceOwner 1000 "k3v9x2m1q"
     Guard.emptyStore).2.

Definition suggestedId : string := Guard.newSessionId 1000 "k3v9x2m1q".

Definition initialState : Server.ServerState := Server.mkState Guard.emptyStore [].

Definition suggestedState : Server.ServerState := Server.mkState suggestedStore [].

Definition entropyAt (now : Z) (rnd : string) : Server.Entropy :=
  {| Server.auditIso := "2025-08-19T12:34:56.789Z";
     Server.auditRnd := "q1w2e3r4t";
     Server.sessionNow := now;
     Server.sessionRnd := rnd;
     Server.feedbackNow := now;
     Server.feedbackIso := "2025-08-19T12:34:56.795Z";
     Server.logIso := "2025-08-19T12:34:56.800Z" |}.

Definition validManifest : json :=
  JObj [ ("preset_id", JStr "basic_clean_norm");
         ("profile_id", JStr "profile_1");
         ("recipe_version", JStr "v1.0");
         ("checksum",
          JStr "sha256:0123456789abcdef0123456789abcdef0123456789abcdef0123456789abcdef");
         ("row_count", JNum (Number.ofZ 1000));
         ("schema",
          JObj [ ("time_col", JStr "timestamp");
                 ("value_cols", Json.strings ["value1"; "value2"]) ]) ].

Definition confirmRequest : Server.CallToolRequest :=
  {| Server.name := "toorpia_confirm_preprocessed";
     Server.arguments :=
       Some (JObj [ ("dataset_id", JStr "ds1");
                    ("processed_uri", JStr "file:///data/processed.csv");
                    ("manifest", validManifest) ]);
     Server.authorization := Some "Bearer alice-token" |}.

(** A store that also holds a session of bob for dataset ds9. *)
Definition sharedStore : Guard.Store :=
  (Guard.createSession "ds9" ["basic_clean_norm"] (Owner.mk "bob" "globex")
     1500 "m4n5b6v7c" suggestedStore).2.

Definition bobSessionId : string := Guard.newSessionId 1500 "m4n5b6v7c".

Definition confirmArgs : Schemas.ConfirmPreprocessedInput.t :=
  Schemas.ConfirmPreprocessedInput.mk "ds1" "file:///data/processed.csv"
    (Schemas.Manifest.mk "basic_clean_norm" "profile_1" "v1.0"
       "sha256:0123456789abcdef0123456789abcdef0123456789abcdef0123456789abcdef"
       1000 (Schema.mk "timestamp" ["value1"; "value2"])).

Definition runRequest (sessionId : string) (header : option string)
    : Server.CallToolRequest :=
  {| Server.name := "toorpia_run_analysis";
     Server.arguments := Some (JObj [("session_id", JStr sessionId)]);
     Server.authorization := header |}.

End Scenario.

(** ** Further notions: index consistency, fresh identifiers, audit lines *)

Module Laws.

(** Every dataset entry points to a stored session of that dataset. *)
Definition indexConsistent (st : Guard.Store) : Prop :=
  forall d sid,
    Guard.sessionsByDataset st !! d = Some sid ->
    exists s, Guard.getSession sid st = Some s /\ datasetId s = d.

(** Along the trace, every creation draws an identifier that is not yet a
    key of the session index. *)
Fixpoint freshOps (st : Guard.Store) (ops : list Props.StoreOp) : Prop :=
  match ops with
  | [] => True
  | op :: rest =>
      match op with
      | Props.OpCreate _ _ _ now rnd =>
          Guard.getSession (Guard.newSessionId now rnd) st = None
      | _ => True
      end
      /\ freshOps (Props.applyOp st op) rest
  end.

(** Every stored session is as [createSession] made it: SUGGESTED, without a
    processed record. *)
Definition allSuggested (st : Guard.Store) : Prop :=
  forall sid s,
    Guard.getSession sid st = Some s -> state s = SUGGESTED /\ processed s = None.

(** The preset identifiers the suggestion rules can produce. *)
Definition knownPresets : list string :=
  [ "resample_1m_ffill5_iqr3_z_by_gtag"; "sensor_clean_outlier_norm"; "basic_clean_norm" ].

(** The same surroundings with the audit file writable or not. *)
Definition withAuditFile (writable : bool) (w : World) : World :=
  {| Env.NODE_ENV := Env.NODE_ENV w;
     Env.SKIP_AUTH := Env.SKIP_AUTH w;
     Env.AUTH_PUBLIC_KEY := Env.AUTH_PUBLIC_KEY w;
     Env.AUTH_JWKS_URL := Env.AUTH_JWKS_URL w;
     Env.jwksFetch := Env.jwksFetch w;
     Env.jwtVerify := Env.jwtVerify w;
     Env.zodMessage := Env.zodMessage w;
     Env.uploadData := Env.uploadData w;
     Env.getDataProfile := Env.getDataProfile w;
     Env.validateProcessedData := Env.validateProcessedData w;
     Env.runAnalysisWithSession := Env.runAnalysisWithSession w;
     Env.getAnalysisStatus := Env.getAnalysisStatus w;
     Env.auditFileWritable := writable;
     Env.feedbackDirWritable := Env.feedbackDirWritable w |}.

(** A property that is [undefined] is left out by [JSON.stringify]. *)
Definition optionalField (key : string) (value : option string) : list (string * json) :=
  match value with
  | Some v => [(key, JStr v)]
  | None => []
  end.

(** The object [auditEntry] of [writeAuditLog] as [JSON.stringify] sees it. *)
Definition auditEntryJson (entry : AuditLog.t) : json :=
  JObj ([ ("timestamp", JStr (AuditLog.timestamp entry));
          ("user", JStr (AuditLog.user entry));
          ("tenant", JStr (AuditLog.tenant entry));
          ("scopes", Json.strings (AuditLog.scopes entry));
          ("tool", JStr (AuditLog.tool entry));
          ("input_hash", JStr (AuditLog.input_hash entry)) ]
        ++ optionalField "preset_id" (AuditLog.preset_id entry)
        ++ optionalField "session_id" (AuditLog.session_id entry)
        ++ optionalField "output_uri" (AuditLog.output_uri entry)
        ++ [ ("audit_id", JStr (AuditLog.audit_id entry));
             ("success", JBool (AuditLog.success entry)) ]
        ++ optionalField "error" (AuditLog.error entry))%list.

(** [logLine] of [writeAuditLog]: the serialized entry and a line feed. *)
Definition logLine (entry : AuditLog.t) : string :=
  Json.stringify (auditEntryJson entry) ++ Auth.newline.

(** The character is neither a line feed nor a carriage return. *)
Definition notLineBreak (c : ascii) : bool :=
  negb (Ascii.eqb c (ascii_of_nat 10)) && negb (Ascii.eqb c (ascii_of_nat 13)).

(** The tools the dispatcher runs without a scope check. *)
Definition ungatedTools : list string :=
  [ "toorpia_upload_data"; "toorpia_get_status"; "toorpia_collect_feedback" ].

(** What happens to the server over time: a tool call with its
    surroundings and clock readings, or a run of the periodic sweep. *)
Inductive ServerEvent : Type :=
| Call (w : World) (req : Server.CallToolRequest) (e : Server.Entropy)
| Sweep (now : Z).

Definition applyEvent (s : Server.ServerState) (ev : ServerEvent) : Server.ServerState :=
  match ev with
  | Call w req e => (Server.handleCallTool w req e s).2
  | Sweep now => Server.periodicSweep now s
  end.

Definition runEvents (evs : list ServerEvent) (s : Server.ServerState)
    : Server.ServerState :=
  fold_left applyEvent evs s.

(** Every call of the trace draws a session identifier that is not yet a
    key of the session index. *)
Fixpoint freshEvents (s : Server.ServerState) (evs : list ServerEvent) : Prop :=
  match evs with
  | [] => True
  | ev :: rest =>
      match ev with
      | Call _ _ e =>
          Guard.getSession
            (Guard.newSessionId (Server.sessionNow e) (Server.sessionRnd e))
            (Server.store s) = None
      | Sweep _ => True
      end
      /\ freshEvents (applyEvent s ev) rest
  end.

(** The audit identifiers drawn by the calls of a trace, in order. *)
Definition callAuditIds (evs : list ServerEvent) : list string :=
  flat_map (fun ev =>
              match ev with
              | Call _ _ e => [Guard.generateAuditId (Server.auditIso e) (Server.auditRnd e)]
              | Sweep _ => []
              end) evs.

(** The text of the audit file after the records of [log] were appended to
    an empty file, one [logLine] each. *)
Definition auditFileText (log : list AuditLog.t) : string :=
  fold_right (fun entry text => logLine entry ++ text) EmptyString log.

(** The same surroundings with another NODE_ENV. *)
Definition withNodeEnv (value : option string) (w : World) : World :=
  {| Env.NODE_ENV := value;
     Env.SKIP_AUTH := Env.SKIP_AUTH w;
     Env.AUTH_PUBLIC_KEY := Env.AUTH_PUBLIC_KEY w;
     Env.AUTH_JWKS_URL := Env.AUTH_JWKS_URL w;
     Env.jwksFetch := Env.jwksFetch w;
     Env.jwtVerify := Env.jwtVerify w;
     Env.zodMessage := Env.zodMessage w;
     Env.uploadData := Env.uploadData w;
     Env.getDataProfile := Env.getDataProfile w;
     Env.validateProcessedData := Env.validateProcessedData w;
     Env.runAnalysisWithSession := Env.runAnalysisWithSession w;
     Env.getAnalysisStatus := Env.getAnalysisStatus w;
     Env.auditFileWritable := Env.auditFileWritable w;
     Env.feedbackDirWritable := Env.feedbackDirWritable w |}.

(** A scope name as a token: not empty and without a space. *)
Definition isScopeToken (s : string) : bool :=
  Auth.nonEmpty s && Js.allChars (Js.notSep " ") s.

(** The PEM text [getPublicKey] builds around a certificate. *)
Definition pemCertificate (x5c : string) : string :=
  "-----BEGIN CERTIFICATE-----" ++ Auth.newline ++ x5c ++ Auth.newline
    ++ "-----END CERTIFICATE-----".

End Laws.

(** * Properties *)

Import Props.

(** ** Reading back a printed clock value *)

Section JsFacts.

Lemma readDigits_uint_pos d p :
  Js.readDigits 10 (NilEmpty.string_of_uint d) (Some (Z.pos p))
  = Some (Z.pos (Pos.of_uint_acc d p)).
Proof.
  revert p. induction d; intros p; simpl; [reflexivity | ..];
    unfold Js.digitValue; simpl;
    rewrite <- IHd; do 2 f_equal;
    match goal with |- context [nat_of_ascii ?c] =>
      let n := eval vm_compute in (nat_of_ascii c) in
      change (nat_of_ascii c) with n end; lia.
Qed.

Lemma readDigits_uint d :
  d <> Nil ->
  Js.readDigits 10 (NilEmpty.string_of_uint d) None = Some (Z.of_N (Pos.of_uint d))
  /\ Js.readDigits 10 (NilEmpty.string_of_uint d) (Some 0) = Some (Z.of_N (Pos.of_uint d)).
Proof.
  induction d; intros Hd; [congruence | ..]; simpl; unfold Js.digitValue; simpl;
    try (split; apply readDigits_uint_pos).
  destruct d; [split; reflexivity | ..];
    (destruct IHd as [_ IH]; [congruence|]; split; exact IH).
Qed.

(** A run of decimal digits is read in radix 10: its second character is a
    digit or missing, never an x. *)
Lemma readMagnitude_uint sign d :
  d <> Nil ->
  Js.readMagnitude sign (NilEmpty.string_of_uint d)
  = Some (sign * Z.of_N (Pos.of_uint d)).
Proof.
  intros Hd. destruct (readDigits_uint d Hd) as [H _].
  unfold Js.readMagnitude.
  destruct d as [|d'|d'|d'|d'|d'|d'|d'|d'|d'|d']; [congruence | ..];
    try (simpl NilEmpty.string_of_uint in *; cbv iota beta; rewrite H; reflexivity).
  destruct d'; simpl NilEmpty.string_of_uint in *; cbv iota beta;
    rewrite H; reflexivity.
Qed.

Lemma parseInt_uint d :
  d <> Nil ->
  Js.parseInt (NilEmpty.string_of_uint d) = Some (Z.of_N (Pos.of_uint d))
  /\ Js.parseInt (String "-" (NilEmpty.string_of_uint d))
     = Some (- Z.of_N (Pos.of_uint d)).
Proof.
  intros Hd.
  pose proof (readMagnitude_uint 1 d Hd) as H1.
  pose proof (readMagnitude_uint (-1) d Hd) as H2.
  rewrite Z.mul_1_l in H1.
  replace (-1 * _) with (- Z.of_N (Pos.of_uint d)) in H2 by lia.
  split; [rewrite <- H1 | rewrite <- H2]; unfold Js.parseInt;
    destruct d; try congruence; reflexivity.
Qed.

(** [parseInt(String(n)) = n] for every integer. *)
Lemma parseInt_numberToString z : Js.parseInt (Js.numberToString z) = Some z.
Proof.
  unfold Js.numberToString. destruct z as [|p|p]; simpl.
  - reflexivity.
  - destruct (parseInt_uint (Pos.to_uint p) (DecimalPos.Unsigned.to_uint_nonnil p)) as [H _].
    rewrite H, DecimalPos.Unsigned.of_to. reflexivity.
  - destruct (parseInt_uint (Pos.to_uint p) (DecimalPos.Unsigned.to_uint_nonnil p)) as [_ H].
    rewrite H, DecimalPos.Unsigned.of_to. reflexivity.
Qed.

Lemma split_nonempty sep s : Js.split sep s <> [].
Proof.
  destruct s as [|c rest]; simpl; [done|].
  destruct (Ascii.eqb c sep); [done|]. destruct (Js.split sep rest); done.
Qed.

Lemma split_app_sep sep s1 s2 :
  Js.allChars (Js.notSep sep) s1 = true ->
  Js.split sep (s1 ++ String sep s2) = s1 :: Js.split sep s2.
Proof.
  induction s1 as [|c s1 IH]; simpl; intros H.
  - rewrite Ascii.eqb_refl. reflexivity.
  - apply andb_prop in H as [Hc H]. unfold Js.notSep in Hc.
    destruct (Ascii.eqb c sep); [discriminate|].
    rewrite (IH H). reflexivity.
Qed.

Lemma numberToString_no_underscore z :
  Js.allChars (Js.notSep "_") (Js.numberToString z) = true.
Proof.
  assert (Hd : forall d, Js.allChars (Js.notSep "_") (NilEmpty.string_of_uint d) = true)
    by (induction d; simpl; auto).
  unfold Js.numberToString. destruct z; simpl; auto.
Qed.

End JsFacts.

(** ** Session identifiers and the sweep *)

Section SweepFacts.

Lemma split_newSessionId now rnd :
  Js.split "_" (Guard.newSessionId now rnd)
  = "sess" :: Js.numberToString now :: Js.split "_" rnd.
Proof.
  unfold Guard.newSessionId.
  change ("sess_" ++ Js.numberToString now ++ "_" ++ rnd)
    with ("sess" ++ String "_" (Js.numberToString now ++ String "_" rnd)).
  rewrite split_app_sep by reflexivity.
  rewrite split_app_sep by apply numberToString_no_underscore.
  reflexivity.
Qed.

(** The sweep reads the creation time back from the identifier. *)
Lemma isExpired_newSessionId maxAgeMs now created rnd :
  Guard.isExpired maxAgeMs now (Guard.newSessionId created rnd)
  = (now - created >? maxAgeMs).
Proof.
  unfold Guard.isExpired. rewrite split_newSessionId.
  pose proof (split_nonempty "_" rnd).
  destruct (Js.split "_" rnd) eqn:E; [done|].
  simpl. rewrite parseInt_numberToString. reflexivity.
Qed.

Lemma newSessionId_truthy now rnd :
  Js.truthy (Some (Guard.newSessionId now rnd)) = true.
Proof. reflexivity. Qed.

Lemma removeExpired_sessions st sid :
  Guard.sessions (Guard.removeExpired st sid) = delete sid (Guard.sessions st).
Proof.
  unfold Guard.removeExpired.
  destruct (Guard.sessions st !! sid) eqn:E; simpl; [done|].
  symmetry. by apply delete_id.
Qed.

Lemma fold_removeExpired_sessions ids st sid :
  Guard.sessions (fold_left Guard.removeExpired ids st) !! sid
  = if bool_decide (sid ∈ ids) then None else Guard.sessions st !! sid.
Proof.
  revert st. induction ids as [|i ids IH]; intros st; simpl; [done|].
  rewrite IH, removeExpired_sessions.
  destruct (decide (sid = i)) as [->|Hne].
  - rewrite lookup_delete_eq.
    rewrite (bool_decide_eq_true_2 (i ∈ i :: ids)) by apply list_elem_of_here.
    by destruct (bool_decide (i ∈ ids)).
  - rewrite lookup_delete_ne by done.
    destruct (decide (sid ∈ ids)) as [Hin|Hin].
    + rewrite !bool_decide_eq_true_2; [done | by apply list_elem_of_further | done].
    + rewrite !bool_decide_eq_false_2; [done | | done].
      intros [?|?]%elem_of_cons; done.
Qed.

Lemma fold_removeExpired_dataset_none ids st d :
  Guard.sessionsByDataset st !! d = None ->
  Guard.sessionsByDataset (fold_left Guard.removeExpired ids st) !! d = None.
Proof.
  revert st. induction ids as [|i ids IH]; intros st Hd; simpl; [done|].
  apply IH. unfold Guard.removeExpired.
  destruct (Guard.sessions st !! i); simpl; [|done].
  rewrite lookup_delete. by destruct (decide _).
Qed.

Lemma fold_removeExpired_dataset_gone ids st sid s :
  sid ∈ ids -> Guard.sessions st !! sid = Some s ->
  Guard.sessionsByDataset (fold_left Guard.removeExpired ids st) !! datasetId s = None.
Proof.
  revert st. induction ids as [|i ids IH]; intros st Hin Hs; simpl.
  - by apply elem_of_nil in Hin.
  - destruct (decide (sid = i)) as [->|Hne].
    + apply fold_removeExpired_dataset_none.
      unfold Guard.removeExpired. rewrite Hs. simpl. apply lookup_delete_eq.
    + apply IH.
      * apply elem_of_cons in Hin as [?|?]; done.
      * rewrite removeExpired_sessions, lookup_delete_ne by done. done.
Qed.

Lemma fold_removeExpired_dataset_kept ids st d :
  (forall sid s, sid ∈ ids -> Guard.sessions st !! sid = Some s -> datasetId s <> d) ->
  Guard.sessionsByDataset (fold_left Guard.removeExpired ids st) !! d
  = Guard.sessionsByDataset st !! d.
Proof.
  revert st. induction ids as [|i ids IH]; intros st Hother; simpl; [done|].
  rewrite IH.
  - unfold Guard.removeExpired. destruct (Guard.sessions st !! i) as [s|] eqn:Hi; [|done].
    simpl. apply lookup_delete_ne. apply (Hother i); [apply list_elem_of_here|done].
  - intros sid s Hin. rewrite removeExpired_sessions.
    intros [_ Hs]%lookup_delete_Some. apply (Hother sid); [|done].
    by apply list_elem_of_further.
Qed.

Lemma removeExpired_comm st x y :
  Guard.removeExpired (Guard.removeExpired st x) y
  = Guard.removeExpired (Guard.removeExpired st y) x.
Proof.
  destruct (decide (x = y)) as [->|Hne]; [done|].
  unfold Guard.removeExpired.
  destruct (Guard.sessions st !! x) as [sx|] eqn:Hx;
    destruct (Guard.sessions st !! y) as [sy|] eqn:Hy; simpl;
    rewrite ?lookup_delete_ne, ?Hx, ?Hy by done; simpl; try done.
  f_equal; apply delete_delete.
Qed.

(** The second loop of the sweep gives one store for every order in which
    it visits the collected identifiers. *)
Lemma fold_removeExpired_any_order ids ids' st :
  ids ≡ₚ ids' ->
  fold_left Guard.removeExpired ids st = fold_left Guard.removeExpired ids' st.
Proof.
  intros Hperm. revert st.
  induction Hperm as [|x l l' _ IH|x y l|l l' l'' _ IH1 _ IH2]; intros st; simpl.
  - done.
  - apply IH.
  - by rewrite removeExpired_comm.
  - by rewrite IH1.
Qed.

Lemma elem_of_expiredIds maxAgeMs now st sid :
  sid ∈ Guard.expiredIds maxAgeMs now st
  <-> Guard.isExpired maxAgeMs now sid = true /\ is_Some (Guard.sessions st !! sid).
Proof.
  unfold Guard.expiredIds.
  rewrite list_elem_of_In, filter_In, <- list_elem_of_In, list_elem_of_fmap.
  split.
  - intros [[[k v] [-> Hkv]] He]. apply elem_of_map_to_list in Hkv. simpl in *. eauto.
  - intros [He [v Hv]]. split; [|done]. exists (sid, v). split; [done|].
    by apply elem_of_map_to_list.
Qed.

(** A sweep removes exactly the expired identifiers from the session index. *)
Lemma cleanupSessions_lookup maxAgeMs now st sid :
  Guard.getSession sid (Guard.cleanupSessions maxAgeMs now st)
  = if Guard.isExpired maxAgeMs now sid then None else Guard.getSession sid st.
Proof.
  unfold Guard.getSession, Guard.cleanupSessions.
  rewrite fold_removeExpired_sessions.
  destruct (decide (sid ∈ Guard.expiredIds maxAgeMs now st)) as [Hin|Hin].
  - rewrite bool_decide_eq_true_2 by done.
    apply elem_of_expiredIds in Hin as [-> _]. done.
  - rewrite bool_decide_eq_false_2 by done.
    destruct (Guard.isExpired maxAgeMs now sid) eqn:He; [|done].
    destruct (Guard.sessions st !! sid) eqn:Hs; [|done].
    exfalso. apply Hin, elem_of_expiredIds. eauto.
Qed.

(** The dataset entry of a removed record is deleted in the same sweep. *)
Lemma cleanupSessions_dataset_gone maxAgeMs now st sid s :
  Guard.sessions st !! sid = Some s ->
  Guard.isExpired maxAgeMs now sid = true ->
  Guard.sessionsByDataset (Guard.cleanupSessions maxAgeMs now st) !! datasetId s = None.
Proof.
  intros Hs He. unfold Guard.cleanupSessions.
  apply (fold_removeExpired_dataset_gone _ _ sid); [|done].
  apply elem_of_expiredIds. eauto.
Qed.

End SweepFacts.

(** ** The READY gate *)

Section GateFacts.

Variables (st : Guard.Store) (sid : string) (s : Session).
Variables (auth : AuthContext.t) (auditId : string).
Hypothesis Hfound : Guard.getSession sid st = Some s.

Lemma gate_ownership_test_false :
  ownedBy auth s ->
  negb (String.eqb (Owner.user (owner s)) (AuthContext.user auth))
  || negb (String.eqb (Owner.tenant (owner s)) (AuthContext.tenant auth)) = false.
Proof. intros [-> ->]. by rewrite !String.eqb_refl. Qed.

Lemma gate_ownership_test_true :
  ~ ownedBy auth s ->
  negb (String.eqb (Owner.user (owner s)) (AuthContext.user auth))
  || negb (String.eqb (Owner.tenant (owner s)) (AuthContext.tenant auth)) = true.
Proof.
  intros Hno.
  destruct (String.eqb_spec (Owner.user (owner s)) (AuthContext.user auth)) as [Hu|Hu];
    [|done].
  destruct (String.eqb_spec (Owner.tenant (owner s)) (AuthContext.tenant auth)) as [Ht|Ht];
    [|done].
  exfalso. apply Hno. by split.
Qed.

(** For an owned session the gate is decided by the state alone. *)
Lemma checkReadyGate_owned :
  ownedBy auth s ->
  Guard.checkReadyGate sid auth auditId st
  = if bool_decide (state s = READY) then Guard.GatePassed s
    else Guard.GateFailed
           (errorNext "PREPROCESS_REQUIRED"
              "前処理の提案と処理済み確認を完了してください。"
              (Guard.nextActionsFor s) (Some auditId)).
Proof.
  intros Hown. unfold Guard.checkReadyGate, Guard.getSession in *. rewrite Hfound.
  rewrite (gate_ownership_test_false Hown). by destruct (bool_decide _).
Qed.

End GateFacts.

(** C4. For an existing session whose owner differs from the caller in user
    or tenant, the gate answers ACCESS_DENIED with an empty remediation list,
    and it gives this very answer whatever the state, the processed record,
    the preset list or the dataset of the session are: ownership is tested
    before the state is read. *)
Theorem checkReadyGate_foreign_owner (st : Guard.Store) (sid : string) (s : Session)
    (auth : AuthContext.t) (auditId : string) :
  Guard.getSession sid st = Some s ->
  ~ ownedBy auth s ->
  Guard.checkReadyGate sid auth auditId st
  = Guard.GateFailed
      (errorNext "ACCESS_DENIED" "このセッションにアクセスする権限がありません。"
         [] (Some auditId))
  /\ (forall s', owner s' = owner s ->
        Guard.checkReadyGate sid auth auditId (withSession sid s' st)
        = Guard.checkReadyGate sid auth auditId st)
  /\ (forall newState newProcessed,
        Guard.checkReadyGate sid auth auditId
          (Guard.updateSession sid newState newProcessed st).2
        = Guard.checkReadyGate sid auth auditId st).
Proof.
  intros Hs Hno.
  assert (Hdenied : forall st' s', Guard.getSession sid st' = Some s' ->
            owner s' = owner s ->
            Guard.checkReadyGate sid auth auditId st'
            = Guard.GateFailed
                (errorNext "ACCESS_DENIED"
                   "このセッションにアクセスする権限がありません。" [] (Some auditId))).
  { intros st' s' Hs' Ho. unfold Guard.checkReadyGate, Guard.getSession in *.
    rewrite Hs'. rewrite gate_ownership_test_true; [done|].
    unfold ownedBy. by rewrite Ho. }
  split; [by apply (Hdenied st s) | split].
  - intros s' Ho. rewrite (Hdenied st s Hs eq_refl).
    apply (Hdenied _ s'); [|done].
    unfold Guard.getSession, withSession. simpl. apply lookup_insert_eq.
  - intros newState newProcessed. rewrite (Hdenied st s Hs eq_refl).
    apply (Hdenied _ (Guard.applyUpdate newState newProcessed s)); [|done].
    unfold Guard.updateSession, Guard.getSession in *. rewrite Hs. simpl.
    apply lookup_insert_eq.
Qed.

Lemma checkReadyGate_foreign_owner_witness :
  Guard.checkReadyGate Scenario.suggestedId Scenario.bob "audit_1" Scenario.suggestedStore
  = Guard.GateFailed
      (errorNext "ACCESS_DENIED" "このセッションにアクセスする権限がありません。"
         [] (Some "audit_1"))
  /\ (forall s', owner s' = Scenario.aliceOwner ->
        Guard.checkReadyGate Scenario.suggestedId Scenario.bob "audit_1"
          (withSession Scenario.suggestedId s' Scenario.suggestedStore)
        = Guard.checkReadyGate Scenario.suggestedId Scenario.bob "audit_1"
            Scenario.suggestedStore)
  /\ (forall newState newProcessed,
        Guard.checkReadyGate Scenario.suggestedId Scenario.bob "audit_1"
          (Guard.updateSession Scenario.suggestedId newState newProcessed
             Scenario.suggestedStore).2
        = Guard.checkReadyGate Scenario.suggestedId Scenario.bob "audit_1"
            Scenario.suggestedStore).
Proof.
  apply (checkReadyGate_foreign_owner Scenario.suggestedStore Scenario.suggestedId
           (mkSession "ds1" SUGGESTED ["basic_clean_norm"] None Scenario.aliceOwner)).
  - vm_compute. reflexivity.
  - intros [Hu _]. vm_compute in Hu. discriminate.
Defined.

(** C8, as the code has it. For a session owned by the caller, the gate
    answers PREPROCESS_REQUIRED with one remediation: in state REGISTERED the
    tool toorpia_suggest_preprocess on the session's dataset, in state
    SUGGESTED the tool toorpia_confirm_preprocessed with a template whose
    manifest names the first suggested preset (or a placeholder). *)
Theorem checkReadyGate_remediation (st : Guard.Store) (sid : string) (s : Session)
    (auth : AuthContext.t) (auditId : string) :
  Guard.getSession sid st = Some s ->
  ownedBy auth s ->
  (state s = REGISTERED ->
     Guard.checkReadyGate sid auth auditId st
     = Guard.GateFailed
         (errorNext "PREPROCESS_REQUIRED"
            "前処理の提案と処理済み確認を完了してください。"
            [ NextAction.mk "toorpia_suggest_preprocess"
                (JObj [("dataset_id", JStr (datasetId s))]) ]
            (Some auditId)))
  /\ (state s = SUGGESTED ->
       Guard.checkReadyGate sid auth auditId st
       = Guard.GateFailed
           (errorNext "PREPROCESS_REQUIRED"
              "前処理の提案と処理済み確認を完了してください。"
              [ NextAction.mk "toorpia_confirm_preprocessed" (Guard.confirmTemplate s) ]
              (Some auditId))
       /\ Json.get "dataset_id" (Guard.confirmTemplate s) = Some (JStr (datasetId s))
       /\ (Json.get "manifest" (Guard.confirmTemplate s) ≫= Json.get "preset_id")
          = Some (JStr (Js.orElse (head (suggestedPresetIds s)) "preset_id"))
       /\ forall key,
            key ∈ ["preset_id"; "profile_id"; "recipe_version"; "checksum";
                   "row_count"; "schema"] ->
            is_Some (Json.get "manifest" (Guard.confirmTemplate s) ≫= Json.get key)).
Proof.
  intros Hs Hown. rewrite (checkReadyGate_owned st sid s auth auditId Hs Hown).
  unfold Guard.nextActionsFor. split; intros Hstate; rewrite Hstate; simpl.
  - reflexivity.
  - repeat split.
    + by destruct (suggestedPresetIds s).
    + intros key Hkey. repeat (apply elem_of_cons in Hkey as [->|Hkey]; [by eexists|]).
      by apply elem_of_nil in Hkey.
Qed.

Lemma checkReadyGate_remediation_witness :
  Guard.checkReadyGate Scenario.suggestedId Scenario.alice "audit_1" Scenario.suggestedStore
  = Guard.GateFailed
      (errorNext "PREPROCESS_REQUIRED"
         "前処理の提案と処理済み確認を完了してください。"
         [ NextAction.mk "toorpia_confirm_preprocessed"
             (Guard.confirmTemplate
                (mkSession "ds1" SUGGESTED ["basic_clean_norm"] None Scenario.aliceOwner)) ]
         (Some "audit_1")).
Proof.
  apply (checkReadyGate_remediation Scenario.suggestedStore Scenario.suggestedId
           (mkSession "ds1" SUGGESTED ["basic_clean_norm"] None Scenario.aliceOwner)
           Scenario.alice "audit_1").
  - vm_compute. reflexivity.
  - split; reflexivity.
  - reflexivity.
Defined.

(** C8, as the claim words it, fails: the first remediation of a SUGGESTED
    session names the tool toorpia_confirm_preprocessed, and that of a
    REGISTERED session toorpia_suggest_preprocess; neither is the short name
    of the claim. *)
Lemma gate_tool_names_carry_prefix :
  (exists e,
     Guard.checkReadyGate Scenario.suggestedId Scenario.alice "audit_1"
       Scenario.suggestedStore = Guard.GateFailed e
     /\ ErrorResponse.error e = "PREPROCESS_REQUIRED"
     /\ NextAction.tool <$> head (ErrorResponse.next e) = Some "toorpia_confirm_preprocessed"
     /\ NextAction.tool <$> head (ErrorResponse.next e) <> Some "confirm_preprocessed")
  /\ (exists e,
       Guard.checkReadyGate Scenario.suggestedId Scenario.alice "audit_1"
         (Guard.updateSession Scenario.suggestedId REGISTERED None
            Scenario.suggestedStore).2 = Guard.GateFailed e
       /\ ErrorResponse.error e = "PREPROCESS_REQUIRED"
       /\ NextAction.tool <$> head (ErrorResponse.next e) = Some "toorpia_suggest_preprocess"
       /\ NextAction.tool <$> head (ErrorResponse.next e) <> Some "suggest_preprocess").
Proof.
  split; eexists; (split; [vm_compute; reflexivity|]); repeat split; discriminate.
Qed.

(** ** Creation, supersession and expiry *)

Section StoreFacts.

Lemma append_inj_l (p a b : string) : (p ++ a)%string = (p ++ b)%string -> a = b.
Proof. induction p as [|c p IH]; [done|]. cbn. intros [= H]. by apply IH. Qed.

(** Two identifiers are equal only when clock and random suffix both are. *)
Lemma newSessionId_inj now rnd now' rnd' :
  Guard.newSessionId now rnd = Guard.newSessionId now' rnd' ->
  now = now' /\ rnd = rnd'.
Proof.
  intros H.
  assert (Hsplit := f_equal (Js.split "_") H).
  rewrite !split_newSessionId in Hsplit.
  injection Hsplit as Hnum _.
  assert (Hnow : now = now').
  { apply (f_equal Js.parseInt) in Hnum.
    rewrite !parseInt_numberToString in Hnum. congruence. }
  subst now'. split; [done|].
  unfold Guard.newSessionId in H.
  apply append_inj_l in H. apply append_inj_l in H. by apply append_inj_l in H.
Qed.

Lemma getSession_createSession d p o now rnd st sid :
  Guard.getSession sid (Guard.createSession d p o now rnd st).2
  = if decide (Guard.newSessionId now rnd = sid)
    then Some (mkSession d SUGGESTED p None o)
    else Guard.getSession sid st.
Proof. unfold Guard.getSession, Guard.createSession. simpl. apply lookup_insert. Qed.

Lemma getSession_updateSession sid' newState newProcessed st sid :
  Guard.getSession sid (Guard.updateSession sid' newState newProcessed st).2
  = if decide (sid' = sid)
    then Guard.applyUpdate newState newProcessed <$> Guard.getSession sid st
    else Guard.getSession sid st.
Proof.
  unfold Guard.getSession, Guard.updateSession.
  destruct (Guard.sessions st !! sid') eqn:E; simpl.
  - rewrite lookup_insert. destruct (decide (sid' = sid)) as [<-|]; [|done].
    by rewrite E.
  - destruct (decide (sid' = sid)) as [<-|]; [|done]. by rewrite E.
Qed.

(** An operation other than a late sweep keeps a session in the index. *)
Lemma applyOp_keeps created rnd op st :
  match op with
  | OpSweep now => now - created <= Guard.DEFAULT_MAX_AGE_MS
  | _ => True
  end ->
  is_Some (Guard.getSession (Guard.newSessionId created rnd) st) ->
  is_Some (Guard.getSession (Guard.newSessionId created rnd) (applyOp st op)).
Proof.
  intros Hop Hin. destruct op as [d p o now r|sid' ns np|now]; unfold applyOp.
  - rewrite getSession_createSession. by destruct (decide _).
  - rewrite getSession_updateSession. destruct (decide _); [|done].
    destruct Hin as [x ->]. by eexists.
  - rewrite cleanupSessions_lookup, isExpired_newSessionId.
    destruct (Z.gtb_spec (now - created) Guard.DEFAULT_MAX_AGE_MS); [lia|done].
Qed.

Lemma runOps_keeps created rnd ops st :
  sweepsWithin created ops ->
  is_Some (Guard.getSession (Guard.newSessionId created rnd) st) ->
  is_Some (Guard.getSession (Guard.newSessionId created rnd) (runOps ops st)).
Proof.
  unfold runOps. intros Hops. revert st.
  induction Hops as [|op ops Hop _ IH]; intros st Hin; simpl; [done|].
  apply IH. by apply applyOp_keeps.
Qed.

End StoreFacts.

(** C7, as the code has it. When the two creations differ in the clock
    reading or in the random suffix, they return different identifiers; the
    dataset index then points at the second alone, so the lookup by dataset
    returns the session of the newest call, and the first identifier still
    resolves to the first session, also after every sweep that runs within
    the retention window of the first creation. *)
Theorem createSession_supersedes (st : Guard.Store) (d : string)
    (p1 p2 : list string) (o1 o2 : Owner.t) (now1 now2 : Z) (r1 r2 : string) :
  (now1, r1) <> (now2, r2) ->
  let s1 := (Guard.createSession d p1 o1 now1 r1 st).1 in
  let st1 := (Guard.createSession d p1 o1 now1 r1 st).2 in
  let s2 := (Guard.createSession d p2 o2 now2 r2 st1).1 in
  let st2 := (Guard.createSession d p2 o2 now2 r2 st1).2 in
  s1 <> s2
  /\ Guard.sessionsByDataset st2 !! d = Some s2
  /\ Guard.getSessionByDataset d st2 = Some (mkSession d SUGGESTED p2 None o2)
  /\ Guard.getSession s2 st2 = Some (mkSession d SUGGESTED p2 None o2)
  /\ Guard.getSession s1 st2 = Some (mkSession d SUGGESTED p1 None o1)
  /\ (forall maxAgeMs now,
        now - now1 <= maxAgeMs ->
        Guard.getSession s1 (Guard.cleanupSessions maxAgeMs now st2)
        = Some (mkSession d SUGGESTED p1 None o1)).
Proof.
  intros Hdiffer s1 st1 s2 st2.
  assert (Hne : s1 <> s2).
  { intros Hsame. apply newSessionId_inj in Hsame as [-> ->]. by apply Hdiffer. }
  assert (H2 : Guard.getSession s2 st2 = Some (mkSession d SUGGESTED p2 None o2)).
  { unfold st2. rewrite getSession_createSession. by rewrite decide_True. }
  assert (H1 : Guard.getSession s1 st2 = Some (mkSession d SUGGESTED p1 None o1)).
  { unfold st2, st1. rewrite !getSession_createSession.
    rewrite decide_False by (intros Hsame; by apply Hne).
    by rewrite decide_True. }
  assert (Hd : Guard.sessionsByDataset st2 !! d = Some s2)
    by (unfold st2, Guard.createSession; simpl; apply lookup_insert_eq).
  split; [exact Hne|]. split; [exact Hd|]. split; [|split; [exact H2|split; [exact H1|]]].
  - unfold Guard.getSessionByDataset. rewrite Hd.
    change (Js.truthy (Some s2)) with true. exact H2.
  - intros maxAgeMs now Hnow. rewrite cleanupSessions_lookup.
    change s1 with (Guard.newSessionId now1 r1). rewrite isExpired_newSessionId.
    destruct (Z.gtb_spec (now - now1) maxAgeMs); [lia|exact H1].
Qed.

Lemma createSession_supersedes_witness :
  let s1 := Scenario.suggestedId in
  let s2 := Guard.newSessionId 1500 "m4n5b6v7c" in
  let st2 :=
    (Guard.createSession "ds1" ["sensor_clean_outlier_norm"] (Owner.mk "bob" "globex")
       1500 "m4n5b6v7c" Scenario.suggestedStore).2 in
  s1 <> s2
  /\ Guard.sessionsByDataset st2 !! "ds1" = Some s2
  /\ Guard.getSessionByDataset "ds1" st2
     = Some (mkSession "ds1" SUGGESTED ["sensor_clean_outlier_norm"] None
               (Owner.mk "bob" "globex"))
  /\ Guard.getSession s2 st2
     = Some (mkSession "ds1" SUGGESTED ["sensor_clean_outlier_norm"] None
               (Owner.mk "bob" "globex"))
  /\ Guard.getSession s1 st2
     = Some (mkSession "ds1" SUGGESTED ["basic_clean_norm"] None Scenario.aliceOwner)
  /\ (forall maxAgeMs now,
        now - 1000 <= maxAgeMs ->
        Guard.getSession s1 (Guard.cleanupSessions maxAgeMs now st2)
        = Some (mkSession "ds1" SUGGESTED ["basic_clean_norm"] None Scenario.aliceOwner)).
Proof.
  apply (createSession_supersedes Guard.emptyStore "ds1" ["basic_clean_norm"]
           ["sensor_clean_outlier_norm"] Scenario.aliceOwner (Owner.mk "bob" "globex")
           1000 1500 "k3v9x2m1q" "m4n5b6v7c").
  intros [=].
Defined.

(** C7, as the claim words it, fails when both creations read the same
    clock and draw the same suffix: they return one identifier, the second
    record replaces the first under it, and no identifier resolves to the
    first session any more. *)
Lemma same_identifier_replaces_session :
  let st1 := Scenario.suggestedStore in
  let st2 :=
    (Guard.createSession "ds1" ["sensor_clean_outlier_norm"] (Owner.mk "bob" "globex")
       1000 "k3v9x2m1q" st1).2 in
  (Guard.createSession "ds1" ["basic_clean_norm"] Scenario.aliceOwner 1000 "k3v9x2m1q"
     Guard.emptyStore).1
  = (Guard.createSession "ds1" ["sensor_clean_outlier_norm"] (Owner.mk "bob" "globex")
       1000 "k3v9x2m1q" st1).1
  /\ Guard.getSession Scenario.suggestedId st1
     = Some (mkSession "ds1" SUGGESTED ["basic_clean_norm"] None Scenario.aliceOwner)
  /\ Guard.getSession Scenario.suggestedId st2
     = Some (mkSession "ds1" SUGGESTED ["sensor_clean_outlier_norm"] None
               (Owner.mk "bob" "globex"))
  /\ (forall sid,
        Guard.getSession sid st2
        <> Some (mkSession "ds1" SUGGESTED ["basic_clean_norm"] None Scenario.aliceOwner)).
Proof.
  intros st1 st2. split; [reflexivity|]. split; [vm_compute; reflexivity|].
  split; [vm_compute; reflexivity|].
  intros sid. unfold st2, st1, Scenario.suggestedStore.
  rewrite !getSession_createSession.
  destruct (decide _); [discriminate|]. unfold Guard.getSession. simpl.
  rewrite lookup_empty. discriminate.
Qed.

(** C6, as the code has it. A session created at clock [created] stays in
    the session index through any sequence of store operations whose sweeps
    all run within the retention window of its creation; no lookup removes
    it.  A sweep that runs later than that removes the record: the lookup by
    identifier misses it, no dataset entry resolves to it any more, and the
    dataset entry that pointed to it is deleted by the same sweep. *)
Theorem session_kept_until_late_sweep (st : Guard.Store) (d : string)
    (p : list string) (o : Owner.t) (created : Z) (rnd : string)
    (ops : list StoreOp) :
  let sid := Guard.newSessionId created rnd in
  let st1 := runOps ops (Guard.createSession d p o created rnd st).2 in
  sweepsWithin created ops ->
  is_Some (Guard.getSession sid st1)
  /\ forall now,
       Guard.DEFAULT_MAX_AGE_MS < now - created ->
       let st2 := Guard.cleanupSessions Guard.DEFAULT_MAX_AGE_MS now st1 in
       Guard.getSession sid st2 = None
       /\ (forall d', Guard.sessionsByDataset st2 !! d' = Some sid ->
              Guard.getSessionByDataset d' st2 = None)
       /\ (forall s, Guard.getSession sid st1 = Some s ->
              Guard.sessionsByDataset st1 !! datasetId s = Some sid ->
              Guard.sessionsByDataset st2 !! datasetId s = None).
Proof.
  intros sid st1 Hops.
  assert (Hin : is_Some (Guard.getSession sid st1)).
  { apply runOps_keeps; [done|]. rewrite getSession_createSession.
    by rewrite decide_True. }
  split; [done|]. intros now Hnow st2.
  assert (Hexp : Guard.isExpired Guard.DEFAULT_MAX_AGE_MS now sid = true).
  { unfold sid. rewrite isExpired_newSessionId. by apply Z.gtb_lt. }
  assert (Hgone : Guard.getSession sid st2 = None).
  { unfold st2. rewrite cleanupSessions_lookup. by rewrite Hexp. }
  repeat split; [done | |].
  - intros d' Hd'. unfold Guard.getSessionByDataset. rewrite Hd'.
    destruct (Js.truthy (Some sid)); [exact Hgone|done].
  - intros s Hs _. by apply (cleanupSessions_dataset_gone _ _ _ sid).
Qed.

Lemma session_kept_until_late_sweep_witness :
  let sid := Guard.newSessionId 1000 "k3v9x2m1q" in
  let st1 :=
    runOps [ OpSweep 3600000;
             OpCreate "ds2" ["basic_clean_norm"] Scenario.aliceOwner 4000000 "a1b2c3d4e";
             OpUpdate "sess_4000000_a1b2c3d4e" ANALYZED None;
             OpSweep 86401000 ]
      Scenario.suggestedStore in
  is_Some (Guard.getSession sid st1)
  /\ forall now,
       Guard.DEFAULT_MAX_AGE_MS < now - 1000 ->
       let st2 := Guard.cleanupSessions Guard.DEFAULT_MAX_AGE_MS now st1 in
       Guard.getSession sid st2 = None
       /\ (forall d', Guard.sessionsByDataset st2 !! d' = Some sid ->
              Guard.getSessionByDataset d' st2 = None)
       /\ (forall s, Guard.getSession sid st1 = Some s ->
              Guard.sessionsByDataset st1 !! datasetId s = Some sid ->
              Guard.sessionsByDataset st2 !! datasetId s = None).
Proof.
  apply (session_kept_until_late_sweep Guard.emptyStore "ds1" ["basic_clean_norm"]
           Scenario.aliceOwner 1000 "k3v9x2m1q").
  repeat constructor; vm_compute; discriminate.
Defined.

(** C6, as the claim words it, fails: expiry happens in the sweep only, and
    the two indices are not kept in step.  A session created half an hour
    after startup is still found, through both indices, at 24 hours and one
    millisecond of age: the hourly sweep last ran at 23.5 hours of age and
    is not due for another 30 minutes.  And once a second session is created
    for its dataset, a session is held by the session index alone, sweep or
    no sweep: the lookup by dataset returns the newer one. *)
Lemma late_lookup_still_finds_session :
  let created := 1800000 in
  let sid := Guard.newSessionId created "k3v9x2m1q" in
  let hourly := (fun k => OpSweep (k * 3600000)) <$> seqZ 1 24 in
  let lookupTime := created + Guard.DEFAULT_MAX_AGE_MS + 1 in
  let st :=
    runOps hourly
      (Guard.createSession "ds1" ["basic_clean_norm"] Scenario.aliceOwner
         created "k3v9x2m1q" Guard.emptyStore).2 in
  let superseded :=
    runOps [ OpCreate "ds1" ["sensor_clean_outlier_norm"] Scenario.aliceOwner
               2000000 "a1b2c3d4e";
             OpSweep 3600000 ]
      (Guard.createSession "ds1" ["basic_clean_norm"] Scenario.aliceOwner
         created "k3v9x2m1q" Guard.emptyStore).2 in
  (last hourly = Some (OpSweep (lookupTime - 1800001))
   /\ Guard.DEFAULT_MAX_AGE_MS < lookupTime - created
   /\ Guard.getSession sid st
      = Some (mkSession "ds1" SUGGESTED ["basic_clean_norm"] None Scenario.aliceOwner)
   /\ Guard.getSessionByDataset "ds1" st
      = Some (mkSession "ds1" SUGGESTED ["basic_clean_norm"] None Scenario.aliceOwner))
  /\ (Guard.getSession sid superseded
      = Some (mkSession "ds1" SUGGESTED ["basic_clean_norm"] None Scenario.aliceOwner)
      /\ Guard.getSessionByDataset "ds1" superseded
         = Some (mkSession "ds1" SUGGESTED ["sensor_clean_outlier_norm"] None
                   Scenario.aliceOwner)).
Proof. vm_compute. repeat split; reflexivity. Qed.

(** What the sweep does to the dataset entry of a younger session: the
    session of clock 1000 expires, and with it goes the entry of its dataset,
    which pointed to the session created 23 hours later. *)
Example sweep_drops_entry_of_younger_session :
  let younger := Guard.newSessionId 82801000 "a1b2c3d4e" in
  let st :=
    runOps [ OpCreate "ds1" ["basic_clean_norm"] Scenario.aliceOwner 82801000 "a1b2c3d4e";
             OpSweep 86402000 ]
      Scenario.suggestedStore in
  Guard.getSession Scenario.suggestedId st = None
  /\ Guard.getSession younger st
     = Some (mkSession "ds1" SUGGESTED ["basic_clean_norm"] None Scenario.aliceOwner)
  /\ Guard.getSessionByDataset "ds1" st = None.
Proof. vm_compute. repeat split; reflexivity. Qed.

(** ** The processed record and the state *)

Section InvariantFacts.

Variable st : Guard.Store.
Hypothesis Hinv : storeInvariant st.

Lemma sessionInvariant_fresh d p o : sessionInvariant (mkSession d SUGGESTED p None o).
Proof.
  unfold sessionInvariant; simpl. split.
  - intros [x Hx]. discriminate.
  - intros [H|H]; discriminate.
Qed.

Lemma storeInvariant_createSession d p o now rnd :
  storeInvariant (Guard.createSession d p o now rnd st).2.
Proof.
  intros sid s. rewrite getSession_createSession.
  destruct (decide _); [|by apply Hinv].
  intros [= <-]. apply sessionInvariant_fresh.
Qed.

Lemma storeInvariant_cleanupSessions maxAgeMs now :
  storeInvariant (Guard.cleanupSessions maxAgeMs now st).
Proof.
  intros sid s. rewrite cleanupSessions_lookup.
  destruct (Guard.isExpired maxAgeMs now sid); [done|]. apply Hinv.
Qed.

(** [updateSession] keeps the invariant exactly when its arguments fit the
    session they land on. *)
Lemma storeInvariant_updateSession sid newState newProcessed :
  (forall s, Guard.getSession sid st = Some s ->
     (is_Some newProcessed \/ is_Some (processed s))
     <-> (newState = READY \/ newState = ANALYZED))
  <-> storeInvariant (Guard.updateSession sid newState newProcessed st).2.
Proof.
  assert (Hshape : forall s,
            sessionInvariant (Guard.applyUpdate newState newProcessed s)
            <-> ((is_Some newProcessed \/ is_Some (processed s))
                 <-> (newState = READY \/ newState = ANALYZED))).
  { intros s. unfold sessionInvariant, Guard.applyUpdate; simpl.
    destruct newProcessed as [x|]; simpl.
    - split; intros H; (split; [intros _; apply H; eauto | intros Hs; try apply H in Hs; eauto]).
    - split; intros H; (split; [intros Hs; apply H; try destruct Hs as [[? [=]]|Hs]; eauto
                              | intros Hs; apply H in Hs; try destruct Hs as [[? [=]]|Hs]; eauto]). }
  split.
  - intros Hfit sid' s'. rewrite getSession_updateSession.
    destruct (decide (sid = sid')) as [<-|]; [|by apply Hinv].
    destruct (Guard.getSession sid st) as [s|] eqn:Hs; simpl; [|done].
    intros [= <-]. apply Hshape. by apply Hfit.
  - intros Hafter s Hs. apply Hshape. apply (Hafter sid).
    rewrite getSession_updateSession, decide_True by done. by rewrite Hs.
Qed.

Lemma storeInvariant_confirmPreprocessed w args auth auditId e :
  storeInvariant (Server.confirmPreprocessed w args auth auditId e st).2.
Proof.
  unfold Server.confirmPreprocessed.
  destruct (Guard.getSessionByDataset _ st); [|done].
  destruct (negb (Js.includes _ _)); [done|].
  destruct (negb (Env.valid _)); [done|].
  match goal with |- context [Guard.updateSession ?i ?n ?p st] =>
    pose proof (proj1 (storeInvariant_updateSession i n p)) as Hupd;
    destruct (Guard.updateSession i n p st) as [updated st'] eqn:E end.
  simpl in Hupd.
  assert (storeInvariant st').
  { apply Hupd. intros s0 _. split; [by left | intros _; left; by eexists]. }
  by destruct (negb updated).
Qed.

Lemma storeInvariant_runAnalysis w args auth auditId :
  storeInvariant (Server.runAnalysis w args auth auditId st).2.
Proof.
  unfold Server.runAnalysis.
  destruct (Guard.checkReadyGate _ auth auditId st) as [s|err] eqn:Hgate; [|done].
  destruct (processed s) as [p|] eqn:Hp; [|done].
  match goal with |- context [Guard.updateSession ?i ?n ?p st] =>
    pose proof (proj1 (storeInvariant_updateSession i n p)) as Hupd;
    destruct (Guard.updateSession i n p st) as [updated st'] eqn:E end.
  simpl in *. apply Hupd. intros s' Hs'.
  unfold Guard.checkReadyGate, Guard.getSession in *. rewrite Hs' in Hgate.
  destruct (_ || _); [done|]. destruct (negb _); [done|].
  injection Hgate as ->. rewrite Hp. split; [by right | intros _; right; by eexists].
Qed.

Lemma storeInvariant_suggestPreprocess w args auth auditId e :
  storeInvariant (Server.suggestPreprocess w args auth auditId e st).2.
Proof.
  unfold Server.suggestPreprocess.
  destruct (negb _); [done|]. destruct (Env.profile _); [|done].
  apply storeInvariant_createSession.
Qed.

Lemma storeInvariant_executeTool w toolName args auth auditId e :
  storeInvariant (Server.executeTool w toolName args auth auditId e st).2.
Proof.
  unfold Server.executeTool.
  repeat (destruct (String.eqb toolName _));
    try (destruct (negb (Guard.checkScope auth _)); [done|]);
    try (destruct (Server.parsed _ _ _ _); [|done]); try done.
  - apply storeInvariant_suggestPreprocess.
  - apply storeInvariant_confirmPreprocessed.
  - pose proof (storeInvariant_runAnalysis w value auth auditId).
    by destruct (Server.runAnalysis w value auth auditId st).
Qed.

Lemma handleCallTool_store w req e log :
  Server.store (Server.handleCallTool w req e (Server.mkState st log)).2 = st
  \/ exists auth,
       Server.store (Server.handleCallTool w req e (Server.mkState st log)).2
       = (Server.executeTool w (Server.name req) (Server.arguments req) auth
            (Guard.generateAuditId (Server.auditIso e) (Server.auditRnd e)) e st).2.
Proof.
  unfold Server.handleCallTool. simpl.
  destruct (Auth.authenticateRequest w _ (Auth.envIs _ _)) as [auth|m]; [|by left].
  right. exists auth.
  destruct (Server.executeTool _ _ _ _ _ _ _) as [[result|m] st']; simpl; [|done].
  by destruct (Audit.logSuccess _ _ _ _ _ _ _ _ _ _).
Qed.

End InvariantFacts.

(** C5, as the code has it. The invariant (a processed record exactly in
    the states READY and ANALYZED) is kept by session creation, by the sweep,
    by confirmation, by analysis completion and by every tool call as a
    whole; [updateSession] keeps it exactly when the new state is READY or
    ANALYZED if and only if a record is supplied or already present. *)
Theorem storeInvariant_preserved (st : Guard.Store) :
  storeInvariant st ->
  (forall d p o now rnd, storeInvariant (Guard.createSession d p o now rnd st).2)
  /\ (forall maxAgeMs now, storeInvariant (Guard.cleanupSessions maxAgeMs now st))
  /\ (forall w args auth auditId e,
        storeInvariant (Server.confirmPreprocessed w args auth auditId e st).2)
  /\ (forall w args auth auditId,
        storeInvariant (Server.runAnalysis w args auth auditId st).2)
  /\ (forall w req e log,
        storeInvariant
          (Server.store (Server.handleCallTool w req e (Server.mkState st log)).2))
  /\ (forall sid newState newProcessed,
        (forall s, Guard.getSession sid st = Some s ->
           (is_Some newProcessed \/ is_Some (processed s))
           <-> (newState = READY \/ newState = ANALYZED))
        <-> storeInvariant (Guard.updateSession sid newState newProcessed st).2).
Proof.
  intros Hinv.
  split; [|split; [|split; [|split; [|split]]]].
  - intros. by apply storeInvariant_createSession.
  - intros. by apply storeInvariant_cleanupSessions.
  - intros. by apply storeInvariant_confirmPreprocessed.
  - intros. by apply storeInvariant_runAnalysis.
  - intros w req e log.
    destruct (handleCallTool_store st w req e log) as [->|[auth ->]]; [done|].
    by apply storeInvariant_executeTool.
  - intros. by apply storeInvariant_updateSession.
Qed.

Lemma storeInvariant_suggestedStore : storeInvariant Scenario.suggestedStore.
Proof.
  intros sid s. unfold Scenario.suggestedStore. rewrite getSession_createSession.
  destruct (decide _); [|done]. intros [= <-]. apply sessionInvariant_fresh.
Qed.

Lemma storeInvariant_preserved_witness :
  storeInvariant
    (Server.store
       (Server.handleCallTool Scenario.production Scenario.confirmRequest
          (Scenario.entropyAt 2000 "z9y8x7w6v") Scenario.suggestedState).2).
Proof.
  exact (proj1 (proj2 (proj2 (proj2 (proj2
           (storeInvariant_preserved Scenario.suggestedStore
              storeInvariant_suggestedStore)))))
           Scenario.production Scenario.confirmRequest
           (Scenario.entropyAt 2000 "z9y8x7w6v") []).
Defined.

(** C5, as the claim words it, fails for [updateSession]: setting a fresh
    session to READY without a record leaves a READY session that has no
    processed record, and attaching a record while the state stays SUGGESTED
    leaves a record outside READY and ANALYZED. *)
Lemma updateSession_breaks_invariant :
  (exists s,
     Guard.getSession Scenario.suggestedId
       (Guard.updateSession Scenario.suggestedId READY None Scenario.suggestedStore).2
     = Some s
     /\ state s = READY /\ processed s = None)
  /\ (exists s p,
       Guard.getSession Scenario.suggestedId
         (Guard.updateSession Scenario.suggestedId SUGGESTED
            (Some (Processed.mk "file:///data/processed.csv" "sha256:00" "basic_clean_norm"
                     "profile_1" "v1.0" None None))
            Scenario.suggestedStore).2
       = Some s
       /\ state s = SUGGESTED /\ processed s = Some p).
Proof.
  split; repeat eexists; vm_compute; reflexivity.
Qed.

(** ** Scopes of a verified token *)

Section ScopeFacts.

Lemma append_empty_r (s : string) : (s ++ "")%string = s.
Proof.
  induction s as [|c s IH]; [done|].
  change (String c (s ++ "") = String c s). by rewrite IH.
Qed.

Lemma append_assoc_char (a : string) (c : ascii) (b : string) :
  ((a ++ String c "") ++ b)%string = (a ++ String c b)%string.
Proof.
  induction a as [|x a IH]; [done|].
  change (String x ((a ++ String c "") ++ b) = String x (a ++ String c b)).
  by rewrite IH.
Qed.

(** Splitting on spaces and dropping the empty fragments yields the maximal
    runs of characters other than a space. *)
Lemma split_filter_scopeWords s current :
  List.filter Auth.nonEmpty
    (match Js.split " " s with
     | frag :: frags => (current ++ frag)%string :: frags
     | [] => []
     end)
  = scopeWords s current.
Proof.
  revert current. induction s as [|c s IH]; intros current; simpl.
  - rewrite append_empty_r. by destruct (Auth.nonEmpty current).
  - destruct (Ascii.eqb c " ") eqn:Hc; simpl.
    + rewrite append_empty_r. specialize (IH EmptyString).
      assert (Hsame : match Js.split " " s with
                      | frag :: frags => ("" ++ frag)%string :: frags
                      | [] => []
                      end = Js.split " " s).
      { pose proof (split_nonempty " " s). by destruct (Js.split " " s). }
      rewrite Hsame in IH. rewrite IH. by destruct (Auth.nonEmpty current).
    + specialize (IH (current ++ String c "")%string).
      pose proof (split_nonempty " " s).
      destruct (Js.split " " s) as [|frag frags]; [done|].
      by rewrite append_assoc_char in IH.
Qed.

(** [parseScopes] computes the scope set the spec describes. *)
Lemma parseScopes_specScopes payload : Auth.parseScopes payload = specScopes payload.
Proof.
  unfold Auth.parseScopes, specScopes.
  assert (Hstr : forall s,
            (if Js.truthy (Some s) then List.filter Auth.nonEmpty (Js.split " " s) else [])
            = scopeWords s EmptyString).
  { intros s. rewrite <- split_filter_scopeWords.
    pose proof (split_nonempty " " s).
    destruct s as [|c s]; [done|]. simpl Js.truthy. cbv iota.
    by destruct (Js.split " " (String c s)). }
  destruct (Env.scopes payload); destruct (Env.scope payload); try done; apply Hstr.
Qed.

End ScopeFacts.

(** C9. A token that the library verified and that names a subject and a
    tenant is accepted, and its scope set is the explicit list claim when
    one is present, else the space-separated tokens of the string claim when
    present, else empty: a payload with neither claim is accepted with no
    scope and raises no error. *)
Theorem verifyJWT_scopes (w : World) (token publicKey : string) (payload : JWTPayload) :
  Auth.getPublicKey w = Ok publicKey ->
  Env.jwtVerify w token publicKey = Ok payload ->
  Js.truthy (Env.sub payload) = true ->
  Js.truthy (Env.tenant payload) = true ->
  exists auth,
    Auth.verifyJWT w token = Ok auth
    /\ AuthContext.scopes auth = Auth.parseScopes payload
    /\ Auth.parseScopes payload = specScopes payload
    /\ (forall l, Env.scopes payload = ClaimStrings l -> AuthContext.scopes auth = l)
    /\ (forall s, (forall l, Env.scopes payload <> ClaimStrings l) ->
                  Env.scope payload = ClaimString s ->
                  AuthContext.scopes auth = scopeWords s EmptyString)
    /\ (Env.scopes payload = ClaimAbsent -> Env.scope payload = ClaimAbsent ->
        AuthContext.scopes auth = []).
Proof.
  intros Hkey Hverify Hsub Htenant.
  unfold Auth.verifyJWT. rewrite Hkey, Hverify, Hsub, Htenant. simpl.
  eexists. split; [reflexivity|]. simpl.
  split; [reflexivity|]. split; [apply parseScopes_specScopes|].
  rewrite parseScopes_specScopes. unfold specScopes.
  split; [|split].
  - intros l ->. done.
  - intros s Hnolist ->. destruct (Env.scopes payload); try done.
    by destruct (Hnolist l).
  - intros -> ->. done.
Qed.

Lemma verifyJWT_scopes_witness :
  exists auth,
    Auth.verifyJWT Scenario.production "carol-token" = Ok auth
    /\ AuthContext.scopes auth = Auth.parseScopes Scenario.carolPayload
    /\ Auth.parseScopes Scenario.carolPayload = specScopes Scenario.carolPayload
    /\ (forall l, Env.scopes Scenario.carolPayload = ClaimStrings l ->
                  AuthContext.scopes auth = l)
    /\ (forall s, (forall l, Env.scopes Scenario.carolPayload <> ClaimStrings l) ->
                  Env.scope Scenario.carolPayload = ClaimString s ->
                  AuthContext.scopes auth = scopeWords s EmptyString)
    /\ (Env.scopes Scenario.carolPayload = ClaimAbsent ->
        Env.scope Scenario.carolPayload = ClaimAbsent ->
        AuthContext.scopes auth = []).
Proof.
  apply (verifyJWT_scopes Scenario.production "carol-token" "-----BEGIN PUBLIC KEY-----"
           Scenario.carolPayload); reflexivity.
Defined.

Example parseScopes_string_claim :
  Auth.parseScopes Scenario.alicePayload = ["mcp:profile"; "mcp:analyze"].
Proof. reflexivity. Qed.

Example parseScopes_repeated_spaces :
  Auth.parseScopes
    (Env.mkPayload (Some "u") (Some "t") (ClaimString " a  b ") ClaimAbsent None None)
  = ["a"; "b"].
Proof. reflexivity. Qed.

Example parseScopes_list_wins :
  Auth.parseScopes
    (Env.mkPayload (Some "u") (Some "t") (ClaimString "a b") (ClaimStrings ["x"]) None None)
  = ["x"].
Proof. reflexivity. Qed.

(** ** The hashed input of an audit record *)

Section HashFacts.

Lemma hexNibble_lower x : Schemas.isLowerHex (Sha256.hexNibble (x mod 16)) = true.
Proof.
  assert (H : (x mod 16 < 16)%N) by (apply N.mod_lt; discriminate).
  destruct (x mod 16)%N as [|p]; [reflexivity|].
  do 5 (destruct p as [p|p|]; try reflexivity; try lia).
Qed.

(** The digest is 64 lowercase hexadecimal digits, whatever the text. *)
Lemma hex_shape text :
  String.length (Sha256.hex text) = 64%nat
  /\ Js.allChars Schemas.isLowerHex (Sha256.hex text) = true.
Proof.
  unfold Sha256.hex. generalize (Sha256.digest (Sha256.bytesOfString text)) as h.
  intros h. split; [reflexivity|].
  cbv [Sha256.hexOfHash Sha256.hexWord String.append Js.allChars].
  by rewrite !hexNibble_lower.
Qed.

(** Its first sixteen characters are sixteen lowercase hexadecimal digits. *)
Lemma hash_prefix_shape text :
  String.length (Js.slice_to 16 (Sha256.hex text)) = 16%nat
  /\ isLowerHexString (Js.slice_to 16 (Sha256.hex text)).
Proof.
  unfold isLowerHexString, Sha256.hex.
  generalize (Sha256.digest (Sha256.bytesOfString text)) as h.
  intros h. split; [reflexivity|].
  cbv [Js.slice_to String.substring Sha256.hexOfHash Sha256.hexWord String.append
       Js.allChars].
  by rewrite !hexNibble_lower.
Qed.

End HashFacts.

Section TruncationFacts.

Lemma add32_bounded a b : (Sha256.add32 a b < Sha256.wordMod)%N.
Proof. unfold Sha256.add32. apply N.mod_lt. discriminate. Qed.

Lemma digest_bounded msg : wordsBounded (Sha256.digest msg).
Proof.
  unfold Sha256.digest.
  generalize (Sha256.blocks (List.length (Sha256.toWords (Sha256.pad msg)))
                (Sha256.toWords (Sha256.pad msg))) as bs.
  intros bs. induction bs as [|b bs IH] using rev_ind.
  - split; apply N.mod_lt; discriminate.
  - rewrite fold_left_app. simpl. split; apply add32_bounded.
Qed.

Lemma digitValue_hexNibble x :
  Js.digitValue 16 (Sha256.hexNibble (x mod 16)) = Some (Z.of_N (x mod 16)).
Proof.
  assert (H : (x mod 16 < 16)%N) by (apply N.mod_lt; discriminate).
  destruct (x mod 16)%N as [|p]; [reflexivity|].
  do 5 (destruct p as [p|p|]; try reflexivity; try lia).
Qed.

Lemma nibble_value w k :
  Z.of_N (N.shiftr w k mod 16) = (Z.of_N w / 2 ^ Z.of_N k) mod 16.
Proof.
  rewrite N.shiftr_div_pow2, N2Z.inj_mod, N2Z.inj_div, N2Z.inj_pow. reflexivity.
Qed.

(** A word below 2^32 is the value of its eight hexadecimal digits. *)
Lemma word_of_nibbles w :
  0 <= w < 2 ^ 32 ->
  w = ((((((((w / 2 ^ 28) mod 16 * 16 + (w / 2 ^ 24) mod 16) * 16
            + (w / 2 ^ 20) mod 16) * 16 + (w / 2 ^ 16) mod 16) * 16
          + (w / 2 ^ 12) mod 16) * 16 + (w / 2 ^ 8) mod 16) * 16
        + (w / 2 ^ 4) mod 16) * 16 + w mod 16).
Proof.
  intros Hw.
  assert (Hstep : forall k k', k' = k + 4 -> 0 <= k ->
            w / 2 ^ k = 16 * (w / 2 ^ k') + (w / 2 ^ k) mod 16).
  { intros k k' -> Hk. rewrite Z.pow_add_r by lia. rewrite <- Z.div_div by lia.
    change (2 ^ 4) with 16. apply Z.div_mod. lia. }
  pose proof (Hstep 0 4 eq_refl ltac:(lia)) as H0.
  pose proof (Hstep 4 8 eq_refl ltac:(lia)) as H4.
  pose proof (Hstep 8 12 eq_refl ltac:(lia)) as H8.
  pose proof (Hstep 12 16 eq_refl ltac:(lia)) as H12.
  pose proof (Hstep 16 20 eq_refl ltac:(lia)) as H16.
  pose proof (Hstep 20 24 eq_refl ltac:(lia)) as H20.
  pose proof (Hstep 24 28 eq_refl ltac:(lia)) as H24.
  pose proof (Hstep 28 32 eq_refl ltac:(lia)) as H28.
  rewrite Z.pow_0_r, Z.div_1_r in H0.
  assert (Htop : w / 2 ^ 32 = 0) by (apply Z.div_small; lia).
  rewrite Htop in H28. lia.
Qed.

(** Reading the first sixteen hexadecimal digits of a digest gives its first
    64 bits. *)
Lemma readDigits_hash_prefix text :
  Js.readDigits 16 (Js.slice_to 16 (Sha256.hex text)) None = Some (digestPrefix64 text).
Proof.
  unfold digestPrefix64, Sha256.hex.
  destruct (digest_bounded (Sha256.bytesOfString text)) as [Ha Hb].
  revert Ha Hb. generalize (Sha256.digest (Sha256.bytesOfString text)) as h.
  intros [a b c d e f g h] Ha Hb. cbn [Sha256.ha Sha256.hb] in *.
  cbv [Js.slice_to String.substring Sha256.hexOfHash Sha256.hexWord String.append
       Sha256.ha Sha256.hb Js.readDigits].
  change a with (N.shiftr a 0) at 8. change b with (N.shiftr b 0) at 8.
  rewrite !digitValue_hexNibble. cbn [default]. f_equal.
  rewrite !nibble_value. change (Z.of_N 0) with 0.
  rewrite !Z.pow_0_r, !Z.div_1_r.
  assert (HA : 0 <= Z.of_N a < 2 ^ 32) by (unfold Sha256.wordMod in Ha; lia).
  assert (HB : 0 <= Z.of_N b < 2 ^ 32) by (unfold Sha256.wordMod in Hb; lia).
  pose proof (word_of_nibbles _ HA) as Ea. pose proof (word_of_nibbles _ HB) as Eb.
  change (Z.of_N 28) with 28. change (Z.of_N 24) with 24. change (Z.of_N 20) with 20.
  change (Z.of_N 16) with 16. change (Z.of_N 12) with 12. change (Z.of_N 8) with 8.
  change (Z.of_N 4) with 4.
  unfold id. lia.
Qed.

Lemma digestPrefix64_range text : 0 <= digestPrefix64 text < 2 ^ 64.
Proof.
  unfold digestPrefix64.
  destruct (digest_bounded (Sha256.bytesOfString text)) as [Ha Hb].
  unfold Sha256.wordMod in *. lia.
Qed.

Lemma prefix_allChars p needle hay :
  String.prefix needle hay = true ->
  Js.allChars p hay = true -> Js.allChars p needle = true.
Proof.
  revert hay. induction needle as [|c needle IH]; intros hay Hpre Hall; [done|].
  destruct hay as [|c' hay]; [done|]. simpl in Hpre.
  destruct (Ascii.ascii_dec c c') as [->|]; [|done].
  simpl in *. apply andb_prop in Hall as [Hc Hall]. by rewrite Hc, (IH hay).
Qed.

Lemma prefix_length needle hay :
  String.prefix needle hay = true -> (String.length needle <= String.length hay)%nat.
Proof.
  revert hay. induction needle as [|c needle IH]; intros hay Hpre; simpl; [lia|].
  destruct hay as [|c' hay]; [done|]. simpl in Hpre.
  destruct (Ascii.ascii_dec c c'); [|done]. specialize (IH hay Hpre). simpl. lia.
Qed.

(** What occurs in a text is made of characters of that text, and is no
    longer than it. *)
Lemma occursIn_allChars p needle hay :
  occursIn needle hay = true ->
  Js.allChars p hay = true -> Js.allChars p needle = true.
Proof.
  induction hay as [|c hay IH]; simpl; intros Hocc Hall.
  - rewrite orb_false_r in Hocc. by apply (prefix_allChars p needle EmptyString).
  - apply orb_prop in Hocc as [Hpre|Hocc].
    + by apply (prefix_allChars p needle (String c hay)).
    + apply andb_prop in Hall as [_ Hall]. by apply IH.
Qed.

Lemma occursIn_length needle hay :
  occursIn needle hay = true -> (String.length needle <= String.length hay)%nat.
Proof.
  induction hay as [|c hay IH]; simpl; intros Hocc.
  - rewrite orb_false_r in Hocc. by apply (prefix_length needle EmptyString).
  - apply orb_prop in Hocc as [Hpre|Hocc].
    + by apply (prefix_length needle (String c hay)).
    + specialize (IH Hocc). lia.
Qed.

(** The text of a payload other than a bare number holds a character that
    is no hexadecimal digit. *)
Lemma stringify_not_hex input :
  (forall x, input <> JNum x) ->
  Js.allChars Schemas.isLowerHex (Json.stringify input) = false.
Proof.
  intros Hnum. destruct input as [| [|] |x|s|items|fields]; try reflexivity.
  by destruct (Hnum x).
Qed.

End TruncationFacts.

(** C10, as the code has it. For every payload there is one value that
    every call stores as [input_hash], whatever the caller, the tool, the
    clock and the outcome: the sixteen lowercase hexadecimal digits that
    spell the first 64 bits of the SHA-256 digest of the payload's JSON
    text.  The payload's text does not occur in that value unless the
    payload is a bare number of at most sixteen characters.  Without a
    payload the hashing throws and no record is written. *)
Theorem audit_record_stores_hash (input : json) :
  (exists h : string,
     String.length h = 16%nat
     /\ isLowerHexString h
     /\ Js.readDigits 16 h None = Some (digestPrefix64 (Json.stringify input))
     /\ 0 <= digestPrefix64 (Json.stringify input) < 2 ^ 64
     /\ (forall w now auth tool success auditId presetId sessionId outputUri error log,
           exists entry,
             AuditLog.input_hash entry = h
             /\ Audit.writeAuditLog w now auth tool (Some input) success auditId
                  presetId sessionId outputUri error log
                = Ok (if Env.auditFileWritable w then log ++ [entry] else log)%list)
     /\ (occursIn (Json.stringify input) h = true ->
         (exists x, input = JNum x)
         /\ (String.length (Json.stringify input) <= 16)%nat))
  /\ (forall w now auth tool success auditId presetId sessionId outputUri error log,
        Audit.writeAuditLog w now auth tool None success auditId
          presetId sessionId outputUri error log
        = Throw Audit.updateTypeError).
Proof.
  split; [|reflexivity].
  exists (Js.slice_to 16 (Sha256.hex (Json.stringify input))).
  destruct (hash_prefix_shape (Json.stringify input)) as [Hlen Hhex].
  split; [exact Hlen|]. split; [exact Hhex|].
  split; [apply readDigits_hash_prefix|].
  split; [apply digestPrefix64_range|]. split.
  - intros. eexists. split; [|unfold Audit.writeAuditLog; simpl;
                               destruct (Env.auditFileWritable w); reflexivity].
    reflexivity.
  - intros Hocc. split.
    + pose proof (occursIn_allChars Schemas.isLowerHex _ _ Hocc Hhex) as Hall.
      clear Hocc Hhex Hlen.
      destruct input as [| b |x|s|items|fields]; [| |exists x; reflexivity| | |];
        rewrite stringify_not_hex in Hall by (intros x; discriminate);
        discriminate Hall.
    + rewrite <- Hlen. apply occursIn_length. exact Hocc.
Qed.

(** C10, as the claim words it, fails for a bare number: the payload 1 is
    serialized as the one character 1, and its stored hash contains it. *)
Lemma bare_number_occurs_in_its_hash :
  Json.stringify (JNum (Number.ofZ 1)) = "1"
  /\ Audit.hashInput (Some (JNum (Number.ofZ 1))) = Some "6b86b273ff34fce1"
  /\ occursIn "1" "6b86b273ff34fce1" = true.
Proof. vm_compute. repeat split. Qed.

Example hashInput_run_request :
  Audit.hashInput (Some (JObj [("session_id", JStr "sess_1000_k3v9x2m1q")]))
  = Some "5634e624732ebd42".
Proof. vm_compute. reflexivity. Qed.

(** Numbers of a payload are serialized as the runtime prints the double
    they stand for: an exponent from 1e21 on and below 1e-6, the shortest
    digits that read back to the same double, null beyond the finite
    range. *)
Example stringify_numbers :
  Json.stringify
    (JArr [ JNum (Number.ofZ (10 ^ 21)); JNum (Number.ofZ (10 ^ 21 - 1));
            JNum (Number.mk 1 (-1)); JNum (Number.mk 15 (-1)); JNum (Number.mk 1 (-7));
            JNum (Number.mk (-25) (-11)); JNum (Number.ofZ 9007199254740993);
            JNum (Number.mk 1000 (-3)); JNum (Number.mk 5 (-324)); JNum (Number.mk 1 999);
            JNum (Number.mk 0 7) ])
  = "[1e+21,1e+21,0.1,1.5,1e-7,-2.5e-10,9007199254740992,1,5e-324,null,0]".
Proof. vm_compute. reflexivity. Qed.

Example hashInput_large_number :
  Audit.hashInput (Some (JObj [("row_count", JNum (Number.ofZ (10 ^ 21)))]))
  = Some "7ac9d410c2e5906d".
Proof. vm_compute. reflexivity. Qed.

Example sha256_abc :
  Sha256.hex "abc" = "ba7816bf8f01cfea414140de5dae2223b00361a396177a9cb410ff61f20015ad".
Proof. vm_compute. reflexivity. Qed.

Example sha256_two_blocks :
  Sha256.hex "abcdbcdecdefdefgefghfghighijhijkijkljklmklmnlmnomnopnopq"
  = "248d6a61d20638b8e5c026930c3e6039a33ce45964ff2167f6ecedd419db06c1".
Proof. vm_compute. reflexivity. Qed.

(** ** The call handler and the audit trail *)

Section HandlerFacts.

Variables (w : World) (req : Server.CallToolRequest) (e : Server.Entropy).
Variable input : json.
Hypothesis Hargs : Server.arguments req = Some input.
Hypothesis Hwritable : Env.auditFileWritable w = true.

(** With [skipAuth = true] no credential is looked at. *)
Lemma authenticateRequest_skip header :
  Auth.authenticateRequest w header true = Ok Auth.devContext.
Proof. reflexivity. Qed.

Lemma writeAuditLog_appends now auth tool success aid presetId sessionId outputUri error log :
  Audit.writeAuditLog w now auth tool (Some input) success aid
    presetId sessionId outputUri error log
  = Ok (log ++ [ AuditLog.mk now (AuthContext.user auth) (AuthContext.tenant auth)
                   (AuthContext.scopes auth) tool
                   (Js.slice_to 16 (Sha256.hex (Json.stringify input)))
                   presetId sessionId outputUri aid success error ])%list.
Proof. unfold Audit.writeAuditLog. simpl. by rewrite Hwritable. Qed.

Lemma onToolError_appends message st log :
  Server.onToolError w req e (callAuditId e) message st log
  = (Throw ("Error executing tool " ++ Server.name req ++ ": " ++ message),
     Server.mkState st (log ++ [failureRecord req e input message])).
Proof.
  unfold Server.onToolError. rewrite authenticateRequest_skip.
  unfold Audit.logError. rewrite Hargs, writeAuditLog_appends. reflexivity.
Qed.

Lemma checkReadyGate_error_audit_id sid auth aid st err :
  Guard.checkReadyGate sid auth aid st = Guard.GateFailed err ->
  ErrorResponse.audit_id err = Some aid.
Proof.
  unfold Guard.checkReadyGate.
  destruct (Guard.sessions st !! sid); [|by intros [= <-]].
  destruct (_ || _); [by intros [= <-]|].
  destruct (negb _); [by intros [= <-]|done].
Qed.

(** Every ErrorResponse a tool returns carries the audit id of the call. *)
Lemma executeTool_error_audit_id toolName args auth aid st err st' :
  Server.executeTool w toolName args auth aid e st = (Ok (Server.ErrorResult err), st') ->
  ErrorResponse.audit_id err = Some aid.
Proof.
  unfold Server.executeTool.
  repeat (destruct (String.eqb toolName _));
    try (destruct (negb (Guard.checkScope auth _)); [done|]);
    try (destruct (Server.parsed _ _ _ _) as [a|]; [|done]); try done.
  - unfold Server.suggestPreprocess.
    destruct (negb _); [done|]. by destruct (Env.profile _).
  - unfold Server.confirmPreprocessed.
    destruct (Guard.getSessionByDataset _ st); [|by intros [= <- _]].
    destruct (negb (Js.includes _ _)); [done|].
    destruct (negb (Env.valid _)); [done|].
    destruct (Guard.updateSession _ _ _ st) as [updated st2].
    by destruct (negb updated).
  - unfold Server.runAnalysis.
    destruct (Guard.checkReadyGate _ auth aid st) as [session|gateErr] eqn:Hgate.
    + destruct (processed session); [|done].
      by destruct (Guard.updateSession _ _ _ st).
    + intros [= <- _]. by apply checkReadyGate_error_audit_id in Hgate.
Qed.

(** The run_analysis branch of the dispatcher. *)
Lemma executeTool_run_analysis toolName args auth aid st :
  toolName = "toorpia_run_analysis" ->
  Server.executeTool w toolName args auth aid e st
  = if negb (Guard.checkScope auth "mcp:analyze") then
      (Throw "Insufficient permissions: mcp:analyze scope required", st)
    else
      match Server.parsed w "RunAnalysisInput" Schemas.RunAnalysisInput.parse args with
      | Throw m => (Throw m, st)
      | Ok a => let '(r, st') := Server.runAnalysis w a auth aid st in (Ok r, st')
      end.
Proof. intros ->. reflexivity. Qed.

(** One call, one record: its audit id is the call's, and its success flag
    tells whether the handler returned or threw. *)
Lemma handleCallTool_one_record s :
  exists entry,
    Server.auditLog (Server.handleCallTool w req e s).2
    = (Server.auditLog s ++ [entry])%list
    /\ AuditLog.audit_id entry = callAuditId e
    /\ match (Server.handleCallTool w req e s).1 with
       | Throw _ =>
           exists message, entry = failureRecord req e input message
       | Ok result =>
           AuditLog.success entry = true
           /\ forall err, result = Server.ErrorResult err ->
                          ErrorResponse.audit_id err = Some (callAuditId e)
       end.
Proof.
  unfold Server.handleCallTool. fold (callAuditId e).
  destruct (Auth.authenticateRequest w _ (Auth.envIs _ _)) as [auth|m].
  - destruct (Server.executeTool _ _ _ auth _ e _) as [[result|m] st'] eqn:Hexec.
    + unfold Audit.logSuccess. rewrite Hargs, writeAuditLog_appends. simpl.
      eexists. split; [reflexivity|]. split; [reflexivity|]. split; [reflexivity|].
      intros err ->. by apply executeTool_error_audit_id in Hexec.
    + rewrite onToolError_appends. simpl. eexists. repeat split. by eexists.
  - rewrite onToolError_appends. simpl. eexists. repeat split. by eexists.
Qed.

(** The three ways a call is refused. *)
Lemma handleCallTool_authentication_failure s m :
  Auth.authenticateRequest w (Server.authorization req)
    (Auth.envIs (Env.NODE_ENV w) "development") = Throw m ->
  Server.handleCallTool w req e s
  = (Throw ("Error executing tool " ++ Server.name req ++ ": " ++ m),
     Server.mkState (Server.store s)
       (Server.auditLog s ++ [failureRecord req e input m])).
Proof.
  intros Hauth. unfold Server.handleCallTool. fold (callAuditId e). rewrite Hauth.
  apply onToolError_appends.
Qed.

Lemma handleCallTool_scope_failure s auth :
  Auth.authenticateRequest w (Server.authorization req)
    (Auth.envIs (Env.NODE_ENV w) "development") = Ok auth ->
  Server.name req = "toorpia_run_analysis" ->
  Guard.checkScope auth "mcp:analyze" = false ->
  Server.handleCallTool w req e s
  = (Throw ("Error executing tool " ++ Server.name req
              ++ ": Insufficient permissions: mcp:analyze scope required"),
     Server.mkState (Server.store s)
       (Server.auditLog s
          ++ [failureRecord req e input
                "Insufficient permissions: mcp:analyze scope required"])).
Proof.
  intros Hauth Hname Hscope. unfold Server.handleCallTool. fold (callAuditId e).
  rewrite Hauth, (executeTool_run_analysis _ _ _ _ _ Hname), Hscope. simpl.
  apply onToolError_appends.
Qed.

Lemma handleCallTool_gate_failure s auth args err :
  Auth.authenticateRequest w (Server.authorization req)
    (Auth.envIs (Env.NODE_ENV w) "development") = Ok auth ->
  Server.name req = "toorpia_run_analysis" ->
  Guard.checkScope auth "mcp:analyze" = true ->
  Schemas.RunAnalysisInput.parse (Some input) = Some args ->
  Guard.checkReadyGate (Schemas.RunAnalysisInput.session_id args) auth (callAuditId e)
    (Server.store s) = Guard.GateFailed err ->
  Server.handleCallTool w req e s
  = (Ok (Server.ErrorResult err),
     Server.mkState (Server.store s)
       (Server.auditLog s ++ [successRecord req e input auth None])).
Proof.
  intros Hauth Hname Hscope Hparse Hgate.
  unfold Server.handleCallTool. fold (callAuditId e).
  rewrite Hauth, (executeTool_run_analysis _ _ _ _ _ Hname), Hscope. simpl.
  unfold Server.parsed. rewrite Hargs, Hparse.
  unfold Server.runAnalysis. rewrite Hgate.
  unfold Audit.logSuccess. rewrite writeAuditLog_appends. reflexivity.
Qed.

End HandlerFacts.

Section RefusalFacts.

Variables (w : World) (req : Server.CallToolRequest) (e : Server.Entropy).
Variable input : json.
Hypothesis Hargs : Server.arguments req = Some input.
Hypothesis Hwritable : Env.auditFileWritable w = true.

Lemma executeTool_scope_failure auth aid st scope :
  requiredScope (Server.name req) = Some scope ->
  Guard.checkScope auth scope = false ->
  Server.executeTool w (Server.name req) (Server.arguments req) auth aid e st
  = (Throw ("Insufficient permissions: " ++ scope ++ " scope required"), st).
Proof.
  unfold requiredScope, Server.executeTool.
  destruct (String.eqb (Server.name req) "toorpia_upload_data") eqn:E0.
  { apply String.eqb_eq in E0. rewrite E0. simpl. done. }
  clear E0.
  repeat (destruct (String.eqb (Server.name req) _);
          [intros [= <-] ->; reflexivity|]).
  done.
Qed.

Lemma handleCallTool_missing_scope s auth scope :
  Auth.authenticateRequest w (Server.authorization req)
    (Auth.envIs (Env.NODE_ENV w) "development") = Ok auth ->
  requiredScope (Server.name req) = Some scope ->
  Guard.checkScope auth scope = false ->
  Server.handleCallTool w req e s
  = (Throw ("Error executing tool " ++ Server.name req
              ++ ": Insufficient permissions: " ++ scope ++ " scope required"),
     Server.mkState (Server.store s)
       (Server.auditLog s
          ++ [failureRecord req e input
                ("Insufficient permissions: " ++ scope ++ " scope required")])).
Proof.
  intros Hauth Hreq Hscope. unfold Server.handleCallTool. fold (callAuditId e).
  rewrite Hauth, (executeTool_scope_failure _ _ _ _ Hreq Hscope).
  by apply onToolError_appends.
Qed.

Lemma gate_error_codes sid auth aid st err :
  Guard.checkReadyGate sid auth aid st = Guard.GateFailed err ->
  ErrorResponse.error err ∈ ["SESSION_NOT_FOUND"; "ACCESS_DENIED"; "PREPROCESS_REQUIRED"].
Proof.
  unfold Guard.checkReadyGate.
  destruct (Guard.sessions st !! sid); [|intros [= <-]; simpl; apply list_elem_of_here].
  destruct (_ || _).
  { intros [= <-]. simpl. apply list_elem_of_further, list_elem_of_here. }
  destruct (negb _); [|done].
  intros [= <-]. simpl. do 2 apply list_elem_of_further. apply list_elem_of_here.
Qed.

End RefusalFacts.

(** A call without arguments throws and leaves no record: every schema
    refuses [undefined], and the hashing of the failure record throws inside
    the [catch] block, which swallows it. *)
Lemma handleCallTool_without_arguments w req e s :
  Server.arguments req = None ->
  (exists m, (Server.handleCallTool w req e s).1 = Throw m)
  /\ (Server.handleCallTool w req e s).2 = s.
Proof.
  intros Hnone.
  assert (Hcatch : forall m st log,
            Server.onToolError w req e (callAuditId e) m st log
            = (Throw ("Error executing tool " ++ Server.name req ++ ": " ++ m),
               Server.mkState st log)).
  { intros m st log. unfold Server.onToolError. rewrite authenticateRequest_skip.
    unfold Audit.logError, Audit.writeAuditLog. by rewrite Hnone. }
  assert (Hexec : forall auth, exists m,
            Server.executeTool w (Server.name req) (Server.arguments req) auth
              (callAuditId e) e (Server.store s) = (Throw m, Server.store s)).
  { intros auth. unfold Server.executeTool, Server.parsed. rewrite Hnone. simpl.
    repeat (destruct (String.eqb (Server.name req) _);
            [try destruct (negb (Guard.checkScope auth _)); by eexists|]).
    by eexists. }
  unfold Server.handleCallTool. fold (callAuditId e).
  destruct (Auth.authenticateRequest w _ (Auth.envIs _ _)) as [auth|m].
  - destruct (Hexec auth) as [m ->]. rewrite Hcatch. simpl.
    split; [by eexists|by destruct s].
  - rewrite Hcatch. simpl. split; [by eexists|by destruct s].
Qed.

(** C2, as the code has it. For a call that carries an arguments payload,
    while the audit file can be appended to, exactly one audit record is
    written and its audit id is the call's.  A call that fails
    authentication, or whose identity lacks the scope the tool requires,
    throws: no ErrorResponse is returned, and the record has success false.
    A call that the READY gate rejects (SESSION_NOT_FOUND, ACCESS_DENIED,
    PREPROCESS_REQUIRED) returns the ErrorResponse, which carries the same
    audit id, and its record has success true. *)
Theorem refused_call_audit (w : World) (req : Server.CallToolRequest)
    (e : Server.Entropy) (input : json) (s : Server.ServerState) :
  Server.arguments req = Some input ->
  Env.auditFileWritable w = true ->
  let out := Server.handleCallTool w req e s in
  (exists entry,
     Server.auditLog out.2 = (Server.auditLog s ++ [entry])%list
     /\ AuditLog.audit_id entry = callAuditId e
     /\ (AuditLog.success entry = false <-> exists m, out.1 = Throw m))
  /\ (forall m,
        Auth.authenticateRequest w (Server.authorization req)
          (Auth.envIs (Env.NODE_ENV w) "development") = Throw m ->
        exists entry,
          out = (Throw ("Error executing tool " ++ Server.name req ++ ": " ++ m),
                 Server.mkState (Server.store s) (Server.auditLog s ++ [entry]))
          /\ AuditLog.success entry = false
          /\ AuditLog.audit_id entry = callAuditId e)
  /\ (forall auth scope,
        Auth.authenticateRequest w (Server.authorization req)
          (Auth.envIs (Env.NODE_ENV w) "development") = Ok auth ->
        requiredScope (Server.name req) = Some scope ->
        Guard.checkScope auth scope = false ->
        exists entry,
          out = (Throw ("Error executing tool " ++ Server.name req
                          ++ ": Insufficient permissions: " ++ scope ++ " scope required"),
                 Server.mkState (Server.store s) (Server.auditLog s ++ [entry]))
          /\ AuditLog.success entry = false
          /\ AuditLog.audit_id entry = callAuditId e)
  /\ (forall auth args err,
        Auth.authenticateRequest w (Server.authorization req)
          (Auth.envIs (Env.NODE_ENV w) "development") = Ok auth ->
        Server.name req = "toorpia_run_analysis" ->
        Guard.checkScope auth "mcp:analyze" = true ->
        Schemas.RunAnalysisInput.parse (Some input) = Some args ->
        Guard.checkReadyGate (Schemas.RunAnalysisInput.session_id args) auth
          (callAuditId e) (Server.store s) = Guard.GateFailed err ->
        ErrorResponse.error err
          ∈ ["SESSION_NOT_FOUND"; "ACCESS_DENIED"; "PREPROCESS_REQUIRED"]
        /\ ErrorResponse.audit_id err = Some (callAuditId e)
        /\ exists entry,
             out = (Ok (Server.ErrorResult err),
                    Server.mkState (Server.store s) (Server.auditLog s ++ [entry]))
             /\ AuditLog.success entry = true
             /\ AuditLog.audit_id entry = callAuditId e).
Proof.
  intros Hargs Hwritable out.
  split; [|split; [|split]].
  - destruct (handleCallTool_one_record w req e input Hargs Hwritable s)
      as [entry [Hlog [Hid Hout]]].
    exists entry. split; [exact Hlog|]. split; [exact Hid|].
    unfold out. destruct (Server.handleCallTool w req e s).1 as [result|m].
    + destruct Hout as [-> _]. split; [done|]. by intros [m [=]].
    + destruct Hout as [message ->]. split; [by eexists|done].
  - intros m Hauth. eexists. split; [|split].
    + unfold out.
      by apply (handleCallTool_authentication_failure w req e input Hargs Hwritable s m).
    + reflexivity.
    + reflexivity.
  - intros auth scope Hauth Hreq Hscope. eexists. split; [|split].
    + unfold out.
      by apply (handleCallTool_missing_scope w req e input Hargs Hwritable s auth scope).
    + reflexivity.
    + reflexivity.
  - intros auth args err Hauth Hname Hscope Hparse Hgate.
    split; [by apply gate_error_codes in Hgate|].
    split; [by apply checkReadyGate_error_audit_id in Hgate|].
    eexists. split; [|split].
    + unfold out. by apply (handleCallTool_gate_failure w req e input Hargs Hwritable s auth args).
    + reflexivity.
    + reflexivity.
Qed.

Lemma refused_call_audit_witness :
  exists entry,
    Server.auditLog
      (Server.handleCallTool Scenario.production
         (Scenario.runRequest Scenario.suggestedId None)
         (Scenario.entropyAt 2000 "z9y8x7w6v") Scenario.suggestedState).2
    = [entry]
    /\ AuditLog.success entry = false
    /\ AuditLog.audit_id entry = "audit_20250819123456._q1w2e3r4t".
Proof.
  destruct (refused_call_audit Scenario.production
              (Scenario.runRequest Scenario.suggestedId None)
              (Scenario.entropyAt 2000 "z9y8x7w6v")
              (JObj [("session_id", JStr Scenario.suggestedId)])
              Scenario.suggestedState eq_refl eq_refl)
    as [_ [Hauth _]].
  destruct (Hauth "Missing or invalid Authorization header. Expected: Bearer <token>"
              eq_refl) as [entry [Hout [Hsuccess Hid]]].
  exists entry. split; [|split; [exact Hsuccess|exact Hid]].
  exact (f_equal (fun o => Server.auditLog o.2) Hout).
Defined.

(** C2, as the claim words it, fails for the gate: a call that the READY
    gate rejects is recorded with success true.  Alice asks for an analysis
    on an unknown session, on her own session that is still SUGGESTED, and
    on a session of bob; each call returns an ErrorResponse whose audit id
    is that of the one record written, and that record says success. *)
Lemma gate_rejection_recorded_as_success :
  Forall
    (fun '(sessionId, code) =>
       let out :=
         Server.handleCallTool Scenario.production
           (Scenario.runRequest sessionId (Some "Bearer alice-token"))
           (Scenario.entropyAt 2000 "z9y8x7w6v")
           (Server.mkState Scenario.sharedStore []) in
       exists err entry,
         out.1 = Ok (Server.ErrorResult err)
         /\ ErrorResponse.error err = code
         /\ Server.auditLog out.2 = [entry]
         /\ ErrorResponse.audit_id err = Some (AuditLog.audit_id entry)
         /\ AuditLog.success entry = true)
    [ ("sess_1_a", "SESSION_NOT_FOUND");
      (Scenario.suggestedId, "PREPROCESS_REQUIRED");
      (Scenario.bobSessionId, "ACCESS_DENIED") ].
Proof.
  repeat constructor; do 2 eexists; vm_compute; repeat split; reflexivity.
Qed.

(** ** The development bypass *)

Section BypassFacts.

Variable w : World.

(** Outside a development runtime the identity a tool runs under is the
    one the token verifier produced for the bearer token of the request. *)
Lemma authenticateRequest_verified header auth :
  Env.NODE_ENV w <> Some "development" ->
  Auth.authenticateRequest w header (Auth.envIs (Env.NODE_ENV w) "development") = Ok auth ->
  exists token,
    Auth.extractBearerToken header = Some token
    /\ Auth.verifyJWT w token = Ok auth.
Proof.
  intros Hprod. unfold Auth.authenticateRequest, Auth.envIs.
  rewrite (bool_decide_eq_false_2 _ Hprod). simpl.
  destruct (Auth.extractBearerToken header) as [token|]; simpl; [|done].
  destruct (negb _); [done|].
  destruct (Auth.verifyJWT w token) as [a|m] eqn:Hv; [|done].
  intros [= <-]. by exists token.
Qed.

(** In a development runtime every call runs under the bypass identity,
    whether or not SKIP_AUTH is set. *)
Lemma authenticateRequest_development header :
  Env.NODE_ENV w = Some "development" ->
  Auth.authenticateRequest w header (Auth.envIs (Env.NODE_ENV w) "development")
  = Ok Auth.devContext.
Proof.
  intros Hdev. unfold Auth.authenticateRequest, Auth.envIs.
  by rewrite (bool_decide_eq_true_2 _ Hdev).
Qed.

End BypassFacts.

(** C3, what the code does instead. Whenever a call with a payload throws,
    in any runtime, the handler resolves the bypass identity (it calls
    [authenticateRequest] with [skipAuth = true]) and writes the failure
    record under it: user dev-user, tenant dev-tenant, scope [*]. *)
Theorem failure_recorded_under_bypass_identity (w : World)
    (req : Server.CallToolRequest) (e : Server.Entropy) (input : json)
    (s : Server.ServerState) (m : string) :
  Server.arguments req = Some input ->
  Env.auditFileWritable w = true ->
  (Server.handleCallTool w req e s).1 = Throw m ->
  Auth.authenticateRequest w (Server.authorization req) true = Ok Auth.devContext
  /\ exists entry,
       Server.auditLog (Server.handleCallTool w req e s).2
       = (Server.auditLog s ++ [entry])%list
       /\ AuditLog.user entry = AuthContext.user Auth.devContext
       /\ AuditLog.tenant entry = AuthContext.tenant Auth.devContext
       /\ AuditLog.scopes entry = ["*"].
Proof.
  intros Hargs Hwritable Hthrow. split; [reflexivity|].
  destruct (handleCallTool_one_record w req e input Hargs Hwritable s)
    as [entry [Hlog [_ Hout]]].
  rewrite Hthrow in Hout. destruct Hout as [message ->].
  eexists. split; [exact Hlog|]. by repeat split.
Qed.

Lemma failure_recorded_under_bypass_identity_witness :
  Env.NODE_ENV Scenario.production = Some "production"
  /\ Env.SKIP_AUTH Scenario.production = None
  /\ exists entry,
       Server.auditLog
         (Server.handleCallTool Scenario.production
            (Scenario.runRequest Scenario.suggestedId None)
            (Scenario.entropyAt 2000 "z9y8x7w6v") Scenario.suggestedState).2
       = ([] ++ [entry])%list
       /\ AuditLog.user entry = "dev-user"
       /\ AuditLog.tenant entry = "dev-tenant"
       /\ AuditLog.scopes entry = ["*"].
Proof.
  split; [reflexivity|]. split; [reflexivity|].
  apply (failure_recorded_under_bypass_identity Scenario.production
           (Scenario.runRequest Scenario.suggestedId None)
           (Scenario.entropyAt 2000 "z9y8x7w6v")
           (JObj [("session_id", JStr Scenario.suggestedId)])
           Scenario.suggestedState
           "Error executing tool toorpia_run_analysis: Missing or invalid Authorization header. Expected: Bearer <token>");
    reflexivity.
Defined.

(** ** Confirmation of processed data *)

(** C1, what the code does instead. Confirmation looks the session up by
    dataset, checks the preset and the artifact, and then updates a session
    under a freshly generated identifier.  Unless that identifier is already
    the key of some session, the update finds nothing: the call throws and
    the store, the suggested session included, is left as it was. *)
Theorem confirmPreprocessed_abandons_session (w : World)
    (args : Schemas.ConfirmPreprocessedInput.t) (auth : AuthContext.t)
    (auditId : string) (e : Server.Entropy) (st : Guard.Store) (s : Session) :
  Guard.getSessionByDataset (Schemas.ConfirmPreprocessedInput.dataset_id args) st = Some s ->
  state s = SUGGESTED ->
  Js.includes
    (Schemas.Manifest.preset_id (Schemas.ConfirmPreprocessedInput.manifest args))
    (suggestedPresetIds s) = true ->
  Env.valid
    (Env.validateProcessedData w (Schemas.ConfirmPreprocessedInput.processed_uri args)
       (Schemas.Manifest.checksum (Schemas.ConfirmPreprocessedInput.manifest args)))
  = true ->
  Guard.getSession (Guard.newSessionId (Server.sessionNow e) (Server.sessionRnd e)) st
  = None ->
  Server.confirmPreprocessed w args auth auditId e st
  = (Throw "Preprocessing confirmation failed: Failed to update session state", st)
  /\ Guard.getSessionByDataset (Schemas.ConfirmPreprocessedInput.dataset_id args)
       (Server.confirmPreprocessed w args auth auditId e st).2
     = Some s.
Proof.
  intros Hs _ Hpreset Hvalid Hfresh.
  assert (Hrun : Server.confirmPreprocessed w args auth auditId e st
                 = (Throw "Preprocessing confirmation failed: Failed to update session state",
                    st)).
  { unfold Server.confirmPreprocessed. rewrite Hs, Hpreset, Hvalid. simpl.
    unfold Guard.updateSession, Guard.getSession in *. by rewrite Hfresh. }
  split; [exact Hrun|]. by rewrite Hrun.
Qed.

(** A confirmation that succeeds returns the fresh identifier: it updated
    whichever session already had that very key. *)
Lemma confirmPreprocessed_returns_fresh_id w args auth auditId e st ready sid aid st' :
  Server.confirmPreprocessed w args auth auditId e st
  = (Ok (Server.ConfirmResult ready sid aid), st') ->
  sid = Guard.newSessionId (Server.sessionNow e) (Server.sessionRnd e)
  /\ is_Some (Guard.getSession sid st).
Proof.
  unfold Server.confirmPreprocessed.
  destruct (Guard.getSessionByDataset _ st); [|done].
  destruct (negb (Js.includes _ _)); [done|].
  destruct (negb (Env.valid _)); [done|].
  unfold Guard.updateSession, Guard.getSession.
  destruct (Guard.sessions st !! _) eqn:Hfresh; simpl; [|done].
  intros [= _ <- _ _]. split; [done|]. by rewrite Hfresh.
Qed.

Lemma confirmPreprocessed_abandons_session_witness :
  Server.confirmPreprocessed Scenario.production Scenario.confirmArgs Scenario.alice
    "audit_20250819123456._q1w2e3r4t" (Scenario.entropyAt 2000 "z9y8x7w6v")
    Scenario.suggestedStore
  = (Throw "Preprocessing confirmation failed: Failed to update session state",
     Scenario.suggestedStore)
  /\ Guard.getSessionByDataset "ds1"
       (Server.confirmPreprocessed Scenario.production Scenario.confirmArgs Scenario.alice
          "audit_20250819123456._q1w2e3r4t" (Scenario.entropyAt 2000 "z9y8x7w6v")
          Scenario.suggestedStore).2
     = Some (mkSession "ds1" SUGGESTED ["basic_clean_norm"] None Scenario.aliceOwner).
Proof.
  apply (confirmPreprocessed_abandons_session Scenario.production Scenario.confirmArgs
           Scenario.alice "audit_20250819123456._q1w2e3r4t"
           (Scenario.entropyAt 2000 "z9y8x7w6v") Scenario.suggestedStore
           (mkSession "ds1" SUGGESTED ["basic_clean_norm"] None Scenario.aliceOwner));
    vm_compute; reflexivity.
Defined.

Example confirmRequest_parses :
  Schemas.ConfirmPreprocessedInput.parse (Server.arguments Scenario.confirmRequest)
  = Some Scenario.confirmArgs.
Proof. vm_compute. reflexivity. Qed.

(** The same call through the handler: alice, authenticated by her token,
    confirms the preset that was suggested to her with a valid artifact. *)
Example confirm_call_fails :
  let out :=
    Server.handleCallTool Scenario.production Scenario.confirmRequest
      (Scenario.entropyAt 2000 "z9y8x7w6v") Scenario.suggestedState in
  out.1 = Throw "Error executing tool toorpia_confirm_preprocessed: Preprocessing confirmation failed: Failed to update session state"
  /\ Guard.getSession Scenario.suggestedId (Server.store out.2)
     = Some (mkSession "ds1" SUGGESTED ["basic_clean_norm"] None Scenario.aliceOwner)
  /\ AuditLog.success <$> Server.auditLog out.2 = [false].
Proof. vm_compute. repeat split; reflexivity. Qed.

(** * Further properties of the store, the verifier and the dispatcher *)

Import Laws.

(** ** The sweep *)

Section SweepLaws.

Lemma isExpired_mono maxAgeMs now now' sid :
  now <= now' ->
  Guard.isExpired maxAgeMs now sid = true ->
  Guard.isExpired maxAgeMs now' sid = true.
Proof.
  unfold Guard.isExpired. intros Hle.
  destruct (2 <=? _)%nat; [|done].
  destruct (Js.parseInt _) as [timestamp|]; [|done].
  rewrite !Z.gtb_lt. lia.
Qed.

Lemma NoDup_expiredIds maxAgeMs now st : NoDup (Guard.expiredIds maxAgeMs now st).
Proof.
  unfold Guard.expiredIds. apply NoDup_ListNoDup, List.NoDup_filter, NoDup_ListNoDup.
  apply NoDup_fst_map_to_list.
Qed.

Lemma expiredIds_nil_after maxAgeMs now st :
  Guard.expiredIds maxAgeMs now (Guard.cleanupSessions maxAgeMs now st) = [].
Proof.
  destruct (Guard.expiredIds maxAgeMs now (Guard.cleanupSessions maxAgeMs now st))
    as [|sid rest] eqn:E; [done|].
  assert (Hin : sid ∈ Guard.expiredIds maxAgeMs now (Guard.cleanupSessions maxAgeMs now st))
    by (rewrite E; apply list_elem_of_here).
  apply elem_of_expiredIds in Hin as [Hexp [s Hs]].
  change (Guard.getSession sid (Guard.cleanupSessions maxAgeMs now st) = Some s) in Hs.
  rewrite cleanupSessions_lookup, Hexp in Hs. done.
Qed.

(** The identifiers a later sweep collects are those an earlier sweep
    collects and those the later one still finds afterwards. *)
Lemma expiredIds_split maxAgeMs now now' st :
  now <= now' ->
  Guard.expiredIds maxAgeMs now' st
  ≡ₚ Guard.expiredIds maxAgeMs now st
     ++ Guard.expiredIds maxAgeMs now' (Guard.cleanupSessions maxAgeMs now st).
Proof.
  intros Hle. apply NoDup_Permutation.
  - apply NoDup_expiredIds.
  - apply NoDup_app. split; [apply NoDup_expiredIds|]. split; [|apply NoDup_expiredIds].
    intros sid [He _]%elem_of_expiredIds [_ [s Hs]]%elem_of_expiredIds.
    change (Guard.getSession sid (Guard.cleanupSessions maxAgeMs now st) = Some s) in Hs.
    rewrite cleanupSessions_lookup, He in Hs. done.
  - intros sid. rewrite elem_of_app, !elem_of_expiredIds.
    change (Guard.sessions (Guard.cleanupSessions maxAgeMs now st) !! sid)
      with (Guard.getSession sid (Guard.cleanupSessions maxAgeMs now st)).
    rewrite cleanupSessions_lookup. unfold Guard.getSession.
    destruct (Guard.isExpired maxAgeMs now sid) eqn:He.
    + split.
      * intros [_ Hs]. by left.
      * intros [[_ Hs]|[_ [x [=]]]]. split; [|done]. by apply (isExpired_mono _ now).
    + split.
      * intros H. by right.
      * intros [[[=] _]|H]. done.
Qed.

Lemma fold_removeExpired_dataset_before ids st d sid :
  Guard.sessionsByDataset (fold_left Guard.removeExpired ids st) !! d = Some sid ->
  Guard.sessionsByDataset st !! d = Some sid.
Proof.
  intros Hafter.
  destruct (Guard.sessionsByDataset st !! d) as [x|] eqn:Hbefore.
  - rewrite (fold_removeExpired_dataset_kept ids st d) in Hafter; [congruence|].
    intros i s Hi Hs Hd. subst d.
    by rewrite (fold_removeExpired_dataset_gone ids st i s Hi Hs) in Hafter.
  - by rewrite (fold_removeExpired_dataset_none ids st d Hbefore) in Hafter.
Qed.

End SweepLaws.

(** X1. The sweep decides on the creation time that [createSession] wrote
    into the identifier, and the comparison is strict: a session is removed
    when it is older than [maxAgeMs], kept when it is exactly that old. *)
Theorem sweep_expiry_boundary (maxAgeMs now created : Z) (rnd : string)
    (st : Guard.Store) :
  let sid := Guard.newSessionId created rnd in
  Guard.getSession sid (Guard.cleanupSessions maxAgeMs now st)
  = (if now - created >? maxAgeMs then None else Guard.getSession sid st)
  /\ Guard.getSession sid (Guard.cleanupSessions maxAgeMs (created + maxAgeMs) st)
     = Guard.getSession sid st
  /\ Guard.getSession sid (Guard.cleanupSessions maxAgeMs (created + maxAgeMs + 1) st)
     = None.
Proof.
  intros sid. unfold sid. rewrite !cleanupSessions_lookup, !isExpired_newSessionId.
  split; [done|]. split.
  - destruct (Z.gtb_spec (created + maxAgeMs - created) maxAgeMs); [lia|done].
  - destruct (Z.gtb_spec (created + maxAgeMs + 1 - created) maxAgeMs); [done|lia].
Qed.

(** X2. Sweeps compose: a sweep followed by a later sweep with the same
    retention window leaves the store that the later sweep alone would
    leave; in particular sweeping twice at one time is sweeping once. *)
Theorem sweeps_compose (maxAgeMs now now' : Z) (st : Guard.Store) :
  now <= now' ->
  Guard.cleanupSessions maxAgeMs now' (Guard.cleanupSessions maxAgeMs now st)
  = Guard.cleanupSessions maxAgeMs now' st.
Proof.
  intros Hle. unfold Guard.cleanupSessions at 1 3.
  rewrite (fold_removeExpired_any_order _ _ st (expiredIds_split maxAgeMs now now' st Hle)).
  by rewrite fold_left_app.
Qed.

Lemma sweeps_compose_witness :
  Guard.cleanupSessions Guard.DEFAULT_MAX_AGE_MS 90000000
    (Guard.cleanupSessions Guard.DEFAULT_MAX_AGE_MS 86402000 Scenario.sharedStore)
  = Guard.cleanupSessions Guard.DEFAULT_MAX_AGE_MS 90000000 Scenario.sharedStore.
Proof. apply (sweeps_compose Guard.DEFAULT_MAX_AGE_MS 86402000 90000000). lia. Defined.

(** X3. A sweep only removes: afterwards each lookup, by identifier or by
    dataset, finds either nothing or exactly the session it found before. *)
Theorem sweep_only_removes (maxAgeMs now : Z) (st : Guard.Store) (key : string) :
  let st' := Guard.cleanupSessions maxAgeMs now st in
  (Guard.getSession key st' = None \/ Guard.getSession key st' = Guard.getSession key st)
  /\ (Guard.getSessionByDataset key st' = None
      \/ Guard.getSessionByDataset key st' = Guard.getSessionByDataset key st).
Proof.
  intros st'. split.
  - unfold st'. rewrite cleanupSessions_lookup. destruct (Guard.isExpired _ _ _); auto.
  - unfold Guard.getSessionByDataset.
    destruct (Guard.sessionsByDataset st' !! key) as [sid|] eqn:Hd; [|by left].
    apply fold_removeExpired_dataset_before in Hd. rewrite Hd.
    destruct (Js.truthy (Some sid)); [|by left].
    change (Guard.sessions st' !! sid) with (Guard.getSession sid st').
    unfold st'. rewrite cleanupSessions_lookup.
    destruct (Guard.isExpired _ _ _); auto.
Qed.

(** ** Identifiers, updates and the gate *)

(** X4. Session identifiers encode clock and random suffix without loss,
    also when the suffix holds underscores: two creations that differ in
    clock or suffix get different identifiers, and both sessions are then
    stored side by side, each under its own identifier. *)
Theorem createSession_distinct_ids (st : Guard.Store) (d1 d2 : string)
    (p1 p2 : list string) (o1 o2 : Owner.t) (now1 now2 : Z) (r1 r2 : string) :
  (now1, r1) <> (now2, r2) ->
  let st2 :=
    (Guard.createSession d2 p2 o2 now2 r2 (Guard.createSession d1 p1 o1 now1 r1 st).2).2 in
  Guard.newSessionId now1 r1 <> Guard.newSessionId now2 r2
  /\ Guard.getSession (Guard.newSessionId now1 r1) st2
     = Some (mkSession d1 SUGGESTED p1 None o1)
  /\ Guard.getSession (Guard.newSessionId now2 r2) st2
     = Some (mkSession d2 SUGGESTED p2 None o2).
Proof.
  intros Hne st2.
  assert (Hids : Guard.newSessionId now1 r1 <> Guard.newSessionId now2 r2).
  { intros [-> ->]%newSessionId_inj. done. }
  split; [exact Hids|]. unfold st2. rewrite !getSession_createSession.
  rewrite (decide_False (P := Guard.newSessionId now2 r2 = Guard.newSessionId now1 r1))
    by done.
  by rewrite !decide_True.
Qed.

Lemma createSession_distinct_ids_witness :
  Guard.newSessionId 1000 "a_b" <> Guard.newSessionId 1000 "a"
  /\ Guard.getSession (Guard.newSessionId 1000 "a_b")
       (Guard.createSession "ds2" ["basic_clean_norm"] Scenario.aliceOwner 1000 "a"
          (Guard.createSession "ds1" ["basic_clean_norm"] Scenario.aliceOwner 1000 "a_b"
             Guard.emptyStore).2).2
     = Some (mkSession "ds1" SUGGESTED ["basic_clean_norm"] None Scenario.aliceOwner)
  /\ Guard.getSession (Guard.newSessionId 1000 "a")
       (Guard.createSession "ds2" ["basic_clean_norm"] Scenario.aliceOwner 1000 "a"
          (Guard.createSession "ds1" ["basic_clean_norm"] Scenario.aliceOwner 1000 "a_b"
             Guard.emptyStore).2).2
     = Some (mkSession "ds2" SUGGESTED ["basic_clean_norm"] None Scenario.aliceOwner).
Proof.
  apply (createSession_distinct_ids Guard.emptyStore "ds1" "ds2").
  intros [=].
Defined.

(** X5. [updateSession] answers false exactly when the identifier is
    unknown, and then changes nothing.  When it answers true it has changed
    that one session only: state set as asked, the record attached when one
    was given and otherwise kept (a processed record is never removed),
    dataset, owner and preset list untouched; the dataset index and all
    other sessions are as before. *)
Theorem updateSession_effect (sid : string) (newState : State)
    (newProcessed : option Processed.t) (st : Guard.Store) :
  let out := Guard.updateSession sid newState newProcessed st in
  (out.1 = false <-> Guard.getSession sid st = None)
  /\ (out.1 = false -> out.2 = st)
  /\ Guard.sessionsByDataset out.2 = Guard.sessionsByDataset st
  /\ (forall other, other <> sid -> Guard.getSession other out.2 = Guard.getSession other st)
  /\ (forall s, Guard.getSession sid st = Some s ->
        exists s',
          Guard.getSession sid out.2 = Some s'
          /\ state s' = newState
          /\ datasetId s' = datasetId s
          /\ owner s' = owner s
          /\ suggestedPresetIds s' = suggestedPresetIds s
          /\ (is_Some (processed s) -> is_Some (processed s'))
          /\ (forall p, newProcessed = Some p -> processed s' = Some p)
          /\ (newProcessed = None -> processed s' = processed s)).
Proof.
  intros out. unfold out, Guard.updateSession, Guard.getSession.
  destruct (Guard.sessions st !! sid) as [s|] eqn:Hs; simpl.
  - split; [split; done|]. split; [done|]. split; [done|]. split.
    + intros other Hother. by rewrite lookup_insert_ne.
    + intros s0 [= <-]. eexists. rewrite lookup_insert_eq. split; [reflexivity|].
      simpl. split; [done|]. split; [done|]. split; [done|]. split; [done|].
      split; [|split].
      * intros Hp. by destruct newProcessed.
      * by intros p ->.
      * by intros ->.
  - split; [split; done|]. split; [done|]. split; [done|]. split; [done|].
    intros s [=].
Qed.

(** X6. The gate lets a call through exactly when the session exists, the
    caller is its owner in user and tenant, and its state is READY; what it
    hands on is the stored session itself. *)
Theorem gate_passes_iff (sid : string) (auth : AuthContext.t) (auditId : string)
    (st : Guard.Store) (s : Session) :
  Guard.checkReadyGate sid auth auditId st = Guard.GatePassed s
  <-> Guard.getSession sid st = Some s /\ ownedBy auth s /\ state s = READY.
Proof.
  split.
  - unfold Guard.checkReadyGate, Guard.getSession.
    destruct (Guard.sessions st !! sid) as [s0|]; [|done].
    destruct (String.eqb_spec (Owner.user (owner s0)) (AuthContext.user auth)); [|done].
    destruct (String.eqb_spec (Owner.tenant (owner s0)) (AuthContext.tenant auth)); [|done].
    simpl. destruct (bool_decide_reflect (state s0 = READY)); [|done].
    simpl. intros [= <-]. by repeat split.
  - intros [Hs [Hown Hready]].
    rewrite (checkReadyGate_owned st sid s auth auditId Hs Hown).
    by rewrite bool_decide_eq_true_2.
Qed.

(** ** No dangling cross-reference *)

Section IndexLaws.

Lemma updateSession_dataset_index sid newState newProcessed st :
  Guard.sessionsByDataset (Guard.updateSession sid newState newProcessed st).2
  = Guard.sessionsByDataset st.
Proof. unfold Guard.updateSession. by destruct (Guard.sessions st !! sid). Qed.

Lemma indexConsistent_applyOp st op :
  indexConsistent st ->
  match op with
  | OpCreate _ _ _ now rnd => Guard.getSession (Guard.newSessionId now rnd) st = None
  | _ => True
  end ->
  indexConsistent (applyOp st op).
Proof.
  intros Hinv Hfresh d sid. destruct op as [d0 p o now rnd|sid0 ns np|now]; unfold applyOp.
  - change (Guard.sessionsByDataset (Guard.createSession d0 p o now rnd st).2)
      with (<[d0 := Guard.newSessionId now rnd]> (Guard.sessionsByDataset st)).
    rewrite lookup_insert.
    destruct (decide (d0 = d)) as [->|Hd].
    + intros [= <-]. eexists. rewrite getSession_createSession, decide_True by done. done.
    + intros Hentry. destruct (Hinv d sid Hentry) as [s [Hs Hds]].
      exists s. split; [|done]. rewrite getSession_createSession.
      destruct (decide _) as [<-|]; [congruence|done].
  - rewrite updateSession_dataset_index. intros Hentry. destruct (Hinv d sid Hentry) as [s [Hs Hds]].
    rewrite getSession_updateSession. destruct (decide (sid0 = sid)) as [->|]; [|eauto].
    rewrite Hs. simpl. eexists. split; [done|]. done.
  - intros Hentry. unfold Guard.cleanupSessions in Hentry.
    assert (Hbefore := fold_removeExpired_dataset_before _ _ _ _ Hentry).
    destruct (Hinv d sid Hbefore) as [s [Hs Hds]]. exists s. split; [|done].
    rewrite cleanupSessions_lookup.
    destruct (Guard.isExpired Guard.DEFAULT_MAX_AGE_MS now sid) eqn:Hexp; [|done].
    exfalso. unfold Guard.getSession in Hs.
    pose proof (cleanupSessions_dataset_gone _ _ _ _ _ Hs Hexp) as Hgone.
    unfold Guard.cleanupSessions in Hgone. rewrite Hds in Hgone. congruence.
Qed.

End IndexLaws.

(** X7. No dangling cross-reference: as long as every creation draws an
    identifier that is not yet in use, creations, updates and sweeps keep
    every dataset entry pointing to a stored session of that very dataset;
    the lookup by dataset then returns a session of the dataset asked for. *)
Theorem index_stays_consistent (st : Guard.Store) (ops : list StoreOp) :
  indexConsistent st ->
  freshOps st ops ->
  indexConsistent (runOps ops st)
  /\ forall d s, Guard.getSessionByDataset d (runOps ops st) = Some s -> datasetId s = d.
Proof.
  intros Hinv Hfresh.
  assert (Hfinal : indexConsistent (runOps ops st)).
  { unfold runOps. revert st Hinv Hfresh.
    induction ops as [|op ops IH]; intros st Hinv Hfresh; simpl; [done|].
    destruct Hfresh as [Hop Hrest].
    apply IH; [|done]. by apply indexConsistent_applyOp. }
  split; [exact Hfinal|].
  intros d s. unfold Guard.getSessionByDataset.
  destruct (Guard.sessionsByDataset (runOps ops st) !! d) as [sid|] eqn:Hd; [|done].
  destruct (Hfinal d sid Hd) as [s0 [Hs0 Hds0]].
  destruct (Js.truthy (Some sid)); [|done].
  unfold Guard.getSession in Hs0. rewrite Hs0. by intros [= <-].
Qed.

Lemma index_stays_consistent_witness :
  indexConsistent
    (runOps [ OpCreate "ds1" ["basic_clean_norm"] Scenario.aliceOwner 1000 "k3v9x2m1q";
              OpCreate "ds1" ["basic_clean_norm"] Scenario.aliceOwner 82801000 "a1b2c3d4e";
              OpUpdate "sess_1000_k3v9x2m1q" READY None;
              OpSweep 86402000 ]
       Guard.emptyStore)
  /\ forall d s,
       Guard.getSessionByDataset d
         (runOps [ OpCreate "ds1" ["basic_clean_norm"] Scenario.aliceOwner 1000 "k3v9x2m1q";
                   OpCreate "ds1" ["basic_clean_norm"] Scenario.aliceOwner 82801000
                     "a1b2c3d4e";
                   OpUpdate "sess_1000_k3v9x2m1q" READY None;
                   OpSweep 86402000 ]
            Guard.emptyStore) = Some s ->
       datasetId s = d.
Proof.
  apply (index_stays_consistent Guard.emptyStore).
  - intros d sid Hd. vm_compute in Hd. discriminate.
  - repeat split; vm_compute; reflexivity.
Defined.

(** ** The bearer token and the verifier *)

Section BearerFacts.

Lemma substring_all (s : string) : String.substring 0 (String.length s) s = s.
Proof.
  induction s as [|c s IH]; [done|].
  change (String c (String.substring 0 (String.length s) s) = String c s). by rewrite IH.
Qed.

Lemma prefix_split (p s : string) :
  String.prefix p s = true ->
  s = (p ++ String.substring (String.length p) (String.length s - String.length p) s)%string.
Proof.
  revert s. induction p as [|a p IH]; intros s Hp.
  - change (s = String.substring 0 (String.length s - 0) s).
    by rewrite Nat.sub_0_r, substring_all.
  - destruct s as [|b s]; [done|]. simpl in Hp.
    destruct (ascii_dec a b) as [->|]; [|done].
    change (String b s
            = String b (p ++ String.substring (String.length p)
                                 (String.length s - String.length p) s)).
    by rewrite <- (IH s Hp).
Qed.

Lemma prefix_append (p s : string) : String.prefix p (p ++ s) = true.
Proof.
  induction p as [|a p IH]; [by destruct s|].
  change (String.prefix (String a p) (String a (p ++ s)) = true). simpl.
  by destruct (ascii_dec a a).
Qed.

Lemma substring_after_prefix (p s : string) :
  String.substring (String.length p) (String.length (p ++ s) - String.length p) (p ++ s)
  = s.
Proof.
  induction p as [|a p IH].
  - change (String.substring 0 (String.length s - 0) s = s).
    by rewrite Nat.sub_0_r, substring_all.
  - exact IH.
Qed.

Lemma bearer_header_extracts (token : string) :
  Auth.extractBearerToken (Some ("Bearer " ++ token)) = Some token.
Proof.
  unfold Auth.extractBearerToken, Js.startsWith, Js.slice_from.
  rewrite (prefix_append "Bearer " token). simpl negb. cbv iota.
  f_equal. apply (substring_after_prefix "Bearer " token).
Qed.

Lemma extractBearerToken_by_header (header : option string) (token : string) :
  Auth.extractBearerToken header = Some token -> header = Some ("Bearer " ++ token).
Proof.
  destruct header as [h|]; [|done]. unfold Auth.extractBearerToken.
  destruct (Js.startsWith "Bearer " h) eqn:Hp.
  - rewrite orb_false_r. destruct (negb _); [done|]. intros [= <-]. f_equal.
    apply (prefix_split "Bearer " h Hp).
  - by rewrite orb_true_r.
Qed.

End BearerFacts.

(** X8. [extractBearerToken] returns a token exactly for a header that
    reads Bearer, one space, and the token, and then it returns that token
    whole; a missing header and any other scheme give null. *)
Theorem extractBearerToken_iff (header : option string) (token : string) :
  Auth.extractBearerToken header = Some token
  <-> header = Some ("Bearer " ++ token).
Proof.
  split.
  - apply extractBearerToken_by_header.
  - intros ->. apply bearer_header_extracts.
Qed.

Section VerifierFacts.

Variable w : World.

Lemma verifyJWT_inversion token auth :
  Auth.verifyJWT w token = Ok auth ->
  exists publicKey payload,
    Auth.getPublicKey w = Ok publicKey
    /\ Env.jwtVerify w token publicKey = Ok payload
    /\ Js.truthy (Env.sub payload) = true
    /\ Js.truthy (Env.tenant payload) = true
    /\ auth = AuthContext.mk (default EmptyString (Env.sub payload))
                (default EmptyString (Env.tenant payload))
                (Auth.parseScopes payload) token.
Proof.
  unfold Auth.verifyJWT.
  destruct (Auth.getPublicKey w) as [publicKey|]; [|done].
  destruct (Env.jwtVerify w token publicKey) as [payload|] eqn:Hv; [|done].
  destruct (Js.truthy (Env.sub payload)) eqn:Hsub; [|done].
  destruct (Js.truthy (Env.tenant payload)) eqn:Htenant; [|done].
  simpl. intros [= <-]. by exists publicKey, payload.
Qed.

End VerifierFacts.

(** X9. The verifier fails closed.  It accepts a token exactly when a
    verification key is available, the library verifies the token under
    that key, and the payload names a non-empty subject and tenant; the
    identity then carries that subject, tenant, the parsed scopes and the
    token itself.  Every refusal is an error whose message starts with
    JWT verification failed. *)
Theorem verifyJWT_accepts_iff (w : World) (token : string) (auth : AuthContext.t) :
  (Auth.verifyJWT w token = Ok auth
   <-> exists publicKey payload,
         Auth.getPublicKey w = Ok publicKey
         /\ Env.jwtVerify w token publicKey = Ok payload
         /\ Js.truthy (Env.sub payload) = true
         /\ Js.truthy (Env.tenant payload) = true
         /\ auth = AuthContext.mk (default EmptyString (Env.sub payload))
                     (default EmptyString (Env.tenant payload))
                     (Auth.parseScopes payload) token)
  /\ (forall m, Auth.verifyJWT w token = Throw m ->
        exists reason, m = "JWT verification failed: " ++ reason).
Proof.
  split; [split|].
  - apply verifyJWT_inversion.
  - intros [publicKey [payload [Hkey [Hv [Hsub [Htenant ->]]]]]].
    unfold Auth.verifyJWT. by rewrite Hkey, Hv, Hsub, Htenant.
  - unfold Auth.verifyJWT. cbv zeta. intros m.
    destruct (Auth.getPublicKey w) as [publicKey|reason]; [|intros [= <-]; by eexists].
    destruct (Env.jwtVerify w token publicKey) as [payload|reason];
      [|intros [= <-]; by eexists].
    destruct (negb _ || negb _); [intros [= <-]; by eexists|done].
Qed.

(** X10. Where a verification key comes from.  A configured
    AUTH_PUBLIC_KEY is used as it is and the key endpoint is not asked;
    otherwise the only key accepted from the endpoint is the first
    certificate of the first key, wrapped as a PEM certificate.  A key set
    that offers RSA components only, a failed request, or no configuration
    at all give no key. *)
Theorem getPublicKey_sources (w : World) (k : string) :
  Auth.getPublicKey w = Ok k
  <-> (Js.truthy (Env.AUTH_PUBLIC_KEY w) = true /\ Env.AUTH_PUBLIC_KEY w = Some k)
      \/ (Js.truthy (Env.AUTH_PUBLIC_KEY w) = false
          /\ exists url key x5c,
               Env.AUTH_JWKS_URL w = Some url /\ url <> EmptyString
               /\ Env.jwksFetch w url = Some key
               /\ Env.x5c0 key = Some x5c /\ x5c <> EmptyString
               /\ k = pemCertificate x5c).
Proof.
  assert (Htruthy : forall o, Js.truthy o = true
                              <-> exists v, o = Some v /\ v <> EmptyString).
  { intros [v|]; simpl.
    - destruct (String.eqb_spec v EmptyString) as [->|Hv]; simpl.
      + split; [done|]. by intros [v [[= <-] Hv]].
      + split; [by eexists|done].
    - split; [done|]. by intros [v [[=] _]]. }
  unfold Auth.getPublicKey. split.
  - destruct (Js.truthy (Env.AUTH_PUBLIC_KEY w)) eqn:Hpk.
    + intros [= <-]. left. split; [done|].
      apply Htruthy in Hpk as [v [-> _]]. done.
    + destruct (Js.truthy (Env.AUTH_JWKS_URL w)) eqn:Hurl; [|done].
      apply Htruthy in Hurl as [url [Hurl Hne]]. rewrite Hurl. simpl.
      destruct (Env.jwksFetch w url) as [key|] eqn:Hfetch; [|done].
      destruct (Js.truthy (Env.x5c0 key)) eqn:Hx.
      * apply Htruthy in Hx as [x5c [Hx Hxne]]. rewrite Hx. simpl.
        intros [= <-]. right. split; [done|]. by exists url, key, x5c.
      * by destruct (Env.has_n_and_e key).
  - intros [[Hpk Hk]|[Hpk [url [key [x5c [Hurl [Hne [Hfetch [Hx [Hxne ->]]]]]]]]]].
    + rewrite Hpk, Hk. done.
    + rewrite Hpk.
      assert (Hut : Js.truthy (Env.AUTH_JWKS_URL w) = true)
        by (apply Htruthy; by exists url).
      rewrite Hut, Hurl. simpl. rewrite Hfetch.
      assert (Hxt : Js.truthy (Env.x5c0 key) = true) by (apply Htruthy; by exists x5c).
      rewrite Hxt, Hx. done.
Qed.

(** X11. Without the bypass, [authenticateRequest] resolves an identity
    exactly for a header that carries a non-empty bearer token which the
    verifier accepts, and the identity is the verifier's.  A missing header,
    another scheme, or the bare word Bearer with an empty token are refused
    as a missing credential, and the token library is not consulted. *)
Theorem authenticateRequest_outcomes (w : World) (header : option string) :
  Auth.envIs (Env.NODE_ENV w) "development" && Auth.envIs (Env.SKIP_AUTH w) "true" = false ->
  (forall auth,
     Auth.authenticateRequest w header false = Ok auth
     <-> exists token,
           header = Some ("Bearer " ++ token) /\ token <> EmptyString
           /\ Auth.verifyJWT w token = Ok auth)
  /\ ((forall token, header = Some ("Bearer " ++ token) -> token = EmptyString) ->
      Auth.authenticateRequest w header false
      = Throw "Missing or invalid Authorization header. Expected: Bearer <token>").
Proof.
  intros Hnobypass. unfold Auth.authenticateRequest. rewrite Hnobypass. simpl.
  destruct (Auth.extractBearerToken header) as [token|] eqn:Hextract.
  - apply extractBearerToken_by_header in Hextract. subst header.
    destruct (String.eqb_spec token EmptyString) as [->|Hne]; simpl.
    + split; [|done]. intros auth. split; [done|].
      intros [token [[= Htoken] [Hne _]]].
      change (EmptyString = token) in Htoken. by subst token.
    + rewrite (proj2 (String.eqb_neq token EmptyString) Hne). simpl. split.
      * intros auth. split.
        -- destruct (Auth.verifyJWT w token) as [a|m] eqn:Hv; [|done].
           intros [= <-]. by exists token.
        -- intros [token' [[= Htoken] [_ Hv]]].
           change (token = token') in Htoken. subst token'.
           by rewrite Hv.
      * intros Hnone. by destruct (Hne (Hnone token eq_refl)).
  - simpl. split; [|done]. intros auth. split; [done|].
    intros [token [-> _]].
    by rewrite (bearer_header_extracts token) in Hextract.
Qed.

Lemma authenticateRequest_outcomes_witness :
  Auth.authenticateRequest Scenario.production (Some "Bearer alice-token") false
  = Ok Scenario.alice.
Proof.
  apply (proj1 (authenticateRequest_outcomes Scenario.production
                  (Some "Bearer alice-token") eq_refl)).
  exists "alice-token". split; [reflexivity|]. split; [discriminate|reflexivity].
Defined.

(** ** Scopes given as one string *)

Section ScopeStringFacts.

Lemma split_without_sep sep s :
  Js.allChars (Js.notSep sep) s = true -> Js.split sep s = [s].
Proof.
  induction s as [|c s IH]; simpl; [done|]. intros H.
  apply andb_prop in H as [Hc H]. unfold Js.notSep in Hc.
  destruct (Ascii.eqb c sep); [discriminate|]. by rewrite (IH H).
Qed.

Lemma split_join sep l :
  l <> [] -> Forall (fun s => Js.allChars (Js.notSep sep) s = true) l ->
  Js.split sep (Js.join (String sep EmptyString) l) = l.
Proof.
  induction l as [|x l IH]; [done|]. intros _ Hall.
  apply Forall_cons in Hall as [Hx Hall].
  destruct l as [|y l].
  - by apply split_without_sep.
  - change (Js.join (String sep EmptyString) (x :: y :: l))
      with (x ++ String sep (Js.join (String sep EmptyString) (y :: l)))%string.
    rewrite (split_app_sep sep x _ Hx). f_equal. by apply IH.
Qed.

Lemma split_fragments sep s :
  Forall (fun frag => Js.allChars (Js.notSep sep) frag = true) (Js.split sep s).
Proof.
  induction s as [|c s IH]; simpl.
  - by constructor.
  - destruct (Ascii.eqb c sep) eqn:Hc.
    + by constructor.
    + destruct (Js.split sep s) as [|frag frags].
      * constructor; [|done]. simpl. unfold Js.notSep. by rewrite Hc.
      * apply Forall_cons in IH as [Hfrag Hfrags]. constructor; [|done].
        simpl. unfold Js.notSep at 1. by rewrite Hc.
Qed.

Lemma filter_all {A} (p : A -> bool) (l : list A) :
  Forall (fun x => p x = true) l -> List.filter p l = l.
Proof.
  induction 1 as [|x l Hx _ IH]; [done|]. simpl. by rewrite Hx, IH.
Qed.

End ScopeStringFacts.

(** X12. A token whose scope claim is a string and that has no array of
    scopes grants the words of that string: every scope [parseScopes] returns
    is non-empty and free of spaces, and a list of such words joined by
    single spaces is read back unchanged. *)
Theorem parseScopes_string_round_trip (payload : JWTPayload) :
  (forall l, Env.scopes payload <> ClaimStrings l) ->
  (forall s, Env.scope payload = ClaimString s ->
     Forall (fun word => isScopeToken word = true) (Auth.parseScopes payload))
  /\ (forall words,
        Forall (fun word => isScopeToken word = true) words ->
        Env.scope payload = ClaimString (Js.join " " words) ->
        Auth.parseScopes payload = words).
Proof.
  intros Hnoarray.
  assert (Hparse : forall s, Env.scope payload = ClaimString s ->
            Auth.parseScopes payload
            = if Js.truthy (Some s) then List.filter Auth.nonEmpty (Js.split " " s) else []).
  { intros s Hs. unfold Auth.parseScopes. rewrite Hs.
    destruct (Env.scopes payload) as [| |l|]; try done. by destruct (Hnoarray l). }
  split.
  - intros s Hs. rewrite (Hparse s Hs). destruct (Js.truthy (Some s)); [|by constructor].
    pose proof (split_fragments " " s) as Hfrags.
    induction Hfrags as [|frag frags Hfrag _ IH]; [by constructor|]. simpl.
    destruct (Auth.nonEmpty frag) eqn:Hne; [|done].
    constructor; [|done]. unfold isScopeToken. by rewrite Hne, Hfrag.
  - intros words Hwords Hs. rewrite (Hparse _ Hs).
    destruct words as [|word words]; [done|].
    assert (Hsep : Forall (fun s => Js.allChars (Js.notSep " ") s = true) (word :: words)).
    { eapply Forall_impl; [exact Hwords|]. unfold isScopeToken. intros s H.
      by apply andb_prop in H as [_ H]. }
    assert (Hne : Forall (fun s => Auth.nonEmpty s = true) (word :: words)).
    { eapply Forall_impl; [exact Hwords|]. unfold isScopeToken. intros s H.
      by apply andb_prop in H as [H _]. }
    rewrite (split_join " " (word :: words)); [|done|done].
    rewrite (filter_all _ _ Hne).
    apply Forall_cons in Hne as [Hword _].
    destruct word as [|c word]; [done|].
    simpl Js.join. by destruct words.
Qed.

Lemma parseScopes_string_round_trip_witness :
  Auth.parseScopes Scenario.alicePayload = ["mcp:profile"; "mcp:analyze"].
Proof.
  apply (parseScopes_string_round_trip Scenario.alicePayload).
  - intros l. simpl. discriminate.
  - repeat constructor.
  - reflexivity.
Defined.

(** ** Suggestions *)

(** X13. Whatever the profile, [generatePreprocessSuggestions] offers one or
    two candidates; their preset identifiers are distinct, are among the
    three identifiers the rules know, and none is empty.  The basic
    preset is offered exactly when neither rule applies. *)
Theorem generatePreprocessSuggestions_presets (profile : Env.Profile) :
  let ids := PreprocessCandidate.preset_id <$> Server.generatePreprocessSuggestions profile in
  (1 <= List.length ids <= 2)%nat
  /\ NoDup ids
  /\ Forall (fun id => id ∈ knownPresets /\ Js.truthy (Some id) = true) ids
  /\ ("basic_clean_norm" ∈ ids
      <-> Env.missingRateAbove20Percent profile = false
          /\ Env.dataType profile <> Some "sensor_data").
Proof.
  unfold Server.generatePreprocessSuggestions, knownPresets.
  destruct (Env.missingRateAbove20Percent profile);
    destruct (bool_decide_reflect (Env.dataType profile = Some "sensor_data")) as [Hd|Hd];
    simpl.
  all: split; [lia|].
  all: split;
    [repeat (constructor;
             [intros Hin;
              repeat (apply elem_of_cons in Hin as [Hin|Hin]; [discriminate|]);
              by apply elem_of_nil in Hin|]); constructor|].
  all: split; [repeat (constructor; [split; [set_solver|reflexivity]|]); constructor|].
  all: split; [|intros [? ?]; try done; set_solver].
  all: intros Hin; try (split; done); exfalso;
    repeat (apply elem_of_cons in Hin as [Hin|Hin]; [discriminate|]);
    by apply elem_of_nil in Hin.
Qed.

Section SuggestFacts.

Variable w : World.
Variable args : Schemas.SuggestPreprocessInput.t.
Variable auth : AuthContext.t.
Variable auditId : string.
Variable e : Server.Entropy.
Variable st : Guard.Store.

(** What [suggestPreprocess] does when the backend has a profile. *)
Lemma suggestPreprocess_success r st' :
  Server.suggestPreprocess w args auth auditId e st = (Ok r, st') ->
  exists profile,
    Env.profile (Env.getDataProfile w (Schemas.SuggestPreprocessInput.dataset_id args))
    = Some profile
    /\ r = Server.SuggestResult (Server.generatePreprocessSuggestions profile) auditId
             (Guard.newSessionId (Server.sessionNow e) (Server.sessionRnd e))
    /\ st' = (Guard.createSession (Schemas.SuggestPreprocessInput.dataset_id args)
                (PreprocessCandidate.preset_id
                   <$> Server.generatePreprocessSuggestions profile)
                (Owner.mk (AuthContext.user auth) (AuthContext.tenant auth))
                (Server.sessionNow e) (Server.sessionRnd e) st).2.
Proof.
  unfold Server.suggestPreprocess.
  destruct (negb (Env.profile_success _)); [done|].
  destruct (Env.profile _) as [profile|]; [|done].
  intros [= <- <-]. by exists profile.
Qed.

Lemma suggestPreprocess_failure m st' :
  Server.suggestPreprocess w args auth auditId e st = (Throw m, st') -> st' = st.
Proof.
  unfold Server.suggestPreprocess.
  destruct (negb (Env.profile_success _)); [by intros [= _ <-]|].
  destruct (Env.profile _) as [profile|]; [done|]. by intros [= _ <-].
Qed.

Lemma head_preset_truthy profile :
  exists first rest,
    PreprocessCandidate.preset_id <$> Server.generatePreprocessSuggestions profile
    = first :: rest
    /\ Js.truthy (Some first) = true.
Proof.
  unfold Server.generatePreprocessSuggestions.
  destruct (Env.missingRateAbove20Percent profile);
    destruct (bool_decide (Env.dataType profile = Some "sensor_data"));
    simpl; by eexists _, _.
Qed.

End SuggestFacts.

(** X14. After a successful [suggestPreprocess] the caller owns a SUGGESTED
    session under the returned identifier, and the dataset resolves to it.
    The gate then refuses that caller with PREPROCESS_REQUIRED and one
    remediation: confirm, for the same dataset, with the first suggested
    preset (never the placeholder).  A failed suggestion leaves the store as
    it was. *)
Theorem suggestPreprocess_then_gate (w : World) (args : Schemas.SuggestPreprocessInput.t)
    (auth : AuthContext.t) (auditId : string) (e : Server.Entropy) (st : Guard.Store) :
  let out := Server.suggestPreprocess w args auth auditId e st in
  match out.1 with
  | Throw _ => out.2 = st
  | Ok r =>
      exists candidates first session,
        r = Server.SuggestResult candidates auditId
              (Guard.newSessionId (Server.sessionNow e) (Server.sessionRnd e))
        /\ head candidates ≫= (fun c => Some (PreprocessCandidate.preset_id c)) = Some first
        /\ Guard.getSession (Guard.newSessionId (Server.sessionNow e) (Server.sessionRnd e))
             out.2 = Some session
        /\ Guard.getSessionByDataset (Schemas.SuggestPreprocessInput.dataset_id args) out.2
           = Some session
        /\ ownedBy auth session
        /\ state session = SUGGESTED
        /\ suggestedPresetIds session = PreprocessCandidate.preset_id <$> candidates
        /\ forall gateAuditId,
             exists err,
               Guard.checkReadyGate
                 (Guard.newSessionId (Server.sessionNow e) (Server.sessionRnd e))
                 auth gateAuditId out.2 = Guard.GateFailed err
               /\ ErrorResponse.error err = "PREPROCESS_REQUIRED"
               /\ (NextAction.tool <$> ErrorResponse.next err)
                  = ["toorpia_confirm_preprocessed"]
               /\ (fun a => Json.get "dataset_id" (NextAction.args a))
                    <$> ErrorResponse.next err
                  = [Some (JStr (Schemas.SuggestPreprocessInput.dataset_id args))]
               /\ (fun a => Json.get "manifest" (NextAction.args a)
                              ≫= Json.get "preset_id")
                    <$> ErrorResponse.next err
                  = [Some (JStr first)]
  end.
Proof.
  intros out. destruct out as [[r|m] st'] eqn:Hout; simpl.
  - apply suggestPreprocess_success in Hout as [profile [_ [-> ->]]].
    destruct (head_preset_truthy profile) as [first [rest [Hids Hfirst]]].
    set (sid := Guard.newSessionId (Server.sessionNow e) (Server.sessionRnd e)).
    set (d := Schemas.SuggestPreprocessInput.dataset_id args).
    set (ids := PreprocessCandidate.preset_id <$> Server.generatePreprocessSuggestions profile)
      in *.
    set (o := Owner.mk (AuthContext.user auth) (AuthContext.tenant auth)).
    exists (Server.generatePreprocessSuggestions profile), first,
      (mkSession d SUGGESTED ids None o).
    assert (Hget : Guard.getSession sid
              (Guard.createSession d ids o (Server.sessionNow e) (Server.sessionRnd e) st).2
            = Some (mkSession d SUGGESTED ids None o)).
    { rewrite getSession_createSession. by rewrite decide_True. }
    split; [done|]. split.
    { unfold ids in Hids.
      destruct (Server.generatePreprocessSuggestions profile) as [|c cs]; [done|].
      simpl in *. by injection Hids as -> _. }
    split; [exact Hget|]. split.
    { unfold Guard.getSessionByDataset, Guard.createSession. simpl.
      rewrite lookup_insert_eq. fold sid.
      change (Js.truthy (Some sid)) with true. cbv iota.
      by rewrite lookup_insert_eq. }
    split; [by split|]. split; [done|]. split; [done|].
    intros gateAuditId. eexists. split.
    { rewrite (checkReadyGate_owned _ sid _ auth gateAuditId Hget); [|by split].
      simpl. reflexivity. }
    simpl. split; [done|]. split; [done|]. split; [done|].
    rewrite Hids. simpl. unfold Js.orElse. by rewrite Hfirst.
  - by apply suggestPreprocess_failure in Hout.
Qed.

(** ** Sessions over the life of the server *)

Section LifecycleFacts.

Lemma allSuggested_createSession d p o now rnd st :
  allSuggested st -> allSuggested (Guard.createSession d p o now rnd st).2.
Proof.
  intros Hall sid s. rewrite getSession_createSession.
  destruct (decide _); [by intros [= <-]|]. apply Hall.
Qed.

Lemma allSuggested_cleanupSessions maxAgeMs now st :
  allSuggested st -> allSuggested (Guard.cleanupSessions maxAgeMs now st).
Proof.
  intros Hall sid s. rewrite cleanupSessions_lookup.
  destruct (Guard.isExpired _ _ _); [done|]. apply Hall.
Qed.

(** With a fresh identifier the confirmation finds nothing to update. *)
Lemma confirmPreprocessed_fresh_store w args auth auditId e st :
  Guard.getSession (Guard.newSessionId (Server.sessionNow e) (Server.sessionRnd e)) st = None ->
  (Server.confirmPreprocessed w args auth auditId e st).2 = st.
Proof.
  intros Hfresh. unfold Server.confirmPreprocessed.
  destruct (Guard.getSessionByDataset _ st); [|done].
  destruct (negb (Js.includes _ _)); [done|].
  destruct (negb (Env.valid _)); [done|].
  unfold Guard.updateSession, Guard.getSession in *. by rewrite Hfresh.
Qed.

(** While no session is READY the gate lets nothing through. *)
Lemma runAnalysis_allSuggested w args auth auditId st :
  allSuggested st ->
  exists err, Server.runAnalysis w args auth auditId st = (Server.ErrorResult err, st).
Proof.
  intros Hall. unfold Server.runAnalysis, Guard.checkReadyGate.
  destruct (Guard.sessions st !! _) as [s|] eqn:Hs; [|by eexists].
  destruct (_ || _); [by eexists|].
  destruct (Hall _ _ Hs) as [-> _]. by eexists.
Qed.

Lemma executeTool_allSuggested w toolName args auth auditId e st :
  allSuggested st ->
  Guard.getSession (Guard.newSessionId (Server.sessionNow e) (Server.sessionRnd e)) st = None ->
  allSuggested (Server.executeTool w toolName args auth auditId e st).2.
Proof.
  intros Hall Hfresh. unfold Server.executeTool.
  repeat (destruct (String.eqb toolName _));
    try (destruct (negb (Guard.checkScope auth _)); [done|]);
    try (destruct (Server.parsed _ _ _ _) as [a|m]; [|done]); try done.
  - unfold Server.suggestPreprocess.
    destruct (negb (Env.profile_success _)); [done|].
    destruct (Env.profile _); [|done]. by apply allSuggested_createSession.
  - by rewrite confirmPreprocessed_fresh_store.
  - destruct (runAnalysis_allSuggested w a auth auditId st Hall) as [err ->]. done.
Qed.

Lemma allSuggested_applyEvent s ev :
  allSuggested (Server.store s) -> freshEvents s [ev] ->
  allSuggested (Server.store (applyEvent s ev)).
Proof.
  intros Hall [Hfresh _]. destruct ev as [w req e|now]; simpl.
  - destruct s as [st log].
    destruct (handleCallTool_store st w req e log) as [->|[auth ->]]; [done|].
    by apply executeTool_allSuggested.
  - by apply allSuggested_cleanupSessions.
Qed.

Lemma allSuggested_runEvents evs s :
  allSuggested (Server.store s) -> freshEvents s evs ->
  allSuggested (Server.store (runEvents evs s)).
Proof.
  revert s. induction evs as [|ev evs IH]; intros s Hall Hfresh; [done|].
  destruct Hfresh as [Hev Hrest]. simpl. apply IH; [|done].
  apply allSuggested_applyEvent; [done|]. by split.
Qed.

Lemma handleCallTool_result w req e s result :
  (Server.handleCallTool w req e s).1 = Ok result ->
  exists auth st',
    Server.executeTool w (Server.name req) (Server.arguments req) auth
      (Guard.generateAuditId (Server.auditIso e) (Server.auditRnd e)) e (Server.store s)
    = (Ok result, st').
Proof.
  unfold Server.handleCallTool, Server.onToolError.
  destruct (Auth.authenticateRequest w _ (Auth.envIs _ _)) as [auth|m]; [|done].
  destruct (Server.executeTool _ _ _ _ _ _ _) as [[r|m] st'] eqn:Hexec; [|done].
  destruct (Audit.logSuccess _ _ _ _ _ _ _ _ _ _); [|done].
  simpl. intros [= ->]. by exists auth, st'.
Qed.

End LifecycleFacts.

(** X15. As long as every call draws a session identifier that is not yet
    in use, no sequence of tool calls and sweeps makes any session READY:
    starting from a store of SUGGESTED sessions, every stored session is
    still SUGGESTED and without a processed record afterwards, and a
    run_analysis call then never returns an analysis, only a refusal. *)
Theorem no_session_becomes_ready (s : Server.ServerState) (evs : list ServerEvent) :
  allSuggested (Server.store s) ->
  freshEvents s evs ->
  allSuggested (Server.store (runEvents evs s))
  /\ forall w req e result,
       Server.name req = "toorpia_run_analysis" ->
       (Server.handleCallTool w req e (runEvents evs s)).1 = Ok result ->
       exists err, result = Server.ErrorResult err.
Proof.
  intros Hall Hfresh.
  pose proof (allSuggested_runEvents evs s Hall Hfresh) as Hafter.
  split; [exact Hafter|].
  intros w req e result Hname Hres.
  apply handleCallTool_result in Hres as [auth [st' Hexec]].
  rewrite (executeTool_run_analysis w e _ _ _ _ _ Hname) in Hexec.
  destruct (negb (Guard.checkScope auth _)); [done|].
  destruct (Server.parsed _ _ _ _) as [a|m]; [|done].
  destruct (runAnalysis_allSuggested w a auth
              (Guard.generateAuditId (Server.auditIso e) (Server.auditRnd e))
              _ Hafter) as [err Hrun].
  rewrite Hrun in Hexec. injection Hexec as <- _. by exists err.
Qed.

Lemma no_session_becomes_ready_witness :
  allSuggested
    (Server.store
       (runEvents
          [ Call Scenario.production Scenario.confirmRequest
              (Scenario.entropyAt 2000 "z9y8x7w6v");
            Sweep 3000;
            Call Scenario.production
              (Scenario.runRequest Scenario.suggestedId (Some "Bearer alice-token"))
              (Scenario.entropyAt 4000 "p0o9i8u7y") ]
          Scenario.suggestedState))
  /\ forall w req e result,
       Server.name req = "toorpia_run_analysis" ->
       (Server.handleCallTool w req e
          (runEvents
             [ Call Scenario.production Scenario.confirmRequest
                 (Scenario.entropyAt 2000 "z9y8x7w6v");
               Sweep 3000;
               Call Scenario.production
                 (Scenario.runRequest Scenario.suggestedId (Some "Bearer alice-token"))
                 (Scenario.entropyAt 4000 "p0o9i8u7y") ]
             Scenario.suggestedState)).1 = Ok result ->
       exists err, result = Server.ErrorResult err.
Proof.
  apply (no_session_becomes_ready Scenario.suggestedState).
  - intros sid s.
    change (Server.store Scenario.suggestedState)
      with (Guard.createSession "ds1" ["basic_clean_norm"] Scenario.aliceOwner 1000
              "k3v9x2m1q" Guard.emptyStore).2.
    rewrite getSession_createSession.
    destruct (decide _); [by intros [= <-]|]. unfold Guard.getSession. simpl.
    by rewrite lookup_empty.
  - repeat split; vm_compute; reflexivity.
Defined.

(** X16. For a READY session of the caller with a processed record,
    [runAnalysis] reports the backend's answer, failure included, and marks
    the session ANALYZED either way, keeping its record.  Any later
    run_analysis of the same caller on that session is refused with
    PREPROCESS_REQUIRED and no remediation, and leaves the store alone. *)
Theorem runAnalysis_runs_once (w : World) (args : Schemas.RunAnalysisInput.t)
    (auth : AuthContext.t) (auditId : string) (st : Guard.Store)
    (s : Session) (p : Processed.t) :
  Guard.getSession (Schemas.RunAnalysisInput.session_id args) st = Some s ->
  ownedBy auth s ->
  state s = READY ->
  processed s = Some p ->
  let sid := Schemas.RunAnalysisInput.session_id args in
  let answer :=
    Env.runAnalysisWithSession w sid (Processed.uri p)
      (Js.orElse (Some (Schemas.RunAnalysisInput.analysis_type args)) "clustering")
      (default (JObj []) (Schemas.RunAnalysisInput.parameters args)) in
  let out := Server.runAnalysis w args auth auditId st in
  out.1 = Server.AnalysisResult (Env.analysis_success answer) (Env.analysisId answer)
            (Env.analysis_status answer) (Env.analysis_error answer) sid auditId
  /\ Guard.getSession sid out.2
     = Some (mkSession (datasetId s) ANALYZED (suggestedPresetIds s) (Some p) (owner s))
  /\ forall w' args' auditId',
       Schemas.RunAnalysisInput.session_id args' = sid ->
       Server.runAnalysis w' args' auth auditId' out.2
       = (Server.ErrorResult
            (errorNext "PREPROCESS_REQUIRED"
               "前処理の提案と処理済み確認を完了してください。" [] (Some auditId')),
          out.2).
Proof.
  intros Hs Hown Hready Hp sid answer out.
  assert (Hout : out
            = (Server.AnalysisResult (Env.analysis_success answer) (Env.analysisId answer)
                 (Env.analysis_status answer) (Env.analysis_error answer) sid auditId,
               (Guard.updateSession sid ANALYZED None st).2)).
  { unfold out, Server.runAnalysis. fold sid.
    rewrite (checkReadyGate_owned st sid s auth auditId Hs Hown).
    rewrite bool_decide_eq_true_2 by done. rewrite Hp.
    by destruct (Guard.updateSession sid ANALYZED None st). }
  assert (Hafter : Guard.getSession sid out.2
            = Some (mkSession (datasetId s) ANALYZED (suggestedPresetIds s) (Some p)
                      (owner s))).
  { rewrite Hout. simpl. rewrite getSession_updateSession, decide_True by done.
    fold sid in Hs. rewrite Hs. simpl. unfold Guard.applyUpdate. by rewrite Hp. }
  split; [|split].
  - by rewrite Hout.
  - exact Hafter.
  - intros w' args' auditId' Hsame. unfold Server.runAnalysis. rewrite Hsame.
    rewrite (checkReadyGate_owned out.2 sid _ auth auditId' Hafter Hown).
    reflexivity.
Qed.

Lemma runAnalysis_runs_once_witness :
  let p := Processed.mk "file:///data/processed.csv" "sha256:00" "basic_clean_norm"
             "profile_1" "v1.0" (Some 1000) None in
  let st := (Guard.updateSession Scenario.suggestedId READY (Some p)
               Scenario.suggestedStore).2 in
  let args := Schemas.RunAnalysisInput.mk Scenario.suggestedId "clustering" None in
  let out := Server.runAnalysis Scenario.production args Scenario.alice "audit_1" st in
  out.1 = Server.AnalysisResult true (Some "an_1") (Some "queued") None
            Scenario.suggestedId "audit_1"
  /\ Guard.getSession Scenario.suggestedId out.2
     = Some (mkSession "ds1" ANALYZED ["basic_clean_norm"] (Some p) Scenario.aliceOwner)
  /\ forall w' args' auditId',
       Schemas.RunAnalysisInput.session_id args' = Scenario.suggestedId ->
       Server.runAnalysis w' args' Scenario.alice auditId' out.2
       = (Server.ErrorResult
            (errorNext "PREPROCESS_REQUIRED"
               "前処理の提案と処理済み確認を完了してください。" [] (Some auditId')),
          out.2).
Proof.
  intros p st args.
  apply (runAnalysis_runs_once Scenario.production args Scenario.alice "audit_1" st
           (mkSession "ds1" READY ["basic_clean_norm"] (Some p) Scenario.aliceOwner) p).
  - vm_compute. reflexivity.
  - split; reflexivity.
  - reflexivity.
  - reflexivity.
Defined.

(** ** What the dispatcher does not look at *)

(** X17. The tools outside the scope checks (upload_data, get_status and
    collect_feedback) leave the session store as it is and return the same
    value to every caller.  collect_feedback nevertheless persists who
    called: when the feedback directory can be written it writes one file,
    named after the clock alone, whose text is the indented JSON of an
    object that holds the caller's user and tenant, the audit id of the call
    and the parsed arguments; otherwise it writes nothing and reports the
    failure. *)
Theorem ungated_tools_and_the_caller (w : World) (toolName : string) (args : option json)
    (auth auth' : AuthContext.t) (auditId : string) (e : Server.Entropy)
    (st : Guard.Store) :
  toolName ∈ ungatedTools ->
  (Server.executeTool w toolName args auth auditId e st).2 = st
  /\ (Server.executeTool w toolName args auth auditId e st).1
     = (Server.executeTool w toolName args auth' auditId e st).1
  /\ forall feedback : Schemas.CollectFeedbackInput.t,
       let out := Server.collectFeedback w feedback auth auditId e in
       let object := Server.feedbackObject feedback auth auditId e in
       out.1 = Server.BackendResult "toorpia_collect_feedback"
                 (Env.feedbackDirWritable w) auditId
       /\ out.2
          = (if Env.feedbackDirWritable w then
               Some (Server.mkFeedbackFile
                       ("feedback_" ++ Js.numberToString (Server.feedbackNow e) ++ ".json")
                       (Json.stringifyIndented "  " EmptyString object))
             else None)
       /\ Json.get "user" object = Some (JStr (AuthContext.user auth))
       /\ Json.get "tenant" object = Some (JStr (AuthContext.tenant auth))
       /\ Json.get "audit_id" object = Some (JStr auditId)
       /\ Json.get "title" object
          = Some (JStr (Schemas.CollectFeedbackInput.title feedback))
       /\ Json.get "description" object
          = Some (JStr (Schemas.CollectFeedbackInput.description feedback)).
Proof.
  unfold ungatedTools. intros Hin. split; [|split].
  - repeat (apply elem_of_cons in Hin as [->|Hin]); [| | |by apply elem_of_nil in Hin].
    all: unfold Server.executeTool; simpl; by destruct (Server.parsed _ _ _ _).
  - repeat (apply elem_of_cons in Hin as [->|Hin]); [| | |by apply elem_of_nil in Hin].
    all: unfold Server.executeTool; simpl; by destruct (Server.parsed _ _ _ _).
  - intros feedback. split; [reflexivity|]. split.
    + unfold Server.collectFeedback, Server.feedbackId. simpl.
      by destruct (Env.feedbackDirWritable w).
    + repeat split.
Qed.

Lemma ungated_tools_and_the_caller_witness :
  (Server.executeTool Scenario.production "toorpia_collect_feedback"
     (Some (JObj [ ("feedback_type", JStr "bug_report"); ("title", JStr "t");
                   ("description", JStr "d") ]))
     Scenario.alice "audit_1" (Scenario.entropyAt 2000 "z9y8x7w6v") Scenario.sharedStore).2
  = Scenario.sharedStore
  /\ (Server.executeTool Scenario.production "toorpia_collect_feedback"
        (Some (JObj [ ("feedback_type", JStr "bug_report"); ("title", JStr "t");
                      ("description", JStr "d") ]))
        Scenario.alice "audit_1" (Scenario.entropyAt 2000 "z9y8x7w6v")
        Scenario.sharedStore).1
     = (Server.executeTool Scenario.production "toorpia_collect_feedback"
          (Some (JObj [ ("feedback_type", JStr "bug_report"); ("title", JStr "t");
                        ("description", JStr "d") ]))
          Scenario.bob "audit_1" (Scenario.entropyAt 2000 "z9y8x7w6v")
          Scenario.sharedStore).1.
Proof.
  split.
  - apply (ungated_tools_and_the_caller Scenario.production "toorpia_collect_feedback"
             (Some (JObj [ ("feedback_type", JStr "bug_report"); ("title", JStr "t");
                           ("description", JStr "d") ]))
             Scenario.alice Scenario.bob "audit_1" (Scenario.entropyAt 2000 "z9y8x7w6v")
             Scenario.sharedStore).
    unfold ungatedTools. do 2 apply list_elem_of_further. apply list_elem_of_here.
  - apply (ungated_tools_and_the_caller Scenario.production "toorpia_collect_feedback"
             (Some (JObj [ ("feedback_type", JStr "bug_report"); ("title", JStr "t");
                           ("description", JStr "d") ]))
             Scenario.alice Scenario.bob "audit_1" (Scenario.entropyAt 2000 "z9y8x7w6v")
             Scenario.sharedStore).
    unfold ungatedTools. do 2 apply list_elem_of_further. apply list_elem_of_here.
Defined.

(** What alice's feedback leaves on disk. *)
Example feedback_file_names_the_caller :
  (Server.collectFeedback Scenario.production
     (Schemas.CollectFeedbackInput.mk "bug_report" "t" "d" (Some (JObj [])) (Some 4))
     Scenario.alice "audit_1" (Scenario.entropyAt 2000 "z9y8x7w6v")).2
  = Some (Server.mkFeedbackFile "feedback_2000.json"
            ("{" ++ Json.lineFeed
             ++ "  " ++ Json.quote "id" ++ ": " ++ Json.quote "feedback_2000" ++ ","
             ++ Json.lineFeed
             ++ "  " ++ Json.quote "timestamp" ++ ": "
             ++ Json.quote "2025-08-19T12:34:56.795Z" ++ "," ++ Json.lineFeed
             ++ "  " ++ Json.quote "user" ++ ": " ++ Json.quote "alice" ++ ","
             ++ Json.lineFeed
             ++ "  " ++ Json.quote "tenant" ++ ": " ++ Json.quote "acme" ++ ","
             ++ Json.lineFeed
             ++ "  " ++ Json.quote "audit_id" ++ ": " ++ Json.quote "audit_1" ++ ","
             ++ Json.lineFeed
             ++ "  " ++ Json.quote "feedback_type" ++ ": " ++ Json.quote "bug_report" ++ ","
             ++ Json.lineFeed
             ++ "  " ++ Json.quote "title" ++ ": " ++ Json.quote "t" ++ "," ++ Json.lineFeed
             ++ "  " ++ Json.quote "description" ++ ": " ++ Json.quote "d" ++ ","
             ++ Json.lineFeed
             ++ "  " ++ Json.quote "context" ++ ": {}," ++ Json.lineFeed
             ++ "  " ++ Json.quote "rating" ++ ": 4" ++ Json.lineFeed
             ++ "}")).
Proof. vm_compute. reflexivity. Qed.

(** X18. confirm_preprocessed asks for the mcp:profile scope and nothing
    else about the caller: two callers who both hold the scope get the same
    result and leave the same store, whoever owns the dataset's session.
    The session's owner is never compared with the caller. *)
Theorem confirm_ignores_session_owner (w : World) (args : option json)
    (auth auth' : AuthContext.t) (auditId : string) (e : Server.Entropy)
    (st : Guard.Store) :
  Guard.checkScope auth "mcp:profile" = true ->
  Guard.checkScope auth' "mcp:profile" = true ->
  Server.executeTool w "toorpia_confirm_preprocessed" args auth auditId e st
  = Server.executeTool w "toorpia_confirm_preprocessed" args auth' auditId e st.
Proof.
  intros Hscope Hscope'. unfold Server.executeTool. simpl.
  rewrite Hscope, Hscope'. simpl.
  by destruct (Server.parsed _ _ _ _).
Qed.

Lemma confirm_ignores_session_owner_witness :
  Server.executeTool Scenario.production "toorpia_confirm_preprocessed"
    (Server.arguments Scenario.confirmRequest) Scenario.alice "audit_1"
    (Scenario.entropyAt 2000 "z9y8x7w6v") Scenario.sharedStore
  = Server.executeTool Scenario.production "toorpia_confirm_preprocessed"
      (Server.arguments Scenario.confirmRequest) Scenario.bob "audit_1"
      (Scenario.entropyAt 2000 "z9y8x7w6v") Scenario.sharedStore.
Proof.
  apply (confirm_ignores_session_owner Scenario.production
           (Server.arguments Scenario.confirmRequest) Scenario.alice Scenario.bob);
    reflexivity.
Defined.

(** ** The audit file *)

Section AuditFileFacts.

Lemma writeAuditLog_extends w now auth tool input success auditId
    presetId sessionId outputUri error log log' :
  Audit.writeAuditLog w now auth tool input success auditId
    presetId sessionId outputUri error log = Ok log' ->
  log' = log
  \/ exists entry, log' = (log ++ [entry])%list /\ AuditLog.audit_id entry = auditId.
Proof.
  unfold Audit.writeAuditLog. destruct (Audit.hashInput input) as [h|]; [|done].
  destruct (Env.auditFileWritable w); intros [= <-]; [|by left].
  right. by eexists.
Qed.

Lemma onToolError_extends w req e auditId message st log :
  let log' := Server.auditLog (Server.onToolError w req e auditId message st log).2 in
  log' = log
  \/ exists entry, log' = (log ++ [entry])%list /\ AuditLog.audit_id entry = auditId.
Proof.
  unfold Server.onToolError, Audit.logError. simpl.
  destruct (Audit.writeAuditLog _ _ _ _ _ _ _ _ _ _ _ _) as [written|m] eqn:Hw; [|by left].
  by apply writeAuditLog_extends in Hw.
Qed.

Lemma handleCallTool_extends w req e s :
  let log' := Server.auditLog (Server.handleCallTool w req e s).2 in
  log' = Server.auditLog s
  \/ exists entry,
       log' = (Server.auditLog s ++ [entry])%list
       /\ AuditLog.audit_id entry
          = Guard.generateAuditId (Server.auditIso e) (Server.auditRnd e).
Proof.
  unfold Server.handleCallTool.
  destruct (Auth.authenticateRequest w _ (Auth.envIs _ _)) as [auth|m];
    [|apply onToolError_extends].
  destruct (Server.executeTool _ _ _ _ _ _ _) as [[result|m] st'];
    [|apply onToolError_extends].
  unfold Audit.logSuccess.
  destruct (Audit.writeAuditLog _ _ _ _ _ _ _ _ _ _ _ _) as [written|m] eqn:Hw;
    [|apply onToolError_extends].
  by apply writeAuditLog_extends in Hw.
Qed.

End AuditFileFacts.

(** X19. The audit log only grows, and by at most one record per call: over
    any sequence of tool calls and sweeps the earlier records stay as they
    were, in place, and the records added carry, in order, audit identifiers
    of calls of the sequence.  A sweep adds nothing. *)
Theorem audit_log_append_only (evs : list ServerEvent) (s : Server.ServerState) :
  exists added,
    Server.auditLog (runEvents evs s) = (Server.auditLog s ++ added)%list
    /\ sublist (AuditLog.audit_id <$> added) (callAuditIds evs).
Proof.
  revert s. induction evs as [|ev evs IH]; intros s.
  - exists []. split; [by rewrite app_nil_r|constructor].
  - destruct (IH (applyEvent s ev)) as [added [Hlog Hids]].
    change (runEvents (ev :: evs) s) with (runEvents evs (applyEvent s ev)).
    destruct ev as [w req e|now].
    + change (callAuditIds (Call w req e :: evs))
        with (Guard.generateAuditId (Server.auditIso e) (Server.auditRnd e)
                :: callAuditIds evs).
      destruct (handleCallTool_extends w req e s) as [Hsame|[entry [Hone Hid]]].
      * exists added. split; [|by constructor].
        rewrite Hlog. simpl applyEvent. by rewrite Hsame.
      * exists (entry :: added). split.
        -- rewrite Hlog. simpl applyEvent. rewrite Hone. by rewrite <- app_assoc.
        -- rewrite fmap_cons, Hid. by constructor.
    + exists added. split; [|done]. by rewrite Hlog.
Qed.

(** X20. A failed write of the audit file is swallowed: with the file
    unwritable a call returns or throws exactly as with the file writable,
    and leaves the same session store; only the record is missing. *)
Theorem audit_write_failure_is_silent (w : World) (req : Server.CallToolRequest)
    (e : Server.Entropy) (s : Server.ServerState) :
  let quiet := Server.handleCallTool (withAuditFile false w) req e s in
  let loud := Server.handleCallTool (withAuditFile true w) req e s in
  quiet.1 = loud.1
  /\ Server.store quiet.2 = Server.store loud.2
  /\ Server.auditLog quiet.2 = Server.auditLog s.
Proof.
  unfold Server.handleCallTool.
  change (Auth.authenticateRequest (withAuditFile false w))
    with (Auth.authenticateRequest (withAuditFile true w)).
  change (Env.NODE_ENV (withAuditFile false w)) with (Env.NODE_ENV (withAuditFile true w)).
  destruct (Auth.authenticateRequest _ _ (Auth.envIs _ _)) as [auth|m].
  - change (Server.executeTool (withAuditFile false w))
      with (Server.executeTool (withAuditFile true w)).
    destruct (Server.executeTool _ _ _ _ _ _ _) as [[result|m] st'].
    + unfold Audit.logSuccess, Audit.writeAuditLog, Server.onToolError, Audit.logError,
        Audit.writeAuditLog.
      simpl. by destruct (Audit.hashInput _).
    + unfold Server.onToolError, Audit.logError, Audit.writeAuditLog.
      simpl. by destruct (Audit.hashInput _).
  - unfold Server.onToolError, Audit.logError, Audit.writeAuditLog.
    simpl. by destruct (Audit.hashInput _).
Qed.

(** X21. In a runtime with NODE_ENV set to development, and whether or not
    SKIP_AUTH is set, the call handler never looks at the Authorization
    header: every call runs as dev-user of dev-tenant, passes every scope
    check, and its outcome is the same for any two headers. *)
Theorem development_runtime_skips_authentication (w : World) (toolName : string)
    (args : option json) (header header' : option string) (e : Server.Entropy)
    (s : Server.ServerState) :
  Env.NODE_ENV w = Some "development" ->
  Server.handleCallTool w (Server.mkRequest toolName args header) e s
  = Server.handleCallTool w (Server.mkRequest toolName args header') e s
  /\ Server.store (Server.handleCallTool w (Server.mkRequest toolName args header) e s).2
     = (Server.executeTool w toolName args Auth.devContext
          (Guard.generateAuditId (Server.auditIso e) (Server.auditRnd e)) e
          (Server.store s)).2
  /\ (forall requiredScope, Guard.checkScope Auth.devContext requiredScope = true)
  /\ Forall (fun entry => AuditLog.user entry = "dev-user"
                          /\ AuditLog.tenant entry = "dev-tenant")
       (drop (List.length (Server.auditLog s))
          (Server.auditLog
             (Server.handleCallTool w (Server.mkRequest toolName args header) e s).2)).
Proof.
  intros Hdev.
  assert (Hauth : forall h,
            Auth.authenticateRequest w h (Auth.envIs (Env.NODE_ENV w) "development")
            = Ok Auth.devContext).
  { intros h. unfold Auth.authenticateRequest, Auth.envIs.
    by rewrite (bool_decide_eq_true_2 _ Hdev). }
  assert (Hdrop : forall (log : list AuditLog.t) entry,
            drop (List.length log) (log ++ [entry])%list = [entry]).
  { intros log entry. by rewrite drop_app_length. }
  split; [|split; [|split]].
  - unfold Server.handleCallTool, Server.onToolError. simpl.
    rewrite (Hauth header), (Hauth header'). reflexivity.
  - unfold Server.handleCallTool, Server.onToolError. simpl. rewrite (Hauth header).
    destruct (Server.executeTool _ _ _ _ _ _ _) as [[result|m] st']; simpl; [|done].
    by destruct (Audit.logSuccess _ _ _ _ _ _ _ _ _ _).
  - intros requiredScope. unfold Guard.checkScope, Js.includes.
    change (AuthContext.scopes Auth.devContext) with ["*"].
    rewrite (bool_decide_eq_true_2 ("*" ∈ ["*"])); [apply orb_true_r|apply list_elem_of_here].
  - unfold Server.handleCallTool, Server.onToolError, Audit.logSuccess, Audit.logError,
      Audit.writeAuditLog. simpl. rewrite (Hauth header).
    destruct (Server.executeTool _ _ _ _ _ _ _) as [[result|m] st']; simpl;
      destruct (Audit.hashInput args); simpl;
      destruct (Env.auditFileWritable w); simpl;
      rewrite ?Hdrop, ?drop_all; repeat constructor.
Qed.

Lemma development_runtime_skips_authentication_witness :
  Server.handleCallTool (withNodeEnv (Some "development") Scenario.production)
    (Server.mkRequest "toorpia_run_analysis"
       (Some (JObj [("session_id", JStr Scenario.suggestedId)])) None)
    (Scenario.entropyAt 2000 "z9y8x7w6v") Scenario.suggestedState
  = Server.handleCallTool (withNodeEnv (Some "development") Scenario.production)
      (Server.mkRequest "toorpia_run_analysis"
         (Some (JObj [("session_id", JStr Scenario.suggestedId)]))
         (Some "Bearer alice-token"))
      (Scenario.entropyAt 2000 "z9y8x7w6v") Scenario.suggestedState.
Proof.
  apply (development_runtime_skips_authentication
           (withNodeEnv (Some "development") Scenario.production)
           "toorpia_run_analysis"
           (Some (JObj [("session_id", JStr Scenario.suggestedId)]))
           None (Some "Bearer alice-token")
           (Scenario.entropyAt 2000 "z9y8x7w6v") Scenario.suggestedState).
  reflexivity.
Defined.

(** ** The lines of the audit file *)

Section LineFacts.

Lemma allChars_app p a b :
  Js.allChars p (a ++ b) = Js.allChars p a && Js.allChars p b.
Proof.
  induction a as [|c a IH]; [done|].
  change (Js.allChars p (String c (a ++ b)) = Js.allChars p (String c a) && Js.allChars p b).
  simpl. by rewrite IH, andb_assoc.
Qed.

Lemma allChars_impl (p q : ascii -> bool) s :
  (forall c, p c = true -> q c = true) ->
  Js.allChars p s = true -> Js.allChars q s = true.
Proof.
  intros Hpq. induction s as [|c s IH]; simpl; [done|].
  intros H. apply andb_prop in H as [Hc Hs]. by rewrite (Hpq c Hc), (IH Hs).
Qed.

Lemma allChars_join p sep xs :
  Js.allChars p sep = true ->
  Forall (fun x => Js.allChars p x = true) xs ->
  Js.allChars p (Js.join sep xs) = true.
Proof.
  intros Hsep. induction 1 as [|x xs Hx Hxs IH]; [done|].
  destruct xs as [|y ys]; [done|].
  change (Js.join sep (x :: y :: ys)) with (x ++ sep ++ Js.join sep (y :: ys))%string.
  by rewrite !allChars_app, Hx, Hsep, IH.
Qed.

Lemma escapeChar_one_line c : Js.allChars notLineBreak (Json.escapeChar c) = true.
Proof. destruct c as [[] [] [] [] [] [] [] []]; vm_compute; reflexivity. Qed.

Lemma quote_one_line s : Js.allChars notLineBreak (Json.quote s) = true.
Proof.
  unfold Json.quote.
  change (Js.allChars notLineBreak (Json.escape s ++ String Json.quoteChar EmptyString) = true).
  rewrite allChars_app, andb_true_r.
  induction s as [|c s IH]; [done|].
  change (Json.escape (String c s)) with (Json.escapeChar c ++ Json.escape s)%string.
  by rewrite allChars_app, escapeChar_one_line, IH.
Qed.

Lemma numberToString_one_line z : Js.allChars notLineBreak (Js.numberToString z) = true.
Proof.
  assert (Hd : forall d, Js.allChars notLineBreak (NilEmpty.string_of_uint d) = true)
    by (induction d; simpl; auto).
  unfold Js.numberToString. destruct z; simpl; auto.
Qed.

Lemma allChars_substring p a b s :
  Js.allChars p s = true -> Js.allChars p (String.substring a b s) = true.
Proof.
  revert a b. induction s as [|c s IH]; intros a b H.
  - by destruct a, b.
  - simpl in H. apply andb_prop in H as [Hc Hs].
    destruct a as [|a]; destruct b as [|b]; simpl; try done.
    + by rewrite Hc, (IH 0%nat b Hs).
    + by apply IH.
    + by apply IH.
Qed.

Lemma zeros_one_line n : Js.allChars notLineBreak (Number.zeros n) = true.
Proof. unfold Number.zeros. induction (Z.to_nat n); simpl; auto. Qed.

Lemma layout_one_line s p : Js.allChars notLineBreak (Number.layout s p) = true.
Proof.
  pose proof (numberToString_one_line s) as Hs.
  unfold Number.layout.
  repeat match goal with |- context [if ?b then _ else _] => destruct b end;
    rewrite ?allChars_app, ?zeros_one_line, ?numberToString_one_line, ?Hs,
      ?(allChars_substring _ _ _ _ Hs); reflexivity.
Qed.

Lemma number_one_line x : Js.allChars notLineBreak (Number.serialize x) = true.
Proof.
  unfold Number.serialize, Number.toString.
  destruct (Number.toDouble x) as [|[|] m e|negative]; try reflexivity;
    rewrite ?allChars_app, layout_one_line; reflexivity.
Qed.

Lemma stringify_one_line : forall j, Js.allChars notLineBreak (Json.stringify j) = true.
Proof.
  fix IH 1. intros [| [|] |n|s|items|fields]; try reflexivity.
  - apply number_one_line.
  - apply quote_one_line.
  - change (Json.stringify (JArr items))
      with ("[" ++ Js.join "," (List.map Json.stringify items) ++ "]")%string.
    rewrite !allChars_app, andb_true_r. simpl.
    apply allChars_join; [done|].
    induction items as [|item items IHitems]; constructor; [apply IH|apply IHitems].
  - change (Json.stringify (JObj fields))
      with ("{" ++ Js.join ","
                     (List.map (fun kv => Json.quote (fst kv) ++ ":"
                                            ++ Json.stringify (snd kv)) fields)
                ++ "}")%string.
    rewrite !allChars_app, andb_true_r. simpl.
    apply allChars_join; [done|].
    induction fields as [|[k v] fields IHfields]; constructor; [|apply IHfields].
    cbv beta. cbn [fst snd]. by rewrite !allChars_app, quote_one_line, IH.
Qed.

End LineFacts.

(** X22. The audit file is line-delimited JSON whatever the records hold:
    splitting its text at the line feeds gives the serialized records, one
    per line and in order, followed by the empty rest after the last line
    feed; no serialized record contains a line feed or a carriage return,
    even when a tool name, a user or an error message does. *)
Theorem audit_file_one_line_per_record (log : list AuditLog.t) :
  Js.split (ascii_of_nat 10) (auditFileText log)
  = (((fun entry => Json.stringify (auditEntryJson entry)) <$> log) ++ [EmptyString])%list
  /\ Forall (fun entry =>
               Js.allChars notLineBreak (Json.stringify (auditEntryJson entry)) = true)
       log.
Proof.
  split.
  - induction log as [|entry log IH]; [done|].
    change (auditFileText (entry :: log))
      with ((Json.stringify (auditEntryJson entry)
               ++ String (ascii_of_nat 10) EmptyString) ++ auditFileText log)%string.
    rewrite append_assoc_char, split_app_sep.
    + by rewrite IH.
    + apply (allChars_impl notLineBreak); [|apply stringify_one_line].
      intros c. unfold notLineBreak, Js.notSep. intros H.
      by apply andb_prop in H as [H _].
  - induction log; constructor; [apply stringify_one_line|done].
Qed.

(** ** Remediation against the schemas *)

Section RemediationFacts.

(** The template carries placeholders where the schema wants a URI and a
    checksum, so the schema turns it down for every session. *)
Lemma confirmTemplate_rejected s :
  Schemas.ConfirmPreprocessedInput.parse (Some (Guard.confirmTemplate s)) = None.
Proof.
  unfold Schemas.ConfirmPreprocessedInput.parse, Guard.confirmTemplate, Schemas.zObject.
  destruct (Schemas.zString1 _) as [d|]; reflexivity.
Qed.

End RemediationFacts.

(** X23. The remediation the gate hands to the owner of a SUGGESTED session
    cannot be replayed as it is: it names confirm_preprocessed, and calling
    that tool with the suggested arguments is refused by the tool's own
    input schema (the URI and the checksum are placeholders), whatever the
    session holds, and leaves the store as it was. *)
Theorem gate_confirm_remediation_is_rejected (w : World) (auth : AuthContext.t)
    (auditId gateAuditId : string) (e : Server.Entropy) (st : Guard.Store)
    (sid : string) (s : Session) :
  Guard.getSession sid st = Some s ->
  ownedBy auth s ->
  state s = SUGGESTED ->
  Guard.checkScope auth "mcp:profile" = true ->
  exists err action,
    Guard.checkReadyGate sid auth gateAuditId st = Guard.GateFailed err
    /\ ErrorResponse.next err = [action]
    /\ Server.executeTool w (NextAction.tool action) (Some (NextAction.args action))
         auth auditId e st
       = (Throw (Env.zodMessage w "ConfirmPreprocessedInput"
                   (Some (NextAction.args action))), st).
Proof.
  intros Hs Hown Hstate Hscope.
  rewrite (checkReadyGate_owned st sid s auth gateAuditId Hs Hown).
  unfold Guard.nextActionsFor. rewrite Hstate. simpl.
  eexists _, _. split; [reflexivity|]. split; [reflexivity|].
  unfold Server.executeTool. simpl. rewrite Hscope. simpl.
  unfold Server.parsed. by rewrite confirmTemplate_rejected.
Qed.

Lemma gate_confirm_remediation_is_rejected_witness :
  exists err action,
    Guard.checkReadyGate Scenario.suggestedId Scenario.alice "audit_2"
      Scenario.suggestedStore = Guard.GateFailed err
    /\ ErrorResponse.next err = [action]
    /\ Server.executeTool Scenario.production (NextAction.tool action)
         (Some (NextAction.args action)) Scenario.alice "audit_3"
         (Scenario.entropyAt 2000 "z9y8x7w6v") Scenario.suggestedStore
       = (Throw (Env.zodMessage Scenario.production "ConfirmPreprocessedInput"
                   (Some (NextAction.args action))), Scenario.suggestedStore).
Proof.
  apply (gate_confirm_remediation_is_rejected Scenario.production Scenario.alice
           "audit_3" "audit_2" (Scenario.entropyAt 2000 "z9y8x7w6v")
           Scenario.suggestedStore Scenario.suggestedId
           (mkSession "ds1" SUGGESTED ["basic_clean_norm"] None Scenario.aliceOwner)).
  - vm_compute. reflexivity.
  - split; reflexivity.
  - reflexivity.
  - vm_compute. reflexivity.
Defined.
